(** * European public data pipeline (HICP): transformer, validator, loader

    A shallow embedding of the batch pipeline

      - [src/storage/blob.py]                  (module [blob]),
      - [src/ingestion/process_hicp_silver.py] (module [process_hicp_silver]),
      - [src/quality/check_hicp_quality.py]    (module [check_hicp_quality]),
      - [src/db/load_hicp_to_sql.py]           (module [load_hicp_to_sql]),

    followed by the theorems about it.  Python exceptions are values of
    [exn]; a function that may raise returns a [result].  The object store
    and the relational store are explicit states that the [main] functions
    thread through. *)

From Stdlib Require Import ZArith QArith List String Ascii Bool Lia.
From Stdlib Require Import DecimalString Permutation Sorted.
From stdpp Require Import base option list gmap strings.
From stdpp Require Import sorting.

Open Scope Z_scope.

(* ===================================================================== *)
(** * Python values shared by the stages *)
(* ===================================================================== *)

(** The text of a [RuntimeError] the pipeline raises itself; the fields are
    the values its f-string interpolates. *)
Inductive runtime_msg : Type :=
| UnexpectedPayloadKeys
    (* "Unexpected payload keys: ..." *)
| ValueLengthMismatch (got expected : Z) (sizes : list Z)
    (* "Value length mismatch: got {got}, expected {expected} from size={sizes}" *)
| NoProcessedParquet (prefix : string)
    (* "No processed parquet found under prefix: ..." *)
| LatestReportNotPass (report_blob : string).
    (* "Latest quality report is not PASS: {report_blob}" *)

(** Python exceptions, by class. *)
Inductive exn : Type :=
| RuntimeError (m : runtime_msg)
| TypeError (what : string)
| KeyError (key : string)
| IndexError (what : string)
| ValueError (what : string)
| ResourceNotFoundError (blob_path : string)
| IntegrityError (what : string).

Inductive result (A : Type) : Type :=
| Ok (a : A)
| Raise (e : exn).
Arguments Ok {A} a.
Arguments Raise {A} e.

#[global] Instance result_ret : MRet result := fun _ a => Ok a.
#[global] Instance result_bind : MBind result := fun _ _ f m =>
  match m with Ok a => f a | Raise e => Raise e end.

#[global] Instance result_fmap : FMap result := fun _ _ f m =>
  match m with Ok a => Ok (f a) | Raise e => Raise e end.

Definition is_ok {A} (r : result A) : bool :=
  match r with Ok _ => true | Raise _ => false end.

(** [[f(x) for x in l]] where [f] may raise: the first exception stops the
    loop and nothing is returned. *)
Fixpoint map_result {A B} (f : A -> result B) (l : list A) : result (list B) :=
  match l with
  | [] => Ok []
  | x :: l' => y ← f x; ys ← map_result f l'; Ok (y :: ys)
  end.

(** ** [pd.Timestamp]

    A timestamp at day resolution (the pipeline only produces midnights). *)
Record Timestamp : Type := mkTimestamp { year : Z; month : Z; day : Z }.

Definition is_leap (y : Z) : bool :=
  ((y mod 4 =? 0) && negb (y mod 100 =? 0)) || (y mod 400 =? 0).

Definition days_in_month (y m : Z) : Z :=
  if m =? 2 then (if is_leap y then 29 else 28)
  else if (m =? 4) || (m =? 6) || (m =? 9) || (m =? 11) then 30 else 31.

(** [pd.Timestamp(year, month, day)]: the three integers first go through
    [datetime(year, month, day)], which raises [ValueError] outside
    [MINYEAR..MAXYEAR], [1..12] and the days of the month.  (pandas before
    2.0 also refuses the years its nanosecond clock cannot hold, those
    outside 1677..2262; no statement below is about such a year.) *)
Definition pd_Timestamp (y m d : Z) : result Timestamp :=
  if negb ((1 <=? y) && (y <=? 9999)) then Raise (ValueError "year is out of range")
  else if negb ((1 <=? m) && (m <=? 12)) then Raise (ValueError "month must be in 1..12")
  else if negb ((1 <=? d) && (d <=? days_in_month y m))
       then Raise (ValueError "day is out of range for month")
  else Ok (mkTimestamp y m d).

Definition valid_timestamp (t : Timestamp) : Prop :=
  1 <= month t <= 12 /\ 1 <= day t <= days_in_month (year t) (month t).

Definition Timestamp_eqb (a b : Timestamp) : bool :=
  (year a =? year b) && (month a =? month b) && (day a =? day b).

Definition Timestamp_leb (a b : Timestamp) : bool :=
  (year a <? year b)
  || ((year a =? year b)
      && ((month a <? month b) || ((month a =? month b) && (day a <=? day b)))).

(** ** Table cells and [pd.DataFrame]

    A cell is null ([None], [NaN], [NaT]), a string, a float (a rational
    here) or a timestamp. *)
Inductive cell : Type :=
| CNull
| CStr (s : string)
| CNum (q : Q)
| CTime (t : Timestamp).

Definition isna (c : cell) : bool :=
  match c with CNull => true | _ => false end.

(** Equality of cells as [duplicated] and [groupby] see it: nulls are equal
    to each other, floats by value. *)
Definition cell_eqb (a b : cell) : bool :=
  match a, b with
  | CNull, CNull => true
  | CStr s, CStr s' => String.eqb s s'
  | CNum q, CNum q' => Qeq_bool q q'
  | CTime t, CTime t' => Timestamp_eqb t t'
  | _, _ => false
  end.

(** Ascending order of the cells of one column, nulls last
    ([na_position='last']).  A column has one dtype; across constructors the
    order below is by constructor. *)
Definition cell_rank (c : cell) : Z :=
  match c with CStr _ => 0 | CNum _ => 1 | CTime _ => 2 | CNull => 3 end.

Definition cell_leb (a b : cell) : bool :=
  match a, b with
  | CStr s, CStr s' => String.leb s s'
  | CNum q, CNum q' => Qle_bool q q'
  | CTime t, CTime t' => Timestamp_leb t t'
  | _, _ => cell_rank a <=? cell_rank b
  end.

(** A frame: the column labels and the rows, each row holding one cell per
    column, in column order. *)
Record DataFrame : Type := mkDataFrame {
  columns : list string;
  data : list (list cell)
}.

Definition len_df (df : DataFrame) : nat := length (data df).

(** Position of a label in [df.columns]. *)
Fixpoint index_of (c : string) (cols : list string) : option nat :=
  match cols with
  | [] => None
  | c' :: cols' => if String.eqb c c' then Some 0%nat else S <$> index_of c cols'
  end.

Definition has_column (df : DataFrame) (c : string) : bool :=
  bool_decide (c ∈ columns df).

Definition row_get (j : nat) (r : list cell) : cell := nth j r CNull.

(** [df[c]] as the list of its cells, [None] when the label is absent. *)
Definition column (df : DataFrame) (c : string) : option (list cell) :=
  j ← index_of c (columns df); Some (map (row_get j) (data df)).

(** [df[cols]] for labels that are all present. *)
Definition select_columns (df : DataFrame) (cols : list string) : DataFrame :=
  let js := omap (fun c => index_of c (columns df)) cols in
  mkDataFrame cols (map (fun r => map (fun j => row_get j r) js) (data df)).

(** [df[c] = df[c].map(f)] *)
Definition map_column (f : cell -> result cell) (c : string) (df : DataFrame)
    : result DataFrame :=
  match index_of c (columns df) with
  | None => Raise (KeyError c)
  | Some j =>
      rows ← map_result (fun r => x ← f (row_get j r); Ok (<[j := x]> r)) (data df);
      Ok (mkDataFrame (columns df) rows)
  end.

(** The cells of a row at the key positions [js]. *)
Definition key_of (js : list nat) (r : list cell) : list cell :=
  map (fun j => row_get j r) js.

Definition cells_eqb (k k' : list cell) : bool :=
  (length k =? length k')%nat && forallb (fun ab => cell_eqb (fst ab) (snd ab)) (combine k k').

(** Lexicographic order on key tuples of one length. *)
Fixpoint cells_leb (k k' : list cell) : bool :=
  match k, k' with
  | a :: l, b :: l' =>
      if negb (cell_leb b a) then true
      else if negb (cell_leb a b) then false
      else cells_leb l l'
  | _, _ => true
  end.

(** Row order of [sort_values(by)] and of the group keys of [groupby]. *)
Definition rows_leb (js : list nat) (r r' : list cell) : bool :=
  cells_leb (key_of js r) (key_of js r').

(** ** The quality report

    [{"passed": ..., "checks": [...], "summary": {...}}]; every check is a
    dict with a name, a flag and the fields of its rule. *)
Inductive check_fields : Type :=
| Missing (missing : list string)
| NullCounts (null_counts : list (string * nat))
| DuplicateRows (duplicate_rows : nat) (key_cols : list string)
| NonPositive (non_positive : nat)
| UnparseableTimeRows (unparseable_time_rows : nat)
| FreqDetails (details : list (list cell)).  (* geo, coicop, unit of each failing group *)

Record check : Type := mkCheck {
  check_name : string;
  check_passed : bool;
  check_fields_of : check_fields
}.

Record summary : Type := mkSummary {
  summary_rows : nat;
  summary_columns : list string;
  min_time : option Timestamp;
  max_time : option Timestamp;
  value_min : option Q;
  value_max : option Q
}.

Record report : Type := mkReport {
  report_passed : bool;
  report_checks : list check;
  report_summary : summary
}.

(** ** Sorting

    [sorted(..., key=...)], [list.sort(key=...)] and the multi-key
    [sort_values] are stable: an insertion sort that puts an element before
    the first one it is not greater than. *)
Fixpoint insert_sorted {A} (leb : A -> A -> bool) (x : A) (l : list A) : list A :=
  match l with
  | [] => [x]
  | y :: l' => if leb x y then x :: l else y :: insert_sorted leb x l'
  end.

Definition sort_by {A} (leb : A -> A -> bool) (l : list A) : list A :=
  fold_right (insert_sorted leb) [] l.

(** Python dicts keep insertion order: association lists with unique keys. *)
Fixpoint dict_get {V} (k : string) (d : list (string * V)) : option V :=
  match d with
  | [] => None
  | (k', v) :: d' => if String.eqb k k' then Some v else dict_get k d'
  end.

(** [d[k] = v]: overwrite in place, or append. *)
Fixpoint dict_set {V} (k : string) (v : V) (d : list (string * V)) : list (string * V) :=
  match d with
  | [] => [(k, v)]
  | (k', v') :: d' =>
      if String.eqb k k' then (k, v) :: d' else (k', v') :: dict_set k v d'
  end.

(** [sub in s] on strings. *)
Fixpoint str_contains (sub s : string) : bool :=
  String.prefix sub s
  || match s with
     | EmptyString => false
     | String _ s' => str_contains sub s'
     end.

(** [str(i)] for a non-negative integer. *)
Definition str_of_nat (i : nat) : string :=
  NilEmpty.string_of_uint (Nat.to_uint i).

(* ===================================================================== *)
(** * [src/storage/blob.py] *)
(* ===================================================================== *)

Module blob.

(** What the bytes of a blob decode to.  The pipeline writes JSON documents
    and parquet files; anything else is [Other]. *)
Inductive content : Type :=
| LatestJson (latest_report : string)
    (* {"latest_report": ...} *)
| ReportJson (processed_blob checked_at_utc : string) (r : report)
    (* {"meta": {"processed_blob": ..., "checked_at_utc": ..., ...}, "report": ...} *)
| Parquet (df : DataFrame)
| Other.

Record blob_item : Type := mkBlob {
  blob_content : content;
  last_modified : string      (* ISO-like string, set by the service *)
}.

(** The container: blob path to blob. *)
Definition container : Type := gmap string blob_item.

(** [upload_blob(data, overwrite=True)]; [now] is the service's clock. *)
Definition upload_bytes (data : content) (blob_path : string) (now : string)
    (st : gmap string blob_item) : gmap string blob_item :=
  <[blob_path := mkBlob data now]> st.

Definition download_bytes (blob_path : string) (st : gmap string blob_item)
    : result content :=
  match st !! blob_path with
  | Some b => Ok (blob_content b)
  | None => Raise (ResourceNotFoundError blob_path)
  end.

(** [BlobItemInfo]s of the blobs whose name starts with [prefix], in the
    order the service lists them. *)
Definition list_blobs (prefix : string) (st : gmap string blob_item)
    : list (string * string) :=
  map (fun kv => (fst kv, last_modified (snd kv)))
      (filter (fun kv => String.prefix prefix (fst kv) = true) (map_to_list st)).

Definition latest_blob (prefix : string) (st : gmap string blob_item)
    : option string :=
  let blobs := list_blobs prefix st in
  fst <$> last (sort_by (fun x y => String.leb (snd x) (snd y)) blobs).

Definition download_parquet (blob_path : string) (st : gmap string blob_item)
    : result DataFrame :=
  data ← download_bytes blob_path st;
  match data with
  | Parquet df => Ok df
  | _ => Raise (ValueError "not a parquet file")
  end.

End blob.

(* ===================================================================== *)
(** * [src/ingestion/process_hicp_silver.py] *)
(* ===================================================================== *)

Module process_hicp_silver.

(** ** The JSON-stat payload

    The payload is the dict [wrapper["data"]]; a key that may be absent is
    an [option].  The fields have the types the source annotates
    ([dim_order: List[str]], [sizes: List[int]]); [category.index] and
    [value] are the two places where the source dispatches on the runtime
    type, so they are tagged unions over what JSON can hold there. *)
Inductive index_t : Type :=
| IndexDict (idx : list (string * Z))   (* {code: position} *)
| IndexList (idx : list string)
| IndexOther.                           (* a string, number or boolean *)

Record category_obj : Type := mkCategory { index : option index_t }.
Record dim_obj : Type := mkDim { category : option category_obj }.

Inductive value_t : Type :=
| ValueList (l : list (option Q))              (* dense *)
| ValueDict (d : list (string * option Q))     (* sparse, keys "0", "1", ... *)
| ValueStr (s : string)                        (* has a [len], is neither *)
| ValueScalar.                                 (* number, boolean, null: no [len] *)

Record payload : Type := mkPayload {
  p_dimension : option (list (string * dim_obj));
  p_id : option (list string);
  p_size : option (list Z);
  p_value : option value_t
}.

(** [d[k]] on a lookup result: [KeyError] when the key is absent. *)
Definition getitem {V} (k : string) (o : option V) : result V :=
  match o with Some v => Ok v | None => Raise (KeyError k) end.

Definition _ordered_category_codes (d : dim_obj) : result (list string) :=
  match category d with
  | None => Ok []                       (* cat = {}, so idx is None *)
  | Some cat =>
      match index cat with
      | None => Ok []
      | Some (IndexDict idx) =>
          Ok (map fst (sort_by (fun kv kv' => snd kv <=? snd kv') idx))
      | Some (IndexList idx) => Ok idx
      | Some IndexOther => Raise (TypeError "Unsupported category.index type")
      end
  end.

(** ** The period-code pattern [^(\d{4})M(\d{2})$]

    Strings are byte strings here, so a digit is an ASCII digit. *)
Definition is_digit (c : ascii) : bool :=
  let n := nat_of_ascii c in (48 <=? n)%nat && (n <=? 57)%nat.

Definition digit_value (c : ascii) : Z := Z.of_nat (nat_of_ascii c) - 48.

(** [int(group)] on a string of digits. *)
Definition int_of_digits (l : list ascii) : Z :=
  fold_left (fun acc c => 10 * acc + digit_value c) l 0.

(** [re.match]: the two groups on a match.  [$] matches at the end of the
    string and also just before a newline that ends it. *)
Definition re_match_monthly (s : string) : option (list ascii * list ascii) :=
  match list_ascii_of_string s with
  | y1 :: y2 :: y3 :: y4 :: m :: m1 :: m2 :: rest =>
      if forallb is_digit [y1; y2; y3; y4; m1; m2]
         && Ascii.eqb m "M"%char
         && match rest with
            | [] => true
            | [nl] => Ascii.eqb nl "010"%char
            | _ => false
            end
      then Some ([y1; y2; y3; y4], [m1; m2])
      else None
  | _ => None
  end.

Section transform.

(** [pd.to_datetime(s, errors="coerce")] on one string: the library's
    general date parser, [None] for [NaT]. *)
Variable to_datetime : string -> option Timestamp.

(** [str(t)] for a cell that is not a string (a float, a timestamp). *)
Variable str_other : cell -> string.

Definition py_str (t : cell) : string :=
  match t with CStr s => s | _ => str_other t end.

Definition _parse_time_code (t : cell) : result (option Timestamp) :=
  match t with
  | CNull => Ok None
  | _ =>
      let s := py_str t in
      match re_match_monthly s with
      | Some (g1, g2) =>
          ts ← pd_Timestamp (int_of_digits g1) (int_of_digits g2) 1; Ok (Some ts)
      | None =>
          match to_datetime s with
          | None => Ok None
          | Some ts =>
              if day ts =? 1 then Ok (Some ts)
              else ts' ← pd_Timestamp (year ts) (month ts) 1; Ok (Some ts')
          end
      end
  end.

Definition cell_of_time (o : option Timestamp) : cell :=
  match o with Some ts => CTime ts | None => CNull end.

Definition cell_of_value (v : option Q) : cell :=
  match v with Some q => CNum q | None => CNull end.

(** [itertools.product] of the code lists: the last dimension varies fastest;
    the product of no list is one empty tuple. *)
Fixpoint product {A} (ls : list (list A)) : list (list A) :=
  match ls with
  | [] => [[]]
  | l :: rest => flat_map (fun x => map (cons x) (product rest)) l
  end.

(** [len(values)] *)
Definition len_values (values : value_t) : result Z :=
  match values with
  | ValueList l => Ok (Z.of_nat (length l))
  | ValueDict d => Ok (Z.of_nat (length d))
  | ValueStr s => Ok (Z.of_nat (String.length s))
  | ValueScalar => Raise (TypeError "object has no len()")
  end.

(** [{dim_order[j]: combo[j] for j in range(len(dim_order))}] *)
Definition make_row (dim_order combo : list string) : list (string * cell) :=
  fold_left (fun row kv => dict_set (fst kv) (CStr (snd kv)) row)
            (combine dim_order combo) [].

(** The value of flat position [i]. *)
Definition value_at (values : value_t) (i : nat) : result (option Q) :=
  match values with
  | ValueList l =>
      match l !! i with
      | Some v => Ok v
      | None => Raise (IndexError "list index out of range")
      end
  | ValueDict d => Ok (default None (dict_get (str_of_nat i) d))
  | _ => Raise (TypeError "Unsupported 'value' type")
  end.

(** The loop [for i, combo in enumerate(product(...))], from position [i]. *)
Fixpoint build_rows (dim_order : list string) (values : value_t)
    (i : nat) (combos : list (list string)) : result (list (list (string * cell))) :=
  match combos with
  | [] => Ok []
  | combo :: rest =>
      let row := make_row dim_order combo in
      v ← value_at values i;
      rows ← build_rows dim_order values (S i) rest;
      Ok (dict_set "value" (cell_of_value v) row :: rows)
  end.

(** [pd.DataFrame(rows)] on a list of dicts: the columns are the keys in
    order of first appearance, a key a row lacks is null there. *)
Definition add_keys (cols : list string) (row : list (string * cell)) : list string :=
  fold_left (fun cs kv => if bool_decide (fst kv ∈ cs) then cs else cs ++ [fst kv])
            row cols.

Definition DataFrame_of_rows (rows : list (list (string * cell))) : DataFrame :=
  let cols := fold_left add_keys rows [] in
  mkDataFrame cols (map (fun r => map (fun c => default CNull (dict_get c r)) cols) rows).

(** [df.sort_values(by).reset_index(drop=True)]; with no key the frame is
    returned as it is.  (On one key pandas' default sort is not stable; the
    order of rows with equal keys is then the order of this stable sort.) *)
Definition sort_values (df : DataFrame) (by_ : list string) : DataFrame :=
  let js := omap (fun c => index_of c (columns df)) by_ in
  mkDataFrame (columns df) (sort_by (rows_leb js) (data df)).

Definition jsonstat_to_dataframe (p : payload) : result DataFrame :=
  match p_dimension p, p_value p with
  | Some dim, Some values =>
      dim_order ← getitem "id" (p_id p);
      sizes ← getitem "size" (p_size p);
      (* Build ordered codes for each dimension *)
      codes_by_dim ← map_result
        (fun d => o ← getitem d (dict_get d dim); _ordered_category_codes o)
        dim_order;
      (* Sanity check *)
      let expected_len := fold_left Z.mul sizes 1 in
      n ← len_values values;
      if negb (n =? expected_len)
      then Raise (RuntimeError (ValueLengthMismatch n expected_len sizes))
      else
        (* Cartesian product in dim_order; align with flat values order *)
        rows ← build_rows dim_order values 0 (product codes_by_dim);
        let df := DataFrame_of_rows rows in
        df ← (if has_column df "time"
              then map_column (fun t => cell_of_time <$> _parse_time_code t) "time" df
              else Ok df);
        let ordered_cols :=
          filter (fun c => has_column df c = true) ["time"; "geo"; "coicop"; "unit"; "value"] in
        let by_ :=
          filter (fun c => has_column df c = true) ["geo"; "coicop"; "time"] in
        Ok (sort_values (select_columns df ordered_cols) by_)
  | _, _ => Raise (RuntimeError UnexpectedPayloadKeys)
  end.

End transform.

End process_hicp_silver.

(* ===================================================================== *)
(** * [src/quality/check_hicp_quality.py] *)
(* ===================================================================== *)

Module check_hicp_quality.

Definition PROCESSED_PREFIX_DEFAULT : string :=
  "processed/hicp/prc_hicp_midx/geo=LU/coicop=CP00/".
Definition QUALITY_PREFIX_DEFAULT : string :=
  "metadata/quality/hicp/prc_hicp_midx/geo=LU/coicop=CP00/".

(** ** Month arithmetic of [pd.date_range(..., freq="MS")] *)
Definition month_index (t : Timestamp) : Z := 12 * year t + (month t - 1).

Definition of_month_index (i : Z) : Timestamp :=
  mkTimestamp (i / 12) (i mod 12 + 1) 1.

(** [pd.date_range(start=start, end=end_, freq="MS")]: every first of a
    month from [start] to [end_], both included. *)
Definition date_range_MS (start end_ : Timestamp) : list Timestamp :=
  let first := if day start =? 1 then month_index start else month_index start + 1 in
  map (fun k => of_month_index (first + Z.of_nat k))
      (seq 0 (Z.to_nat (month_index end_ - first + 1))).

(** [Series.unique()]: the values in order of first appearance. *)
Fixpoint unique (l : list Timestamp) : list Timestamp :=
  match l with
  | [] => []
  | x :: l' => x :: filter (fun y => Timestamp_eqb x y = false) (unique l')
  end.

Definition count_true (l : list bool) : nat := length (filter (fun b => b = true) l).

Section checks.

(** [pd.to_datetime] on one string and on one number, [None] where it
    cannot produce a timestamp. *)
Variable to_datetime : string -> option Timestamp.
Variable to_datetime_num : Q -> option Timestamp.

(** [pd.to_datetime(c, errors="coerce")] *)
Definition to_datetime_coerce (c : cell) : option Timestamp :=
  match c with
  | CNull => None
  | CTime t => Some t
  | CStr s => to_datetime s
  | CNum q => to_datetime_num q
  end.

(** [pd.to_datetime(times.dropna())]: nulls are dropped, and a value that
    cannot be converted raises. *)
Fixpoint to_datetime_dropna (times : list cell) : result (list Timestamp) :=
  match times with
  | [] => Ok []
  | CNull :: rest => to_datetime_dropna rest
  | c :: rest =>
      match to_datetime_coerce c with
      | Some t => ts ← to_datetime_dropna rest; Ok (t :: ts)
      | None => Raise (ValueError "to_datetime: cannot convert")
      end
  end.

(** The distinct sorted non-null times of a series. *)
Definition distinct_sorted (ts : list Timestamp) : list Timestamp :=
  unique (sort_by Timestamp_leb ts).

Definition _monthly_frequency_ok (times : list cell) : result bool :=
  ts ← to_datetime_dropna times;
  let t := distinct_sorted ts in
  if (length t <? 3)%nat then Ok true   (* not enough info to judge *)
  else
    match head t, last t with
    | Some t0, Some tn =>
        (* expected monthly sequence from min to max *)
        let expected := date_range_MS t0 tn in
        Ok ((length expected =? length t)%nat
            && forallb (fun ab => Timestamp_eqb (fst ab) (snd ab)) (combine expected t))
    | _, _ => Ok true
    end.

(** ** The rules of [run_checks] *)
Definition required_cols : list string := ["time"; "geo"; "coicop"; "unit"; "value"].

Definition missing_cols (df : DataFrame) : list string :=
  filter (fun c => has_column df c = false) required_cols.

(** [df[required_cols].isna().sum().to_dict()] *)
Definition null_counts_of (df : DataFrame) : list (string * nat) :=
  map (fun c => (c, count_true (map isna (default [] (column df c))))) required_cols.

Definition all_zero (counts : list (string * nat)) : bool :=
  forallb (fun kv => (snd kv =? 0)%nat) counts.

(** [df.duplicated(subset=key_cols).sum()]: the rows whose key is the key of
    an earlier row. *)
Fixpoint duplicated_count (seen : list (list cell)) (keys : list (list cell)) : nat :=
  match keys with
  | [] => 0
  | k :: rest =>
      if existsb (cells_eqb k) seen then S (duplicated_count seen rest)
      else duplicated_count (k :: seen) rest
  end.

(** [(df["value"] <= 0)] on one cell: false on a null, [TypeError] on a
    string or a timestamp. *)
Definition le_zero (c : cell) : result bool :=
  match c with
  | CNum q => Ok (Qle_bool q 0)
  | CNull => Ok false
  | _ => Raise (TypeError "'<=' not supported")
  end.

(** [int((df["value"] <= 0).sum())] *)
Definition non_positive_count (values : list cell) : result nat :=
  count_true <$> map_result le_zero values.

(** [pd.to_datetime(df["time"], errors="coerce").isna().sum()] *)
Definition time_na_count (times : list cell) : nat :=
  count_true (map (fun c => bool_decide (to_datetime_coerce c = None)) times).

(** [df.groupby(group_cols)]: the groups in key order, each with its rows
    in table order; a row with a null key cell is in no group. *)
Fixpoint dedup_keys (keys : list (list cell)) : list (list cell) :=
  match keys with
  | [] => []
  | k :: rest => k :: filter (fun k' => cells_eqb k k' = false) (dedup_keys rest)
  end.

Definition groupby (js : list nat) (rows : list (list cell))
    : list (list cell * list (list cell)) :=
  let keyed := filter (fun r => forallb (fun c => negb (isna c)) (key_of js r) = true) rows in
  let keys := sort_by cells_leb (dedup_keys (map (key_of js) keyed)) in
  map (fun k => (k, filter (fun r => cells_eqb (key_of js r) k = true) keyed)) keys.

(** The loop of rule 6 over the groups: [(freq_pass, freq_details)]. *)
Fixpoint frequency_loop (jt : nat) (groups : list (list cell * list (list cell)))
    : result (bool * list (list cell)) :=
  match groups with
  | [] => Ok (true, [])
  | (k, sub) :: rest =>
      ok ← _monthly_frequency_ok (map (row_get jt) sub);
      r ← frequency_loop jt rest;
      Ok (ok && fst r, if ok then snd r else k :: snd r)
  end.

Definition Qmin_list (l : list Q) : option Q :=
  match l with
  | [] => None
  | q :: l' => Some (fold_left (fun a b => if Qle_bool b a then b else a) l' q)
  end.

Definition Qmax_list (l : list Q) : option Q :=
  match l with
  | [] => None
  | q :: l' => Some (fold_left (fun a b => if Qle_bool a b then b else a) l' q)
  end.

Definition nums_of (values : list cell) : list Q :=
  omap (fun c => match c with CNum q => Some q | _ => None end) values.

(** The summary block. *)
Definition summary_of (df : DataFrame) : summary :=
  let t := match column df "time" with
           | Some times => sort_by Timestamp_leb (omap to_datetime_coerce times)
           | None => []
           end in
  let v := match column df "value" with
           | Some values => nums_of values
           | None => []
           end in
  mkSummary (len_df df) (columns df) (head t) (last t) (Qmin_list v) (Qmax_list v).

(** One step of [run_checks]: a rule that was evaluated appends its check
    and is and-ed into [passed]. *)
Definition record_check (c : check) (acc : bool * list check) : bool * list check :=
  (fst acc && check_passed c, snd acc ++ [c]).

Definition run_checks (df : DataFrame) : result report :=
  let acc := (true, []) in
  (* 1) Schema *)
  let missing := missing_cols df in
  let acc := record_check
    (mkCheck "schema_required_columns" (length missing =? 0)%nat (Missing missing)) acc in
  (* 2) Non-null *)
  let acc :=
    if (length missing =? 0)%nat then
      let null_counts := null_counts_of df in
      record_check
        (mkCheck "non_null_required_columns" (all_zero null_counts) (NullCounts null_counts))
        acc
    else acc in
  (* 3) Duplicate key check *)
  let key_cols := filter (fun c => has_column df c = true) ["time"; "geo"; "coicop"; "unit"] in
  let acc :=
    match key_cols with
    | [] => acc
    | _ =>
        let js := omap (fun c => index_of c (columns df)) key_cols in
        let dup_count := duplicated_count [] (map (key_of js) (data df)) in
        record_check
          (mkCheck "no_duplicate_keys" (dup_count =? 0)%nat (DuplicateRows dup_count key_cols))
          acc
    end in
  (* 4) Value sanity (HICP index should be > 0) *)
  acc ← match column df "value" with
        | Some values =>
            non_positive ← non_positive_count values;
            Ok (record_check
                  (mkCheck "value_positive" (non_positive =? 0)%nat (NonPositive non_positive))
                  acc)
        | None => Ok acc
        end;
  (* 5) Time parsing ok *)
  let acc :=
    match column df "time" with
    | Some times =>
        let time_na := time_na_count times in
        record_check
          (mkCheck "time_parseable" (time_na =? 0)%nat (UnparseableTimeRows time_na)) acc
    | None => acc
    end in
  (* 6) Monthly frequency *)
  acc ← (if forallb (has_column df) ["time"; "geo"; "coicop"; "unit"] then
           let js := omap (fun c => index_of c (columns df)) ["geo"; "coicop"; "unit"] in
           let jt := default 0%nat (index_of "time" (columns df)) in
           r ← frequency_loop jt (groupby js (data df));
           Ok (record_check
                 (mkCheck "monthly_frequency_no_gaps" (fst r) (FreqDetails (snd r))) acc)
         else Ok acc);
  Ok (mkReport (fst acc) (snd acc) (summary_of df)).

End checks.

Section main.

Variable to_datetime : string -> option Timestamp.
Variable to_datetime_num : Q -> option Timestamp.

(** [main] of the validator.  [processed_prefix] and [quality_prefix] are
    the two environment lookups; [checked_at_utc] and [ts] are the two
    readings of the clock; [m1] and [m2] are the service's modification
    stamps of the two uploads.  The container is returned as the run leaves
    it; a run that raises has written nothing. *)
Definition main (processed_prefix quality_prefix checked_at_utc ts m1 m2 : string)
    (st : gmap string blob.blob_item) : result (gmap string blob.blob_item) :=
  match blob.latest_blob processed_prefix st with
  | None => Raise (RuntimeError (NoProcessedParquet processed_prefix))
  | Some processed_blob =>
      if String.eqb processed_blob ""
      then Raise (RuntimeError (NoProcessedParquet processed_prefix))
      else
        df ← blob.download_parquet processed_blob st;
        report ← run_checks to_datetime to_datetime_num df;
        let status := if report_passed report then "PASS" else "FAIL" in
        let report_blob := quality_prefix +:+ "ts=" +:+ ts +:+ "_" +:+ status +:+ ".json" in
        let st := blob.upload_bytes
                    (blob.ReportJson processed_blob checked_at_utc report) report_blob m1 st in
        (* Also write a "latest" pointer file *)
        let latest_blob_path := quality_prefix +:+ "LATEST.json" in
        let st := blob.upload_bytes (blob.LatestJson report_blob) latest_blob_path m2 st in
        Ok st
  end.

End main.

End check_hicp_quality.

(* ===================================================================== *)
(** * [src/db/load_hicp_to_sql.py] *)
(* ===================================================================== *)

Module load_hicp_to_sql.

Definition QUALITY_LATEST_PTR : string :=
  "metadata/quality/hicp/prc_hicp_midx/geo=LU/coicop=CP00/LATEST.json".

(** Read LATEST.json pointer and ensure last quality run was PASS. *)
Definition get_latest_pass_processed_blob (st : gmap string blob.blob_item)
    : result string :=
  ptr ← blob.download_bytes QUALITY_LATEST_PTR st;
  report_blob ← match ptr with
                | blob.LatestJson report_blob => Ok report_blob
                | blob.ReportJson _ _ _ => Raise (KeyError "latest_report")
                | _ => Raise (ValueError "not a JSON document")
                end;
  if negb (str_contains "_PASS.json" report_blob)
  then Raise (RuntimeError (LatestReportNotPass report_blob))
  else
    r ← blob.download_bytes report_blob st;
    match r with
    | blob.ReportJson processed_blob _ _ => Ok processed_blob
    | blob.LatestJson _ => Raise (KeyError "meta")
    | _ => Raise (ValueError "not a JSON document")
    end.

(** ** The relational store

    [dbo.fact_hicp], absent or with its rows (time, geo, coicop, unit,
    value, processed_at_utc, raw_blob), and the statements executed so far. *)
Inductive statement : Type :=
| CreateTableIfMissing
| DeleteSeries (geo coicop unit : string)
| InsertRows (rows : list (list cell)).

Record database : Type := mkDatabase {
  fact_hicp : option (list (list cell));
  executed : list statement
}.

Definition ensure_table (db : database) : database :=
  mkDatabase (Some (default [] (fact_hicp db))) (executed db ++ [CreateTableIfMissing]).

Definition in_series (geo coicop unit : string) (r : list cell) : bool :=
  cells_eqb (key_of [1; 2; 3]%nat r) [CStr geo; CStr coicop; CStr unit].

Definition delete_existing_series (db : database) (geo coicop unit : string) : database :=
  mkDatabase
    ((fun rows => filter (fun r => in_series geo coicop unit r = false) rows) <$> fact_hicp db)
    (executed db ++ [DeleteSeries geo coicop unit]).

(** The table's constraints on an insert: the [NOT NULL] columns and the
    unique index on (time, geo, coicop, unit). *)
Definition not_null_ok (r : list cell) : bool :=
  forallb (fun c => negb (isna c)) (key_of [0; 1; 2; 3; 5; 6]%nat r).

Fixpoint keys_unique (keys : list (list cell)) : bool :=
  match keys with
  | [] => true
  | k :: rest => negb (existsb (cells_eqb k) rest) && keys_unique rest
  end.

(** [df.to_sql("fact_hicp", if_exists="append")]: one transaction, so a
    violated constraint leaves the table as it was before the insert. *)
Definition to_sql (rows : list (list cell)) (db : database) : result unit * database :=
  let old := default [] (fact_hicp db) in
  let db' := mkDatabase (fact_hicp db) (executed db ++ [InsertRows rows]) in
  if forallb not_null_ok rows && keys_unique (map (key_of [0; 1; 2; 3]%nat) (old ++ rows))
  then (Ok (), mkDatabase (Some (old ++ rows)) (executed db'))
  else (Raise (IntegrityError "constraint violated"), db').

Definition table_cols : list string :=
  ["time"; "geo"; "coicop"; "unit"; "value"; "processed_at_utc"; "raw_blob"].

Section main.

Variable to_datetime : string -> option Timestamp.
Variable to_datetime_num : Q -> option Timestamp.
Variable str_other : cell -> string.

(** [pd.to_datetime(df["time"]).dt.date] on one cell. *)
Definition to_date (c : cell) : result cell :=
  match c with
  | CNull => Ok CNull
  | _ =>
      match check_hicp_quality.to_datetime_coerce to_datetime to_datetime_num c with
      | Some t => Ok (CTime t)
      | None => Raise (ValueError "to_datetime: cannot convert")
      end
  end.

Definition py_str (c : cell) : string :=
  match c with CStr s => s | _ => str_other c end.

(** Steps 1 and 2 of [main], which only read the object store: the frame to
    load and the series key taken from its first row. *)
Definition read_processed (st : gmap string blob.blob_item)
    : result (DataFrame * (string * string * string)) :=
  (* 1) Identify latest PASS parquet *)
  processed_blob ← get_latest_pass_processed_blob st;
  (* 2) Load parquet from Blob *)
  df ← blob.download_parquet processed_blob st;
  (* Keep only table columns *)
  df ← match filter (fun c => has_column df c = false) table_cols with
       | [] => Ok (select_columns df table_cols)
       | c :: _ => Raise (KeyError c)
       end;
  (* Convert to SQL compatible types *)
  df ← map_column to_date "time" df;
  match data df with
  | [] => Raise (IndexError "single positional indexer is out-of-bounds")
  | r0 :: _ =>
      Ok (df, (py_str (row_get 1 r0), py_str (row_get 2 r0), py_str (row_get 3 r0)))
  end.

(** [main] of the loader.  [sql_env] says whether the [AZURE_SQL_*]
    variables [get_sql_engine] needs are all set.  The database is returned
    as the run leaves it, also when the run raises. *)
Definition main (sql_env : bool) (st : gmap string blob.blob_item) (db : database)
    : result unit * database :=
  match read_processed st with
  | Raise e => (Raise e, db)
  | Ok (df, (geo, coicop, unit)) =>
      if negb sql_env
      then (Raise (ValueError "Missing one of the required AZURE_SQL_* environment variables."), db)
      else
        (* 3) Create table if missing *)
        let db := ensure_table db in
        (* 4) Idempotent load (delete + insert) *)
        let db := delete_existing_series db geo coicop unit in
        to_sql (data df) db
  end.

End main.

End load_hicp_to_sql.

(* ===================================================================== *)
(** * Vocabulary of the statements *)
(* ===================================================================== *)

Import process_hicp_silver.
Import check_hicp_quality.

(** ** The transformer *)

(** Steps 1 and 2 of the transformer succeed on [p]: it has the four keys
    and every dimension of "id" has a descriptor whose codes decode. *)
Definition decodes (p : payload) (dim_order : list string) (sizes : list Z)
    (codes_by_dim : list (list string)) (values : value_t) : Prop :=
  exists dim,
    p_dimension p = Some dim /\ p_value p = Some values
    /\ p_id p = Some dim_order /\ p_size p = Some sizes
    /\ map_result (fun d => o ← getitem d (dict_get d dim); _ordered_category_codes o)
                  dim_order = Ok codes_by_dim.

(** The number of tuples of the product of the code lists. *)
Fixpoint prod_lengths (ls : list (list string)) : nat :=
  match ls with
  | [] => 1
  | l :: rest => length l * prod_lengths rest
  end.

(** The last step of the transformer: keep the standard columns, sort. *)
Definition finish (df2 : DataFrame) : DataFrame :=
  sort_values
    (select_columns df2
       (filter (fun c => has_column df2 c = true) ["time"; "geo"; "coicop"; "unit"; "value"]))
    (filter (fun c => has_column df2 c = true) ["geo"; "coicop"; "time"]).

(** The positions of the sort keys of a frame. *)
Definition sort_keys (df : DataFrame) : list nat :=
  omap (fun c => index_of c (columns df))
       (filter (fun c => has_column df c = true) ["geo"; "coicop"; "time"]).

Section transform_spec.

Variable to_datetime : string -> option Timestamp.
Variable str_other : cell -> string.

(** The period codes of the cube are ones the parser returns on. *)
Definition period_codes_parse (dim_order : list string)
    (codes_by_dim : list (list string)) : Prop :=
  forall j l code,
    dim_order !! j = Some "time" -> codes_by_dim !! j = Some l -> In code l ->
    is_ok (_parse_time_code to_datetime str_other (CStr code)) = true.

(** [df2] is [df1] after the period codes of its "time" column, if it has
    one, went through the parser. *)
Definition parsed_time (df1 df2 : DataFrame) : Prop :=
  if has_column df1 "time"
  then map_column (fun t => cell_of_time <$> _parse_time_code to_datetime str_other t)
         "time" df1 = Ok df2
  else df2 = df1.

End transform_spec.

(** A dimension whose index is the dict [idx]. *)
Definition dim_of_index (idx : list (string * Z)) : process_hicp_silver.dim_obj :=
  process_hicp_silver.mkDim
    (Some (process_hicp_silver.mkCategory (Some (process_hicp_silver.IndexDict idx)))).

(** A cube of two months, its values given as the sparse map {"0": 100.0}. *)
Definition sparse_cube : process_hicp_silver.payload :=
  process_hicp_silver.mkPayload
    (Some [("time", dim_of_index [("2024M01", 0); ("2024M02", 1)])])
    (Some ["time"]) (Some [2])
    (Some (process_hicp_silver.ValueDict [("0", Some 100.0%Q)])).

(** The same cube with a second entry in the map, at an index the cube does
    not have. *)
Definition sparse_cube_two_entries : process_hicp_silver.payload :=
  process_hicp_silver.mkPayload
    (Some [("time", dim_of_index [("2024M01", 0); ("2024M02", 1)])])
    (Some ["time"]) (Some [2])
    (Some (process_hicp_silver.ValueDict [("0", Some 100.0%Q); ("2", Some 7.0%Q)])).

(** The dense cube of two months by one geo, one coicop and one unit. *)
Definition month_cube : payload :=
  mkPayload
    (Some [("time", dim_of_index [("2024M01", 0); ("2024M02", 1)]);
           ("geo", dim_of_index [("LU", 0)]);
           ("coicop", dim_of_index [("CP00", 0)]);
           ("unit", dim_of_index [("I15", 0)])])
    (Some ["time"; "geo"; "coicop"; "unit"]) (Some [2; 1; 1; 1])
    (Some (ValueList [Some 100.0%Q; Some 101.5%Q])).

(** ** The validator *)

(** A value the rule [value_positive] is about: present and at most zero. *)
Definition non_positive (c : cell) : Prop :=
  exists q, c = CNum q /\ (q <= 0)%Q.

#[global] Instance non_positive_dec c : Decision (non_positive c).
Proof.
  destruct c as [|s|q|t]; try (right; intros (q' & H & _); discriminate).
  destruct (Qle_bool q 0) eqn:E.
  - left. exists q. split; [reflexivity|]. now apply Qle_bool_iff.
  - right. intros (q' & H & Hle). injection H as <-.
    apply Qle_bool_iff in Hle. congruence.
Defined.

(** The check of a report with a given name. *)
Definition find_check (name : string) (r : report) : option check :=
  List.find (fun c => String.eqb (check_name c) name) (report_checks r).

(** The first day of the month after the month of [t]. *)
Definition next_month (t : Timestamp) : Timestamp :=
  if month t =? 12 then mkTimestamp (year t + 1) 1 1
  else mkTimestamp (year t) (month t + 1) 1.

(** Every element is the first of a month and each one is followed by the
    first of the next month. *)
Fixpoint consecutive_month_starts (l : list Timestamp) : Prop :=
  match l with
  | [] => True
  | t :: rest =>
      day t = 1
      /\ match rest with [] => True | t' :: _ => t' = next_month t end
      /\ consecutive_month_starts rest
  end.

(** [n] month starts from the month of index [i]. *)
Definition months_from (i : Z) (n : nat) : list Timestamp :=
  map (fun k => of_month_index (i + Z.of_nat k)) (seq 0 n).

(** Strictly earlier. *)
Definition Timestamp_lt (a b : Timestamp) : Prop :=
  Timestamp_leb a b = true /\ a <> b.

(** The first of January, of February and of April 2024. *)
Definition jan := mkTimestamp 2024 1 1.
Definition feb := mkTimestamp 2024 2 1.
Definition apr := mkTimestamp 2024 4 1.

(** What a cell of a float column and of a timestamp column can be. *)
Definition num_or_null (c : cell) : Prop := c = CNull \/ exists q, c = CNum q.
Definition time_or_null (c : cell) : Prop := c = CNull \/ exists t, c = CTime t.

(** The value column holds floats and the time column timestamps, as in the
    parquet files the transformer writes. *)
Definition typed_frame (df : DataFrame) : Prop :=
  (forall values, column df "value" = Some values -> Forall num_or_null values)
  /\ (forall times, column df "time" = Some times -> Forall time_or_null times).

(** Two rows of one series, January and February 2024. *)
Definition two_months : DataFrame :=
  mkDataFrame ["time"; "geo"; "coicop"; "unit"; "value"]
    [[CTime jan; CStr "LU"; CStr "CP00"; CStr "I15"; CNum 100.0];
     [CTime feb; CStr "LU"; CStr "CP00"; CStr "I15"; CNum 101.5]].

(** The same rows without the "unit" column. *)
Definition two_months_no_unit : DataFrame :=
  mkDataFrame ["time"; "geo"; "coicop"; "value"]
    [[CTime jan; CStr "LU"; CStr "CP00"; CNum 100.0];
     [CTime feb; CStr "LU"; CStr "CP00"; CNum 101.5]].

(** A frame with a value at zero: its report fails. *)
Definition zero_value : DataFrame :=
  mkDataFrame ["time"; "geo"; "coicop"; "unit"; "value"]
    [[CTime jan; CStr "LU"; CStr "CP00"; CStr "I15"; CNum 0.0]].

(** ** The runs *)

(** The key of a processed table. *)
Definition processed_key : string :=
  "processed/hicp/prc_hicp_midx/geo=LU/coicop=CP00/ts=20240301_115900.parquet".

(** A container that holds one processed table. *)
Definition one_processed (df : DataFrame) : gmap string blob.blob_item :=
  {[ processed_key := blob.mkBlob (blob.Parquet df) "2024-03-01T11:59:00+00:00" ]}.

(** A run of the validator on a container that holds just [df]. *)
Definition run_validator (df : DataFrame) : result (gmap string blob.blob_item) :=
  check_hicp_quality.main (fun _ => None) (fun _ => None)
    PROCESSED_PREFIX_DEFAULT QUALITY_PREFIX_DEFAULT
    "2024-03-01T12:00:00+00:00" "20240301_120000"
    "2024-03-01T12:00:01+00:00" "2024-03-01T12:00:02+00:00"
    (one_processed df).

(** The key of the report of that run when the report fails. *)
Definition fail_key : string :=
  "metadata/quality/hicp/prc_hicp_midx/geo=LU/coicop=CP00/ts=20240301_120000_FAIL.json".

(** The container after the validator ran on [zero_value]. *)
Definition after_failing_run : gmap string blob.blob_item :=
  blob.upload_bytes (blob.LatestJson fail_key) load_hicp_to_sql.QUALITY_LATEST_PTR
    "2024-03-01T12:00:02+00:00"
    (blob.upload_bytes
       (blob.ReportJson processed_key "2024-03-01T12:00:00+00:00"
          (mkReport false
             [mkCheck "schema_required_columns" true (Missing []);
              mkCheck "non_null_required_columns" true
                (NullCounts [("time", 0); ("geo", 0); ("coicop", 0); ("unit", 0);
                             ("value", 0)]%nat);
              mkCheck "no_duplicate_keys" true
                (DuplicateRows 0 ["time"; "geo"; "coicop"; "unit"]);
              mkCheck "value_positive" false (NonPositive 1);
              mkCheck "time_parseable" true (UnparseableTimeRows 0);
              mkCheck "monthly_frequency_no_gaps" true (FreqDetails [])]
             (mkSummary 1 ["time"; "geo"; "coicop"; "unit"; "value"]
                (Some jan) (Some jan) (Some 0.0%Q) (Some 0.0%Q))))
       fail_key "2024-03-01T12:00:01+00:00" (one_processed zero_value)).

(** A relational store that already holds a row. *)
Definition loaded_before : load_hicp_to_sql.database :=
  load_hicp_to_sql.mkDatabase
    (Some [[CTime jan; CStr "LU"; CStr "CP00"; CStr "I15"; CNum 100.0;
            CStr "2024-02-01T00:00:00+00:00"; CStr "raw/x.json"]])
    [load_hicp_to_sql.CreateTableIfMissing].

(** ** Further vocabulary *)


(** A cube whose "size" says one period where the index has two. *)
Definition short_cube : payload :=
  mkPayload
    (Some [("time", dim_of_index [("2024M01", 0); ("2024M02", 1)])])
    (Some ["time"]) (Some [1])
    (Some (ValueList [Some 100.0%Q])).

(** A cube with a dimension that has no category. *)
Definition empty_cube : payload :=
  mkPayload
    (Some [("time", dim_of_index [("2024M01", 0)]); ("geo", dim_of_index [])])
    (Some ["time"; "geo"]) (Some [1; 0])
    (Some (ValueList [])).

(** The key columns of rule 3 of the validator, and the key of every row. *)
Definition key_cols_of (df : DataFrame) : list string :=
  filter (fun c => has_column df c = true) ["time"; "geo"; "coicop"; "unit"].

Definition keys_of (df : DataFrame) : list (list cell) :=
  map (key_of (omap (fun c => index_of c (columns df)) (key_cols_of df))) (data df).

(** The groups of rule 6 of the validator and the position of the times. *)
Definition series_of (df : DataFrame) : list (list cell * list (list cell)) :=
  groupby (omap (fun c => index_of c (columns df)) ["geo"; "coicop"; "unit"]) (data df).

Definition time_position (df : DataFrame) : nat :=
  default 0%nat (index_of "time" (columns df)).

(** A value that is present and strictly positive. *)
Definition positive_value (c : cell) : Prop := exists q, c = CNum q /\ (0 < q)%Q.

(** One row whose time is a text that is not a date. *)
Definition bad_time : DataFrame :=
  mkDataFrame ["time"; "geo"; "coicop"; "unit"; "value"]
    [[CStr "n/a"; CStr "LU"; CStr "CP00"; CStr "I15"; CNum 100.0]].

(** ** The loader *)


(** A processed table that holds two series: the unit differs. *)
Definition two_units_processed : DataFrame :=
  mkDataFrame ["time"; "geo"; "coicop"; "unit"; "value"; "processed_at_utc"; "raw_blob"]
    [[CTime jan; CStr "LU"; CStr "CP00"; CStr "I15"; CNum 100.0;
      CStr "2024-03-01T11:59:00+00:00"; CStr "raw/x.json"];
     [CTime jan; CStr "LU"; CStr "CP00"; CStr "I05"; CNum 90.0;
      CStr "2024-03-01T11:59:00+00:00"; CStr "raw/x.json"]].

(** The container after the validator ran on a container that holds [df]. *)
Definition validated (df : DataFrame) : gmap string blob.blob_item :=
  match run_validator df with Ok st => st | Raise _ => one_processed df end.

(** A relational store in which nothing was executed. *)
Definition fresh_database : load_hicp_to_sql.database :=
  load_hicp_to_sql.mkDatabase None [].

(** The rows of a table that are not of the series. *)
Definition other_series (geo coicop unit : string) (rows : list (list cell))
    : list (list cell) :=
  filter (fun r => load_hicp_to_sql.in_series geo coicop unit r = false) rows.


(** A text of digits and underscores, as [strftime("%Y%m%d_%H%M%S")]
    returns. *)
Definition strftime_text (ts : string) : bool :=
  forallb (fun c => is_digit c || Ascii.eqb c "_") (list_ascii_of_string ts).

(** The table after the mixed batch [two_units_processed] was loaded into a
    database in which nothing was executed. *)
Definition two_units_loaded : load_hicp_to_sql.database :=
  load_hicp_to_sql.mkDatabase (Some (data two_units_processed))
    [load_hicp_to_sql.CreateTableIfMissing;
     load_hicp_to_sql.DeleteSeries "LU" "CP00" "I15";
     load_hicp_to_sql.InsertRows (data two_units_processed)].



(** A processed table with its seven columns and no row. *)
Definition no_rows_processed : DataFrame :=
  mkDataFrame ["time"; "geo"; "coicop"; "unit"; "value"; "processed_at_utc"; "raw_blob"] [].

(* ===================================================================== *)
(** * Facts about the shared definitions *)
(* ===================================================================== *)

Ltac invert H := inversion H; subst; clear H.

Lemma bind_Ok {A B} (m : result A) (f : A -> result B) b :
  (m ≫= f) = Ok b -> exists a, m = Ok a /\ f a = Ok b.
Proof. destruct m as [a|e]; simpl; [eauto | discriminate]. Qed.

Section result_facts.
Context {A B : Type}.

Lemma map_result_Forall2 (f : A -> result B) l l' :
  map_result f l = Ok l' -> Forall2 (fun x y => f x = Ok y) l l'.
Proof.
  revert l'. induction l as [|x l IH]; simpl; intros l' H.
  - invert H. constructor.
  - apply bind_Ok in H as (y & Hy & H). apply bind_Ok in H as (ys & Hys & H).
    invert H. constructor; auto.
Qed.

Lemma map_result_total (f : A -> result B) l :
  List.Forall (fun x => is_ok (f x) = true) l -> exists l', map_result f l = Ok l'.
Proof.
  induction 1 as [|x l Hx _ [l' IH]]; simpl; [eauto|].
  destruct (f x) as [y|e]; [|discriminate]. simpl. rewrite IH. simpl. eauto.
Qed.

End result_facts.

Section sort_facts.
Context {A : Type} (leb : A -> A -> bool).

Lemma insert_sorted_Permutation x l : Permutation (insert_sorted leb x l) (x :: l).
Proof.
  induction l as [|y l IH]; simpl; [reflexivity|].
  destruct (leb x y); [reflexivity|].
  rewrite IH. apply perm_swap.
Qed.

Lemma sort_by_Permutation l : Permutation (sort_by leb l) l.
Proof.
  induction l as [|x l IH]; simpl; [reflexivity|].
  unfold sort_by in *. simpl. rewrite insert_sorted_Permutation. now constructor.
Qed.

Lemma sort_by_length l : length (sort_by leb l) = length l.
Proof. apply Permutation_length, sort_by_Permutation. Qed.

Hypothesis leb_total : forall a b, leb a b = true \/ leb b a = true.

Lemma insert_sorted_Sorted x l :
  Sorted (fun a b => leb a b = true) l ->
  Sorted (fun a b => leb a b = true) (insert_sorted leb x l).
Proof.
  induction 1 as [|y l Hs IH Hhd]; simpl.
  - repeat constructor.
  - destruct (leb x y) eqn:E.
    + repeat constructor; auto.
    + constructor; [exact IH|].
      destruct l as [|z l]; simpl.
      * constructor. destruct (leb_total x y); congruence.
      * invert Hhd. destruct (leb x z); constructor; auto.
        destruct (leb_total x y); congruence.
Qed.

Lemma sort_by_Sorted l : Sorted (fun a b => leb a b = true) (sort_by leb l).
Proof.
  induction l as [|x l IH]; [constructor|].
  unfold sort_by in *. simpl. now apply insert_sorted_Sorted.
Qed.

End sort_facts.

(** The orders the sorts use are total. *)
Lemma Timestamp_leb_total a b : Timestamp_leb a b = true \/ Timestamp_leb b a = true.
Proof.
  unfold Timestamp_leb.
  destruct (Z.ltb_spec (year a) (year b)), (Z.ltb_spec (year b) (year a)),
    (Z.eqb_spec (year a) (year b)), (Z.eqb_spec (year b) (year a)),
    (Z.ltb_spec (month a) (month b)), (Z.ltb_spec (month b) (month a)),
    (Z.eqb_spec (month a) (month b)), (Z.eqb_spec (month b) (month a)),
    (Z.leb_spec (day a) (day b)), (Z.leb_spec (day b) (day a)); simpl; auto; lia.
Qed.

Lemma cell_leb_total a b : cell_leb a b = true \/ cell_leb b a = true.
Proof.
  destruct a, b; simpl; auto using String.leb_total, Timestamp_leb_total.
  destruct (Qle_bool q q0) eqn:E; auto. right.
  apply Qle_bool_iff. apply Qlt_le_weak, Qnot_le_lt. intros H.
  apply Qle_bool_iff in H. congruence.
Qed.

Lemma cells_leb_total k k' : cells_leb k k' = true \/ cells_leb k' k = true.
Proof.
  revert k'. induction k as [|a k IH]; intros [|b k']; simpl; auto.
  destruct (cell_leb_total a b) as [H|H]; rewrite H; simpl;
    destruct (cell_leb b a) eqn:E1, (cell_leb a b) eqn:E2; simpl; auto; congruence.
Qed.

Lemma rows_leb_total js r r' : rows_leb js r r' = true \/ rows_leb js r' r = true.
Proof. apply cells_leb_total. Qed.

(** ** The sort orders are transitive *)
Lemma String_leb_trans s1 s2 s3 :
  String.leb s1 s2 = true -> String.leb s2 s3 = true -> String.leb s1 s3 = true.
Proof.
  unfold String.leb. revert s2 s3.
  induction s1 as [|c1 s1 IH]; intros [|c2 s2] [|c3 s3]; simpl; try congruence.
  unfold Ascii.compare.
  destruct (N.compare_spec (N_of_ascii c1) (N_of_ascii c2)) as [E12|L12|G12];
    destruct (N.compare_spec (N_of_ascii c2) (N_of_ascii c3)) as [E23|L23|G23];
    destruct (N.compare_spec (N_of_ascii c1) (N_of_ascii c3)) as [E13|L13|G13];
    try congruence; try lia.
  apply IH.
Qed.

Lemma Timestamp_leb_trans a b c :
  Timestamp_leb a b = true -> Timestamp_leb b c = true -> Timestamp_leb a c = true.
Proof.
  unfold Timestamp_leb.
  rewrite !orb_true_iff, !andb_true_iff, !orb_true_iff, !andb_true_iff,
    !Z.ltb_lt, !Z.eqb_eq, !Z.leb_le. lia.
Qed.

Lemma cell_leb_trans a b c :
  cell_leb a b = true -> cell_leb b c = true -> cell_leb a c = true.
Proof.
  destruct a, b, c; simpl; try reflexivity; try discriminate;
    eauto using String_leb_trans, Timestamp_leb_trans.
  rewrite !Qle_bool_iff. apply Qle_trans.
Qed.

Lemma cells_leb_trans k1 : forall k2 k3,
  length k1 = length k2 -> length k2 = length k3 ->
  cells_leb k1 k2 = true -> cells_leb k2 k3 = true -> cells_leb k1 k3 = true.
Proof.
  induction k1 as [|a k1 IH]; intros [|b k2] [|c k3]; simpl; try discriminate; auto.
  intros H1 H2.
  destruct (cell_leb b a) eqn:Eba, (cell_leb a b) eqn:Eab,
           (cell_leb c b) eqn:Ecb, (cell_leb b c) eqn:Ebc,
           (cell_leb c a) eqn:Eca, (cell_leb a c) eqn:Eac; simpl;
    try discriminate; auto;
    try (pose proof (cell_leb_trans _ _ _ Eab Ebc); congruence);
    try (pose proof (cell_leb_trans _ _ _ Ecb Eba); congruence);
    try (pose proof (cell_leb_trans _ _ _ Eca Eab); congruence);
    try (pose proof (cell_leb_trans _ _ _ Ebc Eca); congruence);
    try (pose proof (cell_leb_trans _ _ _ Eac Ecb); congruence);
    try (pose proof (cell_leb_trans _ _ _ Eba Eac); congruence);
    try (destruct (cell_leb_total a b); congruence);
    try (destruct (cell_leb_total b c); congruence);
    try (destruct (cell_leb_total a c); congruence).
  apply IH; lia.
Qed.

Lemma rows_leb_trans js r1 r2 r3 :
  rows_leb js r1 r2 = true -> rows_leb js r2 r3 = true -> rows_leb js r1 r3 = true.
Proof.
  unfold rows_leb, key_of. apply cells_leb_trans; now rewrite !List.length_map.
Qed.

Lemma sort_by_StronglySorted_rows js rows :
  StronglySorted (fun r r' => rows_leb js r r' = true) (sort_by (rows_leb js) rows).
Proof.
  apply Sorted_StronglySorted.
  - intros r1 r2 r3. apply rows_leb_trans.
  - apply sort_by_Sorted. apply rows_leb_total.
Qed.

(** ** Dicts and frames *)
Lemma dict_get_set {V} k k' (v : V) d :
  dict_get k (dict_set k' v d) = if String.eqb k k' then Some v else dict_get k d.
Proof.
  induction d as [|[k0 v0] d IH]; simpl.
  - reflexivity.
  - destruct (String.eqb_spec k' k0) as [->|Hne]; simpl.
    + destruct (String.eqb k k0); reflexivity.
    + rewrite IH. destruct (String.eqb_spec k k0) as [->|]; [|reflexivity].
      destruct (String.eqb_spec k0 k'); congruence.
Qed.

Lemma index_of_lookup c cols j : index_of c cols = Some j -> cols !! j = Some c.
Proof.
  revert j. induction cols as [|c' cols IH]; simpl; intros j H; [discriminate|].
  destruct (String.eqb_spec c c') as [->|].
  - invert H. reflexivity.
  - destruct (index_of c cols) as [j'|]; simpl in H; invert H. simpl. auto.
Qed.

Lemma index_of_elem c cols : c ∈ cols -> exists j, index_of c cols = Some j.
Proof.
  induction 1 as [c cols|c c' cols _ [j IH]]; simpl.
  - rewrite String.eqb_refl. eauto.
  - destruct (String.eqb c c'); [eauto|]. rewrite IH. simpl. eauto.
Qed.

Lemma row_get_map {X} (g : X -> cell) (l : list X) j x :
  l !! j = Some x -> row_get j (map g l) = g x.
Proof.
  unfold row_get. revert j. induction l as [|y l IH]; intros [|j]; simpl; intros H;
    try discriminate.
  - now invert H.
  - auto.
Qed.

Lemma map_column_Ok f c df df' :
  map_column f c df = Ok df' ->
  exists j, index_of c (columns df) = Some j
    /\ columns df' = columns df
    /\ Forall2 (fun r r' => exists x, f (row_get j r) = Ok x /\ r' = <[j := x]> r)
               (data df) (data df').
Proof.
  unfold map_column. destruct (index_of c (columns df)) as [j|]; [|discriminate].
  intros H. apply bind_Ok in H as (rows & Hrows & H). invert H.
  exists j. repeat split; simpl.
  apply map_result_Forall2 in Hrows. eapply Forall2_impl; [exact Hrows|].
  simpl. intros r r' Hr. apply bind_Ok in Hr as (x & Hx & Hr). invert Hr. eauto.
Qed.

Lemma map_column_total f c df :
  c ∈ columns df ->
  (forall j r, index_of c (columns df) = Some j -> In r (data df) ->
     is_ok (f (row_get j r)) = true) ->
  exists df', map_column f c df = Ok df'.
Proof.
  intros Hc Hf. unfold map_column.
  destruct (index_of_elem _ _ Hc) as [j Hj]. rewrite Hj.
  destruct (map_result_total (fun r => x ← f (row_get j r); Ok (<[j := x]> r)) (data df))
    as [rows Hrows].
  - apply List.Forall_forall. intros r Hr. specialize (Hf j r Hj Hr).
    destruct (f (row_get j r)); [reflexivity|discriminate].
  - rewrite Hrows. simpl. eauto.
Qed.

(* ===================================================================== *)
(** * The transformer *)
(* ===================================================================== *)

Section transform_facts.

Variable to_datetime : string -> option Timestamp.
Variable str_other : cell -> string.

Local Abbreviation transform := (jsonstat_to_dataframe to_datetime str_other).
Local Abbreviation parse := (_parse_time_code to_datetime str_other).

Lemma length_flat_map_const {X Y} (g : X -> list Y) n l :
  (forall x, length (g x) = n) -> length (flat_map g l) = (length l * n)%nat.
Proof.
  intros Hg. induction l as [|x l IH]; simpl; [reflexivity|].
  rewrite List.length_app, Hg, IH. reflexivity.
Qed.

Lemma product_length (ls : list (list string)) :
  length (product ls) = prod_lengths ls.
Proof.
  induction ls as [|l ls IH]; simpl; [reflexivity|].
  rewrite (length_flat_map_const _ (prod_lengths ls)); [reflexivity|].
  intros x. rewrite List.length_map. exact IH.
Qed.

Lemma product_In (ls : list (list string)) combo :
  In combo (product ls) -> Forall2 (fun x l => In x l) combo ls.
Proof.
  revert combo. induction ls as [|l ls IH]; simpl; intros combo H.
  - destruct H as [<-|[]]. constructor.
  - apply in_flat_map in H as (x & Hx & H). apply in_map_iff in H as (c & <- & Hc).
    constructor; auto.
Qed.

(** The enumeration is row-major: with [n] tuples over the dimensions that
    follow, the tuple that starts with the code of position [a] and goes on
    with the tuple of position [b] is at position [a * n + b]. *)
Lemma product_lookup (l : list string) (rest : list (list string)) a b x combo :
  l !! a = Some x -> product rest !! b = Some combo ->
  product (l :: rest) !! (a * length (product rest) + b)%nat = Some (x :: combo).
Proof.
  intros Ha Hb. simpl product. revert a Ha.
  induction l as [|y l IH]; intros a Ha; [discriminate|].
  simpl flat_map. destruct a as [|a]; simpl in Ha.
  - invert Ha. simpl. rewrite lookup_app_l.
    + rewrite list_lookup_fmap, Hb. reflexivity.
    + rewrite List.length_map. now apply lookup_lt_Some in Hb.
  - rewrite lookup_app_r by (rewrite List.length_map; simpl; lia).
    rewrite List.length_map.
    replace (S a * length (product rest) + b - length (product rest))%nat
      with (a * length (product rest) + b)%nat by (simpl; lia).
    apply IH. exact Ha.
Qed.

Lemma fold_left_mul (sizes : list Z) a :
  fold_left Z.mul sizes a = a * fold_left Z.mul sizes 1.
Proof.
  revert a. induction sizes as [|s sizes IH]; simpl; intros a; [lia|].
  rewrite (IH (a * s)), (IH (1 * s)). lia.
Qed.

Lemma expected_len_of_codes (ls : list (list string)) :
  fold_left Z.mul (map (fun l => Z.of_nat (length l)) ls) 1 = Z.of_nat (prod_lengths ls).
Proof.
  induction ls as [|l ls IH]; simpl; [reflexivity|].
  rewrite fold_left_mul, IH. lia.
Qed.

(** ** The rows *)
Lemma make_row_get_from (ids combo : list string) acc k c :
  dict_get k (fold_left (fun row kv => dict_set (fst kv) (CStr (snd kv)) row)
                        (combine ids combo) acc) = Some c ->
  dict_get k acc = Some c
  \/ exists j code, ids !! j = Some k /\ combo !! j = Some code /\ c = CStr code.
Proof.
  revert combo acc. induction ids as [|d ids IH]; intros [|x combo] acc; simpl; auto.
  intros H. apply IH in H as [H|(j & code & H1 & H2 & H3)].
  - rewrite dict_get_set in H. destruct (String.eqb_spec k d) as [->|]; [|auto].
    invert H. right. exists 0%nat, x. auto.
  - right. exists (S j), code. auto.
Qed.

Lemma make_row_get ids combo k c :
  dict_get k (make_row ids combo) = Some c ->
  exists j code, ids !! j = Some k /\ combo !! j = Some code /\ c = CStr code.
Proof.
  intros H. apply make_row_get_from in H as [H|H]; [discriminate|exact H].
Qed.

(** Position [i] of the enumeration takes the value of flat index [i]. *)
Lemma build_rows_lookup ids values combos : forall i rows,
  build_rows ids values i combos = Ok rows ->
  length rows = length combos
  /\ forall k combo, combos !! k = Some combo ->
       exists v, value_at values (i + k) = Ok v
         /\ rows !! k = Some (dict_set "value" (cell_of_value v) (make_row ids combo)).
Proof.
  induction combos as [|combo combos IH]; simpl; intros i rows H.
  - invert H. split; [reflexivity|]. intros k c Hk. discriminate.
  - apply bind_Ok in H as (v & Hv & H). apply bind_Ok in H as (rest & Hrest & H).
    invert H. destruct (IH _ _ Hrest) as [Hlen Hlk]. split; [simpl; congruence|].
    intros [|k] c Hk; simpl in *.
    + invert Hk. exists v. rewrite Nat.add_0_r. auto.
    + destruct (Hlk k c Hk) as (v' & Hv' & Hr). exists v'.
      replace (i + S k)%nat with (S i + k)%nat by lia. auto.
Qed.

Lemma build_rows_dense ids l combos : forall i,
  (i + length combos <= length l)%nat ->
  exists rows, build_rows ids (ValueList l) i combos = Ok rows.
Proof.
  induction combos as [|combo combos IH]; simpl; intros i Hi; [eauto|].
  destruct (lookup_lt_is_Some_2 l i) as [v Hv]; [lia|]. rewrite Hv. simpl.
  destruct (IH (S i)) as [rows Hrows]; [lia|]. rewrite Hrows. simpl. eauto.
Qed.

Lemma transform_after_check p ids sizes codes values n :
  decodes p ids sizes codes values ->
  len_values values = Ok n ->
  transform p =
    if negb (n =? fold_left Z.mul sizes 1)
    then Raise (RuntimeError (ValueLengthMismatch n (fold_left Z.mul sizes 1) sizes))
    else
      rows ← build_rows ids values 0 (product codes);
      df2 ← (if has_column (DataFrame_of_rows rows) "time"
             then map_column (fun t => cell_of_time <$> parse t) "time"
                    (DataFrame_of_rows rows)
             else Ok (DataFrame_of_rows rows));
      Ok (finish df2).
Proof.
  intros (dim & Hd & Hv & Hi & Hs & Hc) Hn.
  unfold jsonstat_to_dataframe. rewrite Hd, Hv, Hi, Hs. simpl.
  rewrite Hc. simpl. rewrite Hn. simpl. reflexivity.
Qed.

Lemma transform_Ok_inv p ids sizes codes values df :
  decodes p ids sizes codes values ->
  transform p = Ok df ->
  exists rows df2,
    len_values values = Ok (fold_left Z.mul sizes 1)
    /\ build_rows ids values 0 (product codes) = Ok rows
    /\ parsed_time to_datetime str_other (DataFrame_of_rows rows) df2
    /\ df = finish df2.
Proof.
  intros Hdec H.
  destruct (len_values values) as [n|e] eqn:Hn.
  - rewrite (transform_after_check _ _ _ _ _ _ Hdec Hn) in H.
    destruct (Z.eqb_spec n (fold_left Z.mul sizes 1)) as [Heq|Hne]; simpl in H;
      [subst n|discriminate].
    apply bind_Ok in H as (rows & Hrows & H). apply bind_Ok in H as (df2 & Hdf2 & H).
    invert H. exists rows, df2. repeat split; auto.
    unfold parsed_time. destruct (has_column (DataFrame_of_rows rows) "time"); congruence.
  - destruct Hdec as (dim & Hd & Hv & Hi & Hs & Hc).
    unfold jsonstat_to_dataframe in H. rewrite Hd, Hv, Hi, Hs in H. simpl in H.
    rewrite Hc in H. simpl in H. rewrite Hn in H. discriminate.
Qed.

Lemma finish_length df2 : len_df (finish df2) = len_df df2.
Proof.
  unfold finish, sort_values, len_df. simpl.
  rewrite sort_by_length, List.length_map. reflexivity.
Qed.

Lemma parsed_time_length df1 df2 :
  parsed_time to_datetime str_other df1 df2 -> len_df df2 = len_df df1.
Proof.
  unfold parsed_time, len_df. destruct (has_column df1 "time"); [|congruence].
  intros H. apply map_column_Ok in H as (j & _ & _ & H).
  symmetry. eapply Forall2_length, H.
Qed.

(** A row of the loop holds, under "time", null or a code of a dimension
    called "time". *)
Lemma build_rows_In ids values combos : forall i rows r,
  build_rows ids values i combos = Ok rows -> In r rows ->
  exists combo v, In combo combos
    /\ r = dict_set "value" (cell_of_value v) (make_row ids combo).
Proof.
  induction combos as [|combo combos IH]; simpl; intros i rows r H Hr.
  - invert H. destruct Hr.
  - apply bind_Ok in H as (v & Hv & H). apply bind_Ok in H as (rest & Hrest & H).
    invert H. destruct Hr as [<-|Hr]; [eauto|].
    destruct (IH _ _ _ Hrest Hr) as (c & v' & Hc & ->). eauto.
Qed.

Lemma time_cells_parse ids codes values rows :
  period_codes_parse to_datetime str_other ids codes ->
  build_rows ids values 0 (product codes) = Ok rows ->
  exists df2, parsed_time to_datetime str_other (DataFrame_of_rows rows) df2.
Proof.
  intros Hp Hrows. unfold parsed_time.
  destruct (has_column (DataFrame_of_rows rows) "time") eqn:Hc; [|eauto].
  apply bool_decide_eq_true in Hc.
  apply map_column_total; [exact Hc|].
  intros j r Hj Hr. simpl in Hr. apply in_map_iff in Hr as (row & <- & Hrow).
  apply index_of_lookup in Hj. rewrite (row_get_map _ _ _ _ Hj).
  destruct (build_rows_In _ _ _ _ _ _ Hrows Hrow) as (combo & v & Hcombo & ->).
  rewrite dict_get_set. simpl.
  destruct (dict_get "time" (make_row ids combo)) as [c|] eqn:Hg; [|reflexivity].
  apply make_row_get in Hg as (k & code & Hk & Hcode & ->).
  apply product_In in Hcombo.
  destruct (Forall2_lookup_l _ _ _ _ _ Hcombo Hcode) as (l & Hl & Hin).
  specialize (Hp k l code Hk Hl Hin).
  change (default CNull (Some (CStr code))) with (CStr code).
  destruct (parse (CStr code)); [reflexivity|discriminate].
Qed.

End transform_facts.

(* ===================================================================== *)
(** * The transformer: theorems *)
(* ===================================================================== *)

Section transform_keys.

Variable to_datetime : string -> option Timestamp.
Variable str_other : cell -> string.

Local Abbreviation transform := (jsonstat_to_dataframe to_datetime str_other).

(** A payload with the keys "dimension" and "value" gets past the guard:
    what it returns is what the two lookups that follow return. *)
Lemma transform_without_id (p : payload) dim values :
  p_dimension p = Some dim -> p_value p = Some values -> p_id p = None ->
  transform p = Raise (KeyError "id").
Proof.
  intros Hd Hv Hi. unfold jsonstat_to_dataframe. rewrite Hd, Hv, Hi. reflexivity.
Qed.

Lemma transform_without_size (p : payload) dim values ids :
  p_dimension p = Some dim -> p_value p = Some values ->
  p_id p = Some ids -> p_size p = None ->
  transform p = Raise (KeyError "size").
Proof.
  intros Hd Hv Hi Hs. unfold jsonstat_to_dataframe. rewrite Hd, Hv, Hi, Hs. reflexivity.
Qed.

End transform_keys.

(** C1 (the code at the failing input).  The loop reads a sparse map by
    the stringified index and takes null for an absent one.  But on the
    sparse cube whose value map is {"0": 100.0} and whose size is 2 the
    sanity check, which comes first, compares [len(values)], the number of
    entries of the map, with the product of the sizes and raises the length
    mismatch: no row is produced.  The same cube is only accepted with a
    second entry in the map, whatever its key. *)
Theorem sparse_cube_is_rejected :
  forall to_datetime str_other,
    (forall d i,
       process_hicp_silver.value_at (process_hicp_silver.ValueDict d) i
       = Ok (default None (dict_get (str_of_nat i) d)))
    /\ process_hicp_silver.len_values
         (process_hicp_silver.ValueDict [("0", Some 100.0%Q)]) = Ok 1
    /\ process_hicp_silver.jsonstat_to_dataframe to_datetime str_other sparse_cube
       = Raise (RuntimeError (ValueLengthMismatch 1 2 [2]))
    /\ process_hicp_silver.jsonstat_to_dataframe to_datetime str_other
         sparse_cube_two_entries
       = Ok (mkDataFrame ["time"; "value"]
               [[CTime (mkTimestamp 2024 1 1); CNum 100.0];
                [CTime (mkTimestamp 2024 2 1); CNull]]).
Proof. intros. repeat split; reflexivity. Qed.

Lemma pd_Timestamp_first_of_month y m :
  1 <= y <= 9999 -> 1 <= m <= 12 -> pd_Timestamp y m 1 = Ok (mkTimestamp y m 1).
Proof.
  intros Hy Hm. unfold pd_Timestamp.
  destruct (Z.leb_spec 1 y), (Z.leb_spec y 9999); try lia.
  destruct (Z.leb_spec 1 m), (Z.leb_spec m 12); try lia. simpl.
  assert (H28 : 28 <= days_in_month y m).
  { unfold days_in_month. destruct (m =? 2); [destruct (is_leap y); lia|].
    destruct ((m =? 4) || (m =? 6) || (m =? 9) || (m =? 11)); lia. }
  destruct (Z.leb_spec 1 (days_in_month y m)); [reflexivity|lia].
Qed.

(** C2 (the code at the failing input).  A string that matches the pattern
    with a month from 01 to 12 is the first day of that month, so "2024M01"
    is the first of January 2024; a string that does not match and that the
    general parser cannot read is null.  But "2024M13" matches the pattern
    (two digits), so the month 13 goes to the timestamp constructor, which
    raises: the general parser is never tried and no null is returned. *)
Theorem parse_time_code_month_13_raises :
  forall to_datetime str_other,
    (forall s g1 g2,
       process_hicp_silver.re_match_monthly s = Some (g1, g2) ->
       1678 <= process_hicp_silver.int_of_digits g1 <= 2261 ->
       1 <= process_hicp_silver.int_of_digits g2 <= 12 ->
       process_hicp_silver._parse_time_code to_datetime str_other (CStr s)
       = Ok (Some (mkTimestamp (process_hicp_silver.int_of_digits g1)
                     (process_hicp_silver.int_of_digits g2) 1)))
    /\ (forall s,
          process_hicp_silver.re_match_monthly s = None ->
          to_datetime s = None ->
          process_hicp_silver._parse_time_code to_datetime str_other (CStr s) = Ok None)
    /\ process_hicp_silver._parse_time_code to_datetime str_other (CStr "2024M01")
       = Ok (Some (mkTimestamp 2024 1 1))
    /\ process_hicp_silver.re_match_monthly "2024M13"
       = Some (["2"; "0"; "2"; "4"], ["1"; "3"])%char
    /\ process_hicp_silver._parse_time_code to_datetime str_other (CStr "2024M13")
       = Raise (ValueError "month must be in 1..12").
Proof.
  intros td so. split; [|split; [|repeat split; reflexivity]].
  - intros s g1 g2 Hm Hy Hmonth. unfold process_hicp_silver._parse_time_code.
    simpl process_hicp_silver.py_str. rewrite Hm.
    rewrite pd_Timestamp_first_of_month by lia. reflexivity.
  - intros s Hm Hnone. unfold process_hicp_silver._parse_time_code.
    simpl process_hicp_silver.py_str. rewrite Hm, Hnone. reflexivity.
Qed.

(** C10.  A payload that has "dimension" and "value" but lacks "id" or
    "size" does not raise the error of the guard: it raises the [KeyError]
    of the lookup of the first of the two keys that is missing. *)
Theorem missing_id_or_size_is_a_KeyError :
  forall to_datetime str_other (p : process_hicp_silver.payload) dim values,
    process_hicp_silver.p_dimension p = Some dim ->
    process_hicp_silver.p_value p = Some values ->
    process_hicp_silver.p_id p = None \/ process_hicp_silver.p_size p = None ->
    let r := process_hicp_silver.jsonstat_to_dataframe to_datetime str_other p in
    r = Raise (KeyError (match process_hicp_silver.p_id p with Some _ => "size" | None => "id" end))
    /\ r <> Raise (RuntimeError UnexpectedPayloadKeys).
Proof.
  intros td so p dim values Hd Hv Hm r. subst r.
  destruct (process_hicp_silver.p_id p) as [ids|] eqn:Hi.
  - destruct Hm as [Hm|Hm]; [discriminate|].
    rewrite (transform_without_size td so p dim values ids) by assumption.
    split; [reflexivity|discriminate].
  - rewrite (transform_without_id td so p dim values) by assumption.
    split; [reflexivity|discriminate].
Qed.

Lemma missing_id_or_size_is_a_KeyError_witness :
  process_hicp_silver.jsonstat_to_dataframe (fun _ => None) (fun _ => "")
    (process_hicp_silver.mkPayload (Some []) None (Some [])
       (Some (process_hicp_silver.ValueList [])))
  = Raise (KeyError "id")
  /\ process_hicp_silver.jsonstat_to_dataframe (fun _ => None) (fun _ => "")
    (process_hicp_silver.mkPayload (Some []) (Some []) None
       (Some (process_hicp_silver.ValueList [])))
  = Raise (KeyError "size").
Proof.
  split.
  - exact (proj1 (missing_id_or_size_is_a_KeyError (fun _ => None) (fun _ => "")
      (process_hicp_silver.mkPayload (Some []) None (Some [])
         (Some (process_hicp_silver.ValueList [])))
      [] (process_hicp_silver.ValueList []) eq_refl eq_refl (or_introl eq_refl))).
  - exact (proj1 (missing_id_or_size_is_a_KeyError (fun _ => None) (fun _ => "")
      (process_hicp_silver.mkPayload (Some []) (Some []) None
         (Some (process_hicp_silver.ValueList [])))
      [] (process_hicp_silver.ValueList []) eq_refl eq_refl (or_intror eq_refl))).
Defined.

Lemma filter_ext_elem {X} (P Q : X -> Prop) `{forall x, Decision (P x)}
    `{forall x, Decision (Q x)} (l : list X) :
  (forall x, x ∈ l -> (P x <-> Q x)) -> filter P l = filter Q l.
Proof.
  induction l as [|x l IH]; intros HPQ; [reflexivity|].
  rewrite !filter_cons.
  rewrite IH by (intros y Hy; apply HPQ; now right).
  pose proof (HPQ x (list_elem_of_here _ _)) as Hx.
  destruct (decide (P x)), (decide (Q x)); try reflexivity; tauto.
Qed.

Lemma finish_sort_keys df2 :
  data (finish df2)
  = sort_by (rows_leb (sort_keys (finish df2)))
            (data (select_columns df2 (columns (finish df2)))).
Proof.
  assert (Hcols : columns (finish df2)
    = filter (fun c => has_column df2 c = true) ["time"; "geo"; "coicop"; "unit"; "value"])
    by reflexivity.
  unfold sort_keys. rewrite Hcols.
  replace (filter (fun c => has_column (finish df2) c = true) ["geo"; "coicop"; "time"])
    with (filter (fun c => has_column df2 c = true) ["geo"; "coicop"; "time"]);
    [reflexivity|].
  apply filter_ext_elem. intros c Hc. unfold has_column. rewrite Hcols.
  rewrite !bool_decide_eq_true, list_elem_of_filter. unfold has_column.
  rewrite bool_decide_eq_true.
  split; [|tauto]. intros H. split; [exact H|].
  revert Hc. rewrite !elem_of_cons, !elem_of_nil. tauto.
Qed.

(** C3.  Once the dimensions decode (steps 1 and 2), a dense cube whose
    sizes are the numbers of codes of its dimensions, whose value list has
    the product of the sizes as its length and whose period codes parse is
    turned into a frame with exactly that many rows; and a value whose
    length is not the product of the sizes stops the transformer with the
    length-mismatch error, which carries both lengths, before any row is
    built. *)
Theorem row_count_is_product_of_sizes :
  forall to_datetime str_other p dim_order sizes codes_by_dim values,
    decodes p dim_order sizes codes_by_dim values ->
    (forall l,
       values = ValueList l ->
       sizes = map (fun codes => Z.of_nat (length codes)) codes_by_dim ->
       Z.of_nat (length l) = fold_left Z.mul sizes 1 ->
       period_codes_parse to_datetime str_other dim_order codes_by_dim ->
       exists df,
         jsonstat_to_dataframe to_datetime str_other p = Ok df
         /\ Z.of_nat (len_df df) = fold_left Z.mul sizes 1)
    /\ (forall n,
         len_values values = Ok n ->
         n <> fold_left Z.mul sizes 1 ->
         jsonstat_to_dataframe to_datetime str_other p
         = Raise (RuntimeError (ValueLengthMismatch n (fold_left Z.mul sizes 1) sizes))).
Proof.
  intros td so p ids sizes codes values Hdec. split.
  - intros l -> Hsizes Hlen Hparse.
    assert (Hn : len_values (ValueList l) = Ok (Z.of_nat (length l))) by reflexivity.
    rewrite (transform_after_check td so _ _ _ _ _ _ Hdec Hn).
    rewrite Hlen, Z.eqb_refl. simpl negb. cbv iota.
    assert (Hprod : length (product codes) = length l).
    { rewrite product_length. apply Nat2Z.inj.
      rewrite Hlen, Hsizes. symmetry. apply expected_len_of_codes. }
    destruct (build_rows_dense ids l (product codes) 0) as [rows Hrows]; [lia|].
    rewrite Hrows. simpl.
    destruct (time_cells_parse td so _ _ _ _ Hparse Hrows) as [df2 Hdf2].
    pose proof (parsed_time_length td so _ _ Hdf2) as Hlen2.
    unfold parsed_time in Hdf2.
    exists (finish df2). split.
    + destruct (has_column (DataFrame_of_rows rows) "time"); [rewrite Hdf2|subst df2];
        reflexivity.
    + rewrite finish_length, Hlen2, <- Hlen. unfold len_df. simpl.
      rewrite List.length_map. f_equal.
      apply build_rows_lookup in Hrows as [-> _]. exact Hprod.
  - intros n Hn Hne.
    rewrite (transform_after_check td so _ _ _ _ _ _ Hdec Hn).
    destruct (Z.eqb_spec n (fold_left Z.mul sizes 1)); [contradiction|reflexivity].
Qed.

Lemma month_cube_decodes :
  decodes month_cube ["time"; "geo"; "coicop"; "unit"] [2; 1; 1; 1]
    [["2024M01"; "2024M02"]; ["LU"]; ["CP00"]; ["I15"]]
    (ValueList [Some 100.0%Q; Some 101.5%Q]).
Proof. eexists. repeat split; reflexivity. Qed.

Lemma row_count_is_product_of_sizes_witness :
  (exists df,
     jsonstat_to_dataframe (fun _ => None) (fun _ => "") month_cube = Ok df
     /\ Z.of_nat (len_df df) = 2)
  /\ jsonstat_to_dataframe (fun _ => None) (fun _ => "") sparse_cube
     = Raise (RuntimeError (ValueLengthMismatch 1 2 [2])).
Proof.
  split.
  - apply (proj1 (row_count_is_product_of_sizes (fun _ => None) (fun _ => "")
             month_cube _ _ _ _ month_cube_decodes) [Some 100.0%Q; Some 101.5%Q]);
      try reflexivity.
    intros j l code Hj Hl Hin.
    destruct j as [|[|[|[|j]]]]; try discriminate.
    injection Hl as <-. destruct Hin as [<-|[<-|[]]]; reflexivity.
  - apply (proj2 (row_count_is_product_of_sizes (fun _ => None) (fun _ => "")
             sparse_cube ["time"] [2] [["2024M01"; "2024M02"]]
             (ValueDict [("0", Some 100.0%Q)])
             ltac:(eexists; repeat split; reflexivity)) 1);
      [reflexivity|discriminate].
Defined.

(** C4.  The product is enumerated in dimension order, the last dimension
    varying fastest (row-major: position [a * n + b]); the loop gives the
    row of product position [i] the value of flat index [i]; the frame
    returned holds the rows of the frame built from those rows (period codes
    parsed, standard columns kept), reordered so that every row is at most
    every later row in the order of (geo, coicop, time); and the cube of two
    months by one geo, one coicop and one unit with the values 100.0 and
    101.5 becomes the two rows of January and February 2024, in that order,
    with those values. *)
Theorem rows_follow_flat_order_then_sorted :
  (forall (codes : list string) (rest : list (list string)) a b x combo,
     codes !! a = Some x -> product rest !! b = Some combo ->
     product (codes :: rest) !! (a * length (product rest) + b)%nat = Some (x :: combo))
  /\ (forall dim_order values combos rows,
     build_rows dim_order values 0 combos = Ok rows ->
     length rows = length combos
     /\ forall i combo, combos !! i = Some combo ->
          exists v, value_at values i = Ok v
            /\ rows !! i
               = Some (dict_set "value" (cell_of_value v) (make_row dim_order combo)))
  /\ (forall to_datetime str_other p dim_order sizes codes_by_dim values df,
       decodes p dim_order sizes codes_by_dim values ->
       jsonstat_to_dataframe to_datetime str_other p = Ok df ->
       exists rows df2,
         build_rows dim_order values 0 (product codes_by_dim) = Ok rows
         /\ parsed_time to_datetime str_other (DataFrame_of_rows rows) df2
         /\ Permutation (data df) (data (select_columns df2 (columns df)))
         /\ StronglySorted (fun r r' => rows_leb (sort_keys df) r r' = true) (data df))
  /\ (forall to_datetime str_other,
       jsonstat_to_dataframe to_datetime str_other month_cube
       = Ok (mkDataFrame ["time"; "geo"; "coicop"; "unit"; "value"]
               [[CTime (mkTimestamp 2024 1 1); CStr "LU"; CStr "CP00"; CStr "I15";
                 CNum 100.0];
                [CTime (mkTimestamp 2024 2 1); CStr "LU"; CStr "CP00"; CStr "I15";
                 CNum 101.5]])).
Proof.
  split; [|split; [|split]].
  - apply product_lookup.
  - intros ids values combos rows H.
    apply build_rows_lookup in H as [Hlen H]. split; [exact Hlen|]. exact H.
  - intros td so p ids sizes codes values df Hdec H.
    destruct (transform_Ok_inv td so _ _ _ _ _ _ Hdec H) as (rows & df2 & _ & Hrows & Ht & ->).
    exists rows, df2. repeat split; auto.
    + rewrite finish_sort_keys at 1. apply sort_by_Permutation.
    + rewrite finish_sort_keys at 1. apply sort_by_StronglySorted_rows.
  - intros. reflexivity.
Qed.

Lemma rows_follow_flat_order_then_sorted_witness :
  StronglySorted (fun r r' => rows_leb [1; 2; 0]%nat r r' = true)
    [[CTime jan; CStr "LU"; CStr "CP00"; CStr "I15"; CNum 100.0];
     [CTime feb; CStr "LU"; CStr "CP00"; CStr "I15"; CNum 101.5]].
Proof.
  destruct (proj1 (proj2 (proj2 rows_follow_flat_order_then_sorted))
              (fun _ => None) (fun _ => "") month_cube _ _ _ _ _
              month_cube_decodes eq_refl)
    as (rows & df2 & _ & _ & _ & Hsorted).
  exact Hsorted.
Defined.

(* ===================================================================== *)
(** * The validator *)
(* ===================================================================== *)

Lemma count_true_cons b l :
  count_true (b :: l) = if b then S (count_true l) else count_true l.
Proof. unfold count_true. rewrite filter_cons. destruct b; simpl; reflexivity. Qed.

Lemma non_positive_count_cons c values :
  non_positive_count (c :: values)
  = (b ← le_zero c; n ← non_positive_count values;
     (Ok (if b : bool then S n else n) : result nat)).
Proof.
  unfold non_positive_count. simpl map_result.
  destruct (le_zero c) as [b|e]; simpl; [|reflexivity].
  destruct (map_result le_zero values) as [bs|e]; simpl; [|reflexivity].
  rewrite count_true_cons. reflexivity.
Qed.

Lemma non_positive_count_spec values n :
  non_positive_count values = Ok n -> n = length (filter non_positive values).
Proof.
  revert n. induction values as [|c values IH]; intros n H.
  - now invert H.
  - rewrite non_positive_count_cons in H.
    apply bind_Ok in H as (b & Hb & H). apply bind_Ok in H as (m & Hm & H). invert H.
    rewrite filter_cons, (IH m Hm).
    destruct c as [|s|q|t]; simpl in Hb; invert Hb.
    + destruct (decide (non_positive CNull)) as [(q & H & _)|]; [discriminate|reflexivity].
    + destruct (decide (non_positive (CNum q))) as [(q' & H & Hle)|Hn].
      * injection H as <-. apply Qle_bool_iff in Hle. rewrite Hle. reflexivity.
      * destruct (Qle_bool q 0) eqn:E; [|reflexivity].
        exfalso. apply Hn. exists q. split; [reflexivity|]. now apply Qle_bool_iff.
Qed.

Lemma non_positive_count_skips_nulls values :
  non_positive_count (filter (fun c => isna c = false) values) = non_positive_count values.
Proof.
  induction values as [|c values IH]; [reflexivity|].
  rewrite filter_cons. destruct c as [|s|q|t]; simpl isna.
  - destruct (decide (true = false)) as [?|_]; [discriminate|].
    rewrite IH, non_positive_count_cons. simpl.
    destruct (non_positive_count values); reflexivity.
  - destruct (decide (false = false)) as [_|?]; [|congruence].
    rewrite !non_positive_count_cons. reflexivity.
  - destruct (decide (false = false)) as [_|?]; [|congruence].
    rewrite !non_positive_count_cons, IH. reflexivity.
  - destruct (decide (false = false)) as [_|?]; [|congruence].
    rewrite !non_positive_count_cons. reflexivity.
Qed.

(** Case analysis along [run_checks]: which rules were evaluated, and the
    two places where it may raise. *)
Ltac run_checks_cases df H :=
  unfold run_checks in H;
  destruct (length (missing_cols df) =? 0)%nat eqn:Hmissing;
  destruct (filter (fun c => has_column df c = true) ["time"; "geo"; "coicop"; "unit"])
    as [|key0 keys] eqn:Hkeys;
  (destruct (column df "value") as [values0|] eqn:Hvalue;
   [destruct (non_positive_count values0) as [non_positive0|] eqn:Hcount;
    [|discriminate H]|]);
  destruct (column df "time") as [times0|] eqn:Htime;
  (destruct (forallb (has_column df) ["time"; "geo"; "coicop"; "unit"]) eqn:Hfour;
   [match type of H with
    | context [frequency_loop ?a ?b ?c ?d] =>
        destruct (frequency_loop a b c d) as [[freq_pass0 freq_details0]|] eqn:Hfreq;
        [|discriminate H]
    end|]);
  simpl in H; injection H as H; subst.

Section validator_facts.
Variable to_datetime : string -> option Timestamp.
Variable to_datetime_num : Q -> option Timestamp.

Local Abbreviation run := (run_checks to_datetime to_datetime_num).

Lemma run_checks_passed df r :
  run df = Ok r -> report_passed r = forallb check_passed (report_checks r).
Proof.
  intros H. run_checks_cases df H; simpl;
    rewrite ?andb_true_r, ?andb_true_l, ?andb_assoc; reflexivity.
Qed.

Lemma run_checks_schema df r :
  run df = Ok r ->
  find_check "schema_required_columns" r
  = Some (mkCheck "schema_required_columns" (length (missing_cols df) =? 0)%nat
            (Missing (missing_cols df))).
Proof.
  intros H. run_checks_cases df H; unfold find_check; simpl; rewrite ?Hmissing; reflexivity.
Qed.

Lemma run_checks_non_null df r :
  run df = Ok r ->
  find_check "non_null_required_columns" r
  = if (length (missing_cols df) =? 0)%nat
    then Some (mkCheck "non_null_required_columns" (all_zero (null_counts_of df))
                 (NullCounts (null_counts_of df)))
    else None.
Proof.
  intros H. run_checks_cases df H; unfold find_check; simpl; rewrite ?Hmissing; reflexivity.
Qed.

Lemma run_checks_value df r values :
  run df = Ok r -> column df "value" = Some values ->
  exists n, non_positive_count values = Ok n
    /\ find_check "value_positive" r
       = Some (mkCheck "value_positive" (n =? 0)%nat (NonPositive n)).
Proof.
  intros H Hv. run_checks_cases df H; try discriminate; injection Hv as <-;
    (eexists; split; [eassumption|reflexivity]).
Qed.

End validator_facts.

(** ** Consecutive month starts *)

Lemma Timestamp_eqb_eq a b : Timestamp_eqb a b = true <-> a = b.
Proof.
  unfold Timestamp_eqb. rewrite !andb_true_iff, !Z.eqb_eq.
  destruct a, b; simpl. split; [intros [[-> ->] ->]; reflexivity|].
  intros H; invert H. auto.
Qed.

Lemma month_index_of_month_index i : month_index (of_month_index i) = i.
Proof.
  unfold month_index, of_month_index. simpl.
  pose proof (Z.div_mod i 12). lia.
Qed.

Lemma of_month_index_month_index t :
  1 <= month t <= 12 -> day t = 1 -> of_month_index (month_index t) = t.
Proof.
  intros Hm Hd. unfold month_index, of_month_index. destruct t as [y m d]; simpl in *.
  subst d. f_equal.
  - symmetry. apply (Z.div_unique _ 12 y (m - 1)); lia.
  - assert ((12 * y + (m - 1)) mod 12 = m - 1); [|lia].
    symmetry. apply (Z.mod_unique _ 12 y (m - 1)); lia.
Qed.

Lemma next_month_of_month_index i :
  next_month (of_month_index i) = of_month_index (i + 1).
Proof.
  unfold next_month, of_month_index. simpl.
  pose proof (Z.div_mod i 12 ltac:(lia)) as H1.
  pose proof (Z.mod_pos_bound i 12 ltac:(lia)) as H2.
  destruct (Z.eqb_spec (i mod 12 + 1) 12) as [E|E].
  - f_equal.
    + apply (Z.div_unique _ 12 (i / 12 + 1) 0); lia.
    + assert ((i + 1) mod 12 = 0); [|lia].
      symmetry. apply (Z.mod_unique _ 12 (i / 12 + 1) 0); lia.
  - f_equal.
    + apply (Z.div_unique _ 12 (i / 12) (i mod 12 + 1)); lia.
    + assert ((i + 1) mod 12 = i mod 12 + 1); [|lia].
      symmetry. apply (Z.mod_unique _ 12 (i / 12) (i mod 12 + 1)); lia.
Qed.

Lemma months_from_S i n :
  months_from i (S n) = of_month_index i :: months_from (i + 1) n.
Proof.
  unfold months_from. simpl. rewrite Z.add_0_r. f_equal.
  rewrite <- seq_shift, List.map_map. apply List.map_ext. intros k. f_equal. lia.
Qed.

Lemma months_from_consecutive n : forall i, consecutive_month_starts (months_from i n).
Proof.
  induction n as [|n IH]; intros i; [exact I|].
  rewrite months_from_S. simpl. split; [reflexivity|]. split; [|apply IH].
  destruct n as [|n]; [exact I|]. rewrite months_from_S.
  symmetry. apply next_month_of_month_index.
Qed.

Lemma consecutive_is_months_from l : forall t0 rest,
  l = t0 :: rest -> 1 <= month t0 <= 12 -> consecutive_month_starts l ->
  l = months_from (month_index t0) (length l).
Proof.
  induction l as [|t l IH]; intros t0 rest Hl Hm Hc; [discriminate|].
  invert Hl. destruct Hc as (Hd & Hnext & Hc). simpl length. rewrite months_from_S.
  rewrite of_month_index_month_index by assumption. f_equal.
  destruct rest as [|t1 rest]; [reflexivity|]. subst t1.
  assert (Hidx : month_index (next_month t0) = month_index t0 + 1).
  { rewrite <- (of_month_index_month_index t0) at 1 by assumption.
    rewrite next_month_of_month_index. apply month_index_of_month_index. }
  rewrite <- Hidx. apply (IH _ rest); [reflexivity| |exact Hc].
  unfold next_month. destruct (Z.eqb_spec (month t0) 12); simpl; lia.
Qed.

Lemma date_range_MS_months_from t0 tn :
  date_range_MS t0 tn
  = months_from (if day t0 =? 1 then month_index t0 else month_index t0 + 1)
      (Z.to_nat (month_index tn
                 - (if day t0 =? 1 then month_index t0 else month_index t0 + 1) + 1)).
Proof. reflexivity. Qed.

Lemma last_months_from i n : last (months_from i (S n)) = Some (of_month_index (i + Z.of_nat n)).
Proof.
  revert i. induction n as [|n IH]; intros i.
  - simpl. now rewrite !Z.add_0_r.
  - rewrite months_from_S. rewrite last_cons, IH. simpl. f_equal. f_equal. lia.
Qed.

(** The comparison of [expected] with the distinct sorted times succeeds
    exactly on consecutive month starts. *)
Lemma date_range_eq_iff_consecutive t t0 tn :
  head t = Some t0 -> last t = Some tn -> 1 <= month t0 <= 12 ->
  date_range_MS t0 tn = t <-> consecutive_month_starts t.
Proof.
  intros Hhd Hlast Hm. split.
  - intros <-. rewrite date_range_MS_months_from. apply months_from_consecutive.
  - intros Hc. destruct t as [|t1 rest]; [discriminate|]. invert Hhd.
    pose proof (consecutive_is_months_from _ _ _ eq_refl Hm Hc) as Ht.
    destruct Hc as (Hd & _). rewrite date_range_MS_months_from, Hd. simpl (1 =? 1).
    cbv iota. etransitivity; [|symmetry; exact Ht]. f_equal.
    rewrite Ht in Hlast. simpl length in Hlast. rewrite last_months_from in Hlast.
    invert Hlast. rewrite month_index_of_month_index. simpl length. lia.
Qed.

Lemma combine_eqb_iff e t :
  (length e =? length t)%nat
  && forallb (fun ab => Timestamp_eqb (fst ab) (snd ab)) (combine e t) = true
  <-> e = t.
Proof.
  revert t. induction e as [|a e IH]; intros [|b t]; simpl; split; try easy.
  - rewrite andb_true_iff. intros [Hl H]. apply andb_true_iff in H as [Hab H].
    apply Timestamp_eqb_eq in Hab as ->. f_equal. apply IH.
    rewrite andb_true_iff. auto.
  - intros H; invert H. apply andb_true_iff. split.
    + apply Nat.eqb_refl.
    + apply andb_true_iff. split; [now apply Timestamp_eqb_eq|].
      specialize (proj2 (IH t) eq_refl) as H. apply andb_true_iff in H as [_ H]. exact H.
Qed.

Lemma unique_elem x l : x ∈ unique l <-> x ∈ l.
Proof.
  induction l as [|y l IH]; simpl; [reflexivity|].
  rewrite !elem_of_cons, list_elem_of_filter, IH. split; [tauto|].
  intros [->|H]; [auto|].
  destruct (Timestamp_eqb y x) eqn:E; [|auto].
  apply Timestamp_eqb_eq in E. auto.
Qed.

Lemma distinct_sorted_elem x ts : x ∈ distinct_sorted ts <-> x ∈ ts.
Proof.
  unfold distinct_sorted. rewrite unique_elem.
  now rewrite (sort_by_Permutation Timestamp_leb ts).
Qed.

Lemma StronglySorted_filter_strict x l :
  StronglySorted (fun a b => Timestamp_leb a b = true) (x :: l) ->
  StronglySorted Timestamp_lt (unique l) ->
  StronglySorted Timestamp_lt (x :: filter (fun y => Timestamp_eqb x y = false) (unique l)).
Proof.
  intros Hs Hu. apply StronglySorted_inv in Hs as [_ Hx]. constructor.
  - induction Hu as [|y u Hu IH Hy]; [rewrite filter_nil; constructor|].
    rewrite filter_cons. destruct (decide (Timestamp_eqb x y = false)); [|exact IH].
    constructor; [exact IH|].
    apply List.Forall_forall. intros z Hz. rewrite List.Forall_forall in Hy. apply Hy.
    apply list_elem_of_In in Hz. apply list_elem_of_filter in Hz as [_ Hz].
    now apply list_elem_of_In.
  - apply List.Forall_forall. intros y Hy. apply list_elem_of_In in Hy.
    apply list_elem_of_filter in Hy as [Hne Hy].
    apply (proj1 (unique_elem _ _)) in Hy.
    rewrite List.Forall_forall in Hx. split.
    + apply Hx. now apply list_elem_of_In.
    + intros ->. rewrite (proj2 (Timestamp_eqb_eq y y) eq_refl) in Hne. discriminate.
Qed.

Lemma unique_strict l :
  StronglySorted (fun a b => Timestamp_leb a b = true) l ->
  StronglySorted Timestamp_lt (unique l).
Proof.
  induction l as [|x l IH]; intros Hs; [constructor|].
  simpl. apply StronglySorted_filter_strict; [exact Hs|].
  apply IH. now apply StronglySorted_inv in Hs as [Hs _].
Qed.

(** The distinct sorted times are in strictly ascending order: the first is
    the minimum and the last the maximum. *)
Lemma distinct_sorted_strict ts : StronglySorted Timestamp_lt (distinct_sorted ts).
Proof.
  apply unique_strict. apply Sorted_StronglySorted.
  - intros a b c. apply Timestamp_leb_trans.
  - apply sort_by_Sorted. apply Timestamp_leb_total.
Qed.

(** ** The groups of [groupby] *)
Lemma cell_eqb_refl a : cell_eqb a a = true.
Proof.
  destruct a; simpl; auto using String.eqb_refl, Qeq_bool_refl.
  now apply Timestamp_eqb_eq.
Qed.

Lemma cell_eqb_sym a b : cell_eqb a b = true -> cell_eqb b a = true.
Proof.
  destruct a, b; simpl; try discriminate; auto.
  - rewrite !String.eqb_eq. auto.
  - apply Qeq_bool_sym.
  - rewrite !Timestamp_eqb_eq. auto.
Qed.

Lemma cell_eqb_trans a b c :
  cell_eqb a b = true -> cell_eqb b c = true -> cell_eqb a c = true.
Proof.
  destruct a, b, c; simpl; try discriminate; auto.
  - rewrite !String.eqb_eq. congruence.
  - apply Qeq_bool_trans.
  - rewrite !Timestamp_eqb_eq. congruence.
Qed.

Lemma cells_eqb_spec k k' :
  cells_eqb k k' = true <-> Forall2 (fun a b => cell_eqb a b = true) k k'.
Proof.
  unfold cells_eqb. revert k'. induction k as [|a k IH]; intros [|b k']; simpl.
  - split; [constructor|reflexivity].
  - split; [discriminate|intros H; invert H].
  - split; [discriminate|intros H; invert H].
  - specialize (IH k'). rewrite andb_true_iff in *. rewrite Forall2_cons.
    rewrite andb_true_iff. tauto.
Qed.

Lemma cells_eqb_refl k : cells_eqb k k = true.
Proof. apply cells_eqb_spec. induction k; constructor; auto using cell_eqb_refl. Qed.

Lemma cells_eqb_sym k k' : cells_eqb k k' = true -> cells_eqb k' k = true.
Proof.
  rewrite !cells_eqb_spec. induction 1; constructor; auto using cell_eqb_sym.
Qed.

Lemma cells_eqb_trans k1 k2 k3 :
  cells_eqb k1 k2 = true -> cells_eqb k2 k3 = true -> cells_eqb k1 k3 = true.
Proof.
  rewrite !cells_eqb_spec. intros H. revert k3.
  induction H; intros k3 H'; invert H'; constructor; eauto using cell_eqb_trans.
Qed.

(** Every key has a representative among the distinct keys. *)
Lemma dedup_keys_covers keys k :
  In k keys -> exists k', In k' (dedup_keys keys) /\ cells_eqb k' k = true.
Proof.
  induction keys as [|k0 keys IH]; simpl; [intros []|].
  intros [->|Hin].
  - exists k. split; [now left|apply cells_eqb_refl].
  - destruct (IH Hin) as (k' & Hk' & He).
    destruct (cells_eqb k0 k') eqn:E.
    + exists k0. split; [now left|]. eapply cells_eqb_trans; eauto.
    + exists k'. split; [|exact He]. right.
      apply list_elem_of_In, list_elem_of_filter. split; [exact E|].
      now apply list_elem_of_In.
Qed.

(** The distinct keys are pairwise different. *)
Lemma dedup_keys_distinct keys :
  ForallOrdPairs (fun k k' => cells_eqb k k' = false) (dedup_keys keys).
Proof.
  induction keys as [|k0 keys IH]; simpl; constructor.
  - apply List.Forall_forall. intros k Hk.
    apply list_elem_of_In, list_elem_of_filter in Hk as [Hk _]. exact Hk.
  - induction IH as [|k l Hk _ IH']; [rewrite filter_nil; constructor|].
    rewrite filter_cons. destruct (decide (cells_eqb k0 k = false)); [|exact IH'].
    constructor; [|exact IH'].
    apply List.Forall_forall. intros k' Hk'. rewrite List.Forall_forall in Hk.
    apply Hk. apply list_elem_of_In, list_elem_of_filter in Hk' as [_ Hk'].
    now apply list_elem_of_In.
Qed.

(** A group holds, in table order, the rows with no null key cell whose key
    is the key of the group; and every such row is in a group. *)
Lemma groupby_group js rows k sub :
  In (k, sub) (groupby js rows) ->
  sub = filter (fun r => cells_eqb (key_of js r) k = true)
          (filter (fun r => forallb (fun c => negb (isna c)) (key_of js r) = true) rows).
Proof.
  unfold groupby. intros H. apply in_map_iff in H as (k' & H & _). now invert H.
Qed.

Lemma groupby_covers js rows r :
  In r rows ->
  forallb (fun c => negb (isna c)) (key_of js r) = true ->
  exists k sub,
    In (k, sub) (groupby js rows) /\ In r sub /\ cells_eqb (key_of js r) k = true.
Proof.
  intros Hr Hnn. unfold groupby.
  set (keyed := filter (fun r => forallb (fun c => negb (isna c)) (key_of js r) = true) rows).
  assert (Hkeyed : In r keyed).
  { apply list_elem_of_In, list_elem_of_filter. split; [exact Hnn|now apply list_elem_of_In]. }
  destruct (dedup_keys_covers (map (key_of js) keyed) (key_of js r)) as (k & Hk & He).
  { apply in_map. exact Hkeyed. }
  apply cells_eqb_sym in He.
  exists k, (filter (fun r => cells_eqb (key_of js r) k = true) keyed).
  split; [|split; [|exact He]].
  - apply in_map_iff. exists k. split; [reflexivity|].
    eapply Permutation_in; [symmetry; apply sort_by_Permutation|exact Hk].
  - apply list_elem_of_In, list_elem_of_filter. split; [exact He|now apply list_elem_of_In].
Qed.

Section frequency_facts.
Variable to_datetime : string -> option Timestamp.
Variable to_datetime_num : Q -> option Timestamp.

Local Abbreviation dropna := (to_datetime_dropna to_datetime to_datetime_num).
Local Abbreviation frequency_ok := (_monthly_frequency_ok to_datetime to_datetime_num).
Local Abbreviation loop := (frequency_loop to_datetime to_datetime_num).

Lemma monthly_frequency_ok_spec times ts :
  dropna times = Ok ts ->
  Forall valid_timestamp ts ->
  exists b, frequency_ok times = Ok b
    /\ (b = true <->
        (length (distinct_sorted ts) < 3)%nat
        \/ consecutive_month_starts (distinct_sorted ts)).
Proof.
  intros Hts Hvalid. unfold _monthly_frequency_ok. rewrite Hts. simpl.
  destruct (Nat.ltb_spec (length (distinct_sorted ts)) 3) as [Hlt|Hge].
  - exists true. split; [reflexivity|]. split; auto.
  - destruct (distinct_sorted ts) as [|t0 rest] eqn:Ht; [simpl in Hge; lia|].
    simpl head. destruct (last (t0 :: rest)) as [tn|] eqn:Hlast.
    2:{ apply last_None in Hlast. discriminate. }
    eexists. split; [reflexivity|].
    rewrite combine_eqb_iff.
    rewrite (date_range_eq_iff_consecutive (t0 :: rest) t0 tn eq_refl Hlast).
    + split; [auto|]. intros [H|H]; [lia|exact H].
    + assert (Hin : t0 ∈ ts) by (apply distinct_sorted_elem; rewrite Ht; left).
      rewrite Forall_forall in Hvalid. apply (Hvalid t0 Hin).
Qed.

(** The loop over the groups and-s the verdicts and keeps the keys of the
    groups that fail, in group order. *)
Lemma frequency_loop_spec jt groups b details :
  loop jt groups = Ok (b, details) ->
  (b = true <->
   Forall (fun g => frequency_ok (map (row_get jt) (snd g)) = Ok true) groups)
  /\ details
     = omap (fun g => match frequency_ok (map (row_get jt) (snd g)) with
                      | Ok false => Some (fst g)
                      | _ => None
                      end) groups.
Proof.
  revert b details. induction groups as [|[k sub] groups IH]; simpl; intros b details H.
  - invert H. split; [|reflexivity]. split; auto.
  - apply bind_Ok in H as (ok & Hok & H). apply bind_Ok in H as ([b' d'] & Hr & H).
    invert H. destruct (IH _ _ Hr) as [Hb Hd]. simpl. rewrite Hok. split.
    + rewrite andb_true_iff, Forall_cons, Hb. simpl.
      split; [intros [-> ?]; auto|intros [E ?]; rewrite Hok in E; injection E as ->; auto].
    + destruct ok; simpl; f_equal; exact Hd.
Qed.

Lemma run_checks_frequency df r :
  run_checks to_datetime to_datetime_num df = Ok r ->
  forallb (has_column df) ["time"; "geo"; "coicop"; "unit"] = true ->
  exists b details,
    loop (default 0%nat (index_of "time" (columns df)))
         (groupby (omap (fun c => index_of c (columns df)) ["geo"; "coicop"; "unit"])
                  (data df))
    = Ok (b, details)
    /\ find_check "monthly_frequency_no_gaps" r
       = Some (mkCheck "monthly_frequency_no_gaps" b (FreqDetails details)).
Proof.
  intros H Hf. run_checks_cases df H; try congruence;
    (eexists _, _; split; reflexivity).
Qed.

End frequency_facts.

(** C6.  For the times of one group: when they convert, the distinct
    sorted non-null times are those times in strictly ascending order, and
    the check passes exactly when they are fewer than three or are
    consecutive month starts (from the first, the minimum, to the last, the
    maximum).  The rule passes exactly when the check passes on every
    group, and it lists the groups that fail.  A group is the rows, in table
    order, that share one (geo, coicop, unit) with no null in it, and every
    such row is in a group.  January, February and April 2024 fail; January and February
    pass. *)
Theorem monthly_frequency_no_gaps_spec :
  forall to_datetime to_datetime_num,
    (forall times ts,
       to_datetime_dropna to_datetime to_datetime_num times = Ok ts ->
       Forall valid_timestamp ts ->
       let t := distinct_sorted ts in
       StronglySorted Timestamp_lt t
       /\ (forall x, x ∈ t <-> x ∈ ts)
       /\ exists b,
           _monthly_frequency_ok to_datetime to_datetime_num times = Ok b
           /\ (b = true <-> (length t < 3)%nat \/ consecutive_month_starts t))
    /\ (forall df r,
          run_checks to_datetime to_datetime_num df = Ok r ->
          forallb (has_column df) ["time"; "geo"; "coicop"; "unit"] = true ->
          let jt := default 0%nat (index_of "time" (columns df)) in
          let groups :=
            groupby (omap (fun c => index_of c (columns df)) ["geo"; "coicop"; "unit"])
                    (data df) in
          exists b details,
            find_check "monthly_frequency_no_gaps" r
            = Some (mkCheck "monthly_frequency_no_gaps" b (FreqDetails details))
            /\ (b = true <->
                Forall (fun g => _monthly_frequency_ok to_datetime to_datetime_num
                                   (map (row_get jt) (snd g)) = Ok true) groups)
            /\ details
               = omap (fun g => match _monthly_frequency_ok to_datetime to_datetime_num
                                        (map (row_get jt) (snd g)) with
                                | Ok false => Some (fst g)
                                | _ => None
                                end) groups)
    /\ (forall js rows,
          (forall k sub,
             In (k, sub) (groupby js rows) ->
             sub = filter (fun r => cells_eqb (key_of js r) k = true)
                     (filter (fun r => forallb (fun c => negb (isna c)) (key_of js r) = true)
                             rows))
          /\ (forall r,
                In r rows ->
                forallb (fun c => negb (isna c)) (key_of js r) = true ->
                exists k sub,
                  In (k, sub) (groupby js rows) /\ In r sub
                  /\ cells_eqb (key_of js r) k = true))
    /\ _monthly_frequency_ok to_datetime to_datetime_num [CTime jan; CTime feb; CTime apr]
       = Ok false
    /\ _monthly_frequency_ok to_datetime to_datetime_num [CTime jan; CTime feb]
       = Ok true.
Proof.
  intros td tn. split; [|split; [|split; [|split]]].
  - intros times ts Hts Hvalid t. split; [apply distinct_sorted_strict|].
    split; [intros x; apply distinct_sorted_elem|].
    now apply (monthly_frequency_ok_spec td tn times).
  - intros df r Hr Hf jt groups.
    destruct (run_checks_frequency td tn df r Hr Hf) as (b & details & Hloop & Hfind).
    exists b, details. split; [exact Hfind|]. apply frequency_loop_spec. exact Hloop.
  - intros js rows. split; [apply groupby_group|apply groupby_covers].
  - reflexivity.
  - reflexivity.
Qed.

Lemma three_months_valid : Forall valid_timestamp [jan; feb; apr].
Proof.
  repeat (apply List.Forall_cons; [vm_compute; repeat split; discriminate|]).
  apply List.Forall_nil.
Qed.

Lemma monthly_frequency_no_gaps_spec_witness :
  _monthly_frequency_ok (fun _ => None) (fun _ => None) [CTime jan; CTime feb; CTime apr]
  = Ok false
  /\ ~ consecutive_month_starts [jan; feb; apr].
Proof.
  destruct (proj1 (monthly_frequency_no_gaps_spec (fun _ => None) (fun _ => None))
              [CTime jan; CTime feb; CTime apr] [jan; feb; apr] eq_refl
              three_months_valid)
    as (_ & _ & b & Hb & Hiff).
  vm_compute in Hb. injection Hb as <-. split; [reflexivity|].
  intros Hc. assert (H : false = true) by (apply Hiff; right; exact Hc).
  discriminate H.
Defined.

(** ** Frames of the processed schema never make [run_checks] raise *)

Lemma non_positive_count_total values :
  Forall num_or_null values -> exists n, non_positive_count values = Ok n.
Proof.
  induction 1 as [|c values Hc _ [n IH]]; [exists 0%nat; reflexivity|].
  rewrite non_positive_count_cons, IH.
  destruct Hc as [->|[q ->]]; simpl; eauto.
Qed.

Lemma column_Some df c cells :
  column df c = Some cells ->
  exists j, index_of c (columns df) = Some j /\ cells = map (row_get j) (data df).
Proof.
  unfold column. destruct (index_of c (columns df)) as [j|]; simpl; intros H; invert H.
  eauto.
Qed.

Lemma groupby_rows js rows k sub :
  In (k, sub) (groupby js rows) -> forall r, In r sub -> In r rows.
Proof.
  unfold groupby. intros H r Hr. apply in_map_iff in H as (k' & H & _). invert H.
  apply list_elem_of_In in Hr. apply list_elem_of_filter in Hr as [_ Hr].
  apply list_elem_of_filter in Hr as [_ Hr]. now apply list_elem_of_In.
Qed.

Section totality.
Variable to_datetime : string -> option Timestamp.
Variable to_datetime_num : Q -> option Timestamp.

Lemma to_datetime_dropna_total times :
  Forall time_or_null times ->
  exists ts, to_datetime_dropna to_datetime to_datetime_num times = Ok ts.
Proof.
  induction 1 as [|c times Hc _ [ts IH]]; [exists []; reflexivity|].
  destruct Hc as [->|[t ->]]; simpl; [eauto|]. rewrite IH. simpl. eauto.
Qed.

Lemma monthly_frequency_ok_total times :
  Forall time_or_null times ->
  exists b, _monthly_frequency_ok to_datetime to_datetime_num times = Ok b.
Proof.
  intros H. destruct (to_datetime_dropna_total times H) as [ts Hts].
  unfold _monthly_frequency_ok. rewrite Hts. simpl.
  destruct (length (distinct_sorted ts) <? 3)%nat; [eauto|].
  destruct (head (distinct_sorted ts)), (last (distinct_sorted ts)); eauto.
Qed.

Lemma frequency_loop_total jt groups :
  (forall k sub, In (k, sub) groups -> Forall time_or_null (map (row_get jt) sub)) ->
  exists r, frequency_loop to_datetime to_datetime_num jt groups = Ok r.
Proof.
  induction groups as [|[k sub] groups IH]; intros H; simpl; [eauto|].
  destruct (monthly_frequency_ok_total (map (row_get jt) sub)) as [b Hb].
  { apply (H k). now left. }
  rewrite Hb. simpl. destruct IH as [r Hr].
  { intros k' sub' Hin. apply (H k'). now right. }
  rewrite Hr. simpl. eauto.
Qed.

Lemma run_checks_total df :
  typed_frame df -> exists r, run_checks to_datetime to_datetime_num df = Ok r.
Proof.
  intros [Hval Htime]. unfold run_checks.
  assert (Hloop : forallb (has_column df) ["time"; "geo"; "coicop"; "unit"] = true ->
    exists r, frequency_loop to_datetime to_datetime_num
                (default 0%nat (index_of "time" (columns df)))
                (groupby (omap (fun c => index_of c (columns df)) ["geo"; "coicop"; "unit"])
                         (data df)) = Ok r).
  { intros Hf. simpl in Hf. apply andb_true_iff in Hf as [Ht _].
    apply bool_decide_eq_true in Ht. destruct (index_of_elem _ _ Ht) as [jt Hjt].
    rewrite Hjt. simpl default. apply frequency_loop_total. intros k sub Hin.
    assert (Hcol : column df "time" = Some (map (row_get jt) (data df)))
      by (unfold column; rewrite Hjt; reflexivity).
    specialize (Htime _ Hcol). rewrite List.Forall_forall in *. intros c Hc.
    apply in_map_iff in Hc as (row & <- & Hrow). apply Htime.
    apply in_map_iff. exists row. split; [reflexivity|].
    eapply groupby_rows; eauto. }
  destruct (forallb (has_column df) ["time"; "geo"; "coicop"; "unit"]).
  - destruct (Hloop eq_refl) as [r Hr]. rewrite Hr.
    destruct (column df "value") as [values|] eqn:Hv; [|simpl; eauto].
    destruct (non_positive_count_total values (Hval _ eq_refl)) as [n Hn].
    rewrite Hn. simpl. eauto.
  - destruct (column df "value") as [values|] eqn:Hv; [|simpl; eauto].
    destruct (non_positive_count_total values (Hval _ eq_refl)) as [n Hn].
    rewrite Hn. simpl. eauto.
Qed.

End totality.

(** C7.  The count of the rule [value_positive] is the number of values
    that are present and at most zero; dropping the nulls of a column does
    not change it; on a column of floats and nulls it is always produced;
    the check of the report carries it and passes exactly when it is zero;
    and on 100.0, 0.0, -5.0, null it is 2. *)
Theorem value_positive_counts_present_values :
  forall to_datetime to_datetime_num,
    (forall values n,
       non_positive_count values = Ok n -> n = length (filter non_positive values))
    /\ (forall values,
          non_positive_count (filter (fun c => isna c = false) values)
          = non_positive_count values)
    /\ (forall values,
          Forall num_or_null values -> exists n, non_positive_count values = Ok n)
    /\ (forall df r values,
          run_checks to_datetime to_datetime_num df = Ok r ->
          column df "value" = Some values ->
          exists n,
            non_positive_count values = Ok n
            /\ find_check "value_positive" r
               = Some (mkCheck "value_positive" (n =? 0)%nat (NonPositive n)))
    /\ non_positive_count [CNum 100.0; CNum 0.0; CNum (-5.0); CNull] = Ok 2%nat.
Proof.
  intros td tn. split; [|split; [|split; [|split]]].
  - apply non_positive_count_spec.
  - apply non_positive_count_skips_nulls.
  - apply non_positive_count_total.
  - apply run_checks_value.
  - reflexivity.
Qed.

Lemma value_positive_counts_present_values_witness :
  length (filter non_positive [CNum 100.0; CNum 0.0; CNum (-5.0); CNull]) = 2%nat.
Proof.
  symmetry.
  apply (proj1 (value_positive_counts_present_values (fun _ => None) (fun _ => None))
           [CNum 100.0; CNum 0.0; CNum (-5.0); CNull] 2%nat eq_refl).
Defined.

(** C8.  A frame of the processed schema always gets a report.  In every
    report the top-level flag is the conjunction of the flags of the checks
    it lists, which are the rules that were evaluated; the schema check is
    always among them and passes exactly when no required column is
    missing; and the non-null check is among them exactly when the schema
    check passed.  The frame of two months has the six checks and passes;
    without its "unit" column the non-null and the frequency checks are not
    evaluated and the report fails. *)
Theorem passed_is_conjunction_of_evaluated_rules :
  forall to_datetime to_datetime_num,
    (forall df, typed_frame df ->
       exists r, run_checks to_datetime to_datetime_num df = Ok r)
    /\ (forall df r,
          run_checks to_datetime to_datetime_num df = Ok r ->
          report_passed r = forallb check_passed (report_checks r)
          /\ exists schema,
               find_check "schema_required_columns" r = Some schema
               /\ (check_passed schema = true <-> missing_cols df = [])
               /\ (is_Some (find_check "non_null_required_columns" r)
                   <-> check_passed schema = true))
    /\ (exists r,
          run_checks to_datetime to_datetime_num two_months = Ok r
          /\ map check_name (report_checks r)
             = ["schema_required_columns"; "non_null_required_columns";
                "no_duplicate_keys"; "value_positive"; "time_parseable";
                "monthly_frequency_no_gaps"]
          /\ report_passed r = true)
    /\ (exists r,
          run_checks to_datetime to_datetime_num two_months_no_unit = Ok r
          /\ map check_name (report_checks r)
             = ["schema_required_columns"; "no_duplicate_keys"; "value_positive";
                "time_parseable"]
          /\ report_passed r = false).
Proof.
  intros td tn. split; [|split; [|split]].
  - apply run_checks_total.
  - intros df r H. split; [now apply (run_checks_passed td tn df)|].
    eexists. split; [now apply (run_checks_schema td tn df)|]. simpl.
    rewrite (run_checks_non_null td tn df r H).
    split.
    + rewrite Nat.eqb_eq. destruct (missing_cols df); simpl; split; auto; discriminate.
    + destruct (length (missing_cols df) =? 0)%nat; split; eauto;
        intros H'; try discriminate. destruct H' as [? H']. discriminate.
  - eexists. split; [reflexivity|]. split; reflexivity.
  - eexists. split; [reflexivity|]. split; reflexivity.
Qed.

Lemma passed_is_conjunction_of_evaluated_rules_witness :
  exists r,
    run_checks (fun _ => None) (fun _ => None) two_months_no_unit = Ok r
    /\ report_passed r = forallb check_passed (report_checks r)
    /\ report_passed r = false.
Proof.
  destruct (passed_is_conjunction_of_evaluated_rules (fun _ => None) (fun _ => None))
    as (_ & Hand & _ & (r & Hr & _ & Hfalse)).
  exists r. split; [exact Hr|]. split; [|exact Hfalse].
  exact (proj1 (Hand two_months_no_unit r Hr)).
Defined.

(* ===================================================================== *)
(** * The runs of the validator and of the loader *)
(* ===================================================================== *)

Lemma append_inj_l p a b : p +:+ a = p +:+ b -> a = b.
Proof. induction p as [|c p IH]; simpl; intros H; [exact H|]. invert H. auto. Qed.

(** The key of the report is never the key of the pointer. *)
Lemma report_blob_is_not_latest qp ts status :
  qp +:+ "ts=" +:+ ts +:+ "_" +:+ status +:+ ".json" <> qp +:+ "LATEST.json".
Proof. intros H. apply append_inj_l in H. discriminate. Qed.

Lemma run_validator_zero_value : run_validator zero_value = Ok after_failing_run.
Proof. vm_compute. reflexivity. Qed.

(** C9.  A run of the validator that produces a report leaves the
    container with that report under the key built from the prefix, the
    time stamp and PASS or FAIL as the report's flag says, and with the
    pointer LATEST.json naming that key, whatever the pointer was before and
    whatever the flag is; no other blob changes. *)
Theorem latest_pointer_names_the_new_report :
  forall to_datetime to_datetime_num processed_prefix quality_prefix
         checked_at_utc ts m1 m2 st st',
    check_hicp_quality.main to_datetime to_datetime_num processed_prefix quality_prefix
      checked_at_utc ts m1 m2 st = Ok st' ->
    exists processed_blob df r,
      blob.latest_blob processed_prefix st = Some processed_blob
      /\ blob.download_parquet processed_blob st = Ok df
      /\ run_checks to_datetime to_datetime_num df = Ok r
      /\ let report_blob :=
           quality_prefix +:+ "ts=" +:+ ts +:+ "_"
           +:+ (if report_passed r then "PASS" else "FAIL") +:+ ".json" in
         st' !! (quality_prefix +:+ "LATEST.json")
         = Some (blob.mkBlob (blob.LatestJson report_blob) m2)
         /\ st' !! report_blob
            = Some (blob.mkBlob (blob.ReportJson processed_blob checked_at_utc r) m1)
         /\ forall k, k <> report_blob -> k <> quality_prefix +:+ "LATEST.json" ->
              st' !! k = st !! k.
Proof.
  intros td tn pp qp checked ts m1 m2 st st' H. unfold check_hicp_quality.main in H.
  destruct (blob.latest_blob pp st) as [processed_blob|]; [|discriminate].
  destruct (String.eqb processed_blob ""); [discriminate|].
  apply bind_Ok in H as (df & Hdf & H). apply bind_Ok in H as (r & Hr & H).
  invert H. exists processed_blob, df, r. repeat split; auto.
  - unfold blob.upload_bytes. apply lookup_insert_eq.
  - unfold blob.upload_bytes. rewrite lookup_insert_ne; [apply lookup_insert_eq|].
    apply not_eq_sym, report_blob_is_not_latest.
  - intros k Hk1 Hk2. unfold blob.upload_bytes.
    rewrite !lookup_insert_ne by congruence. reflexivity.
Qed.

Lemma latest_pointer_names_the_new_report_witness :
  after_failing_run !! (QUALITY_PREFIX_DEFAULT +:+ "LATEST.json")
  = Some (blob.mkBlob (blob.LatestJson fail_key) "2024-03-01T12:00:02+00:00").
Proof.
  destruct (latest_pointer_names_the_new_report _ _ _ _ _ _ _ _ _ _
              run_validator_zero_value)
    as (pb & df & r & Hpb & Hdf & Hr & Hptr & _).
  etransitivity; [exact Hptr|].
  vm_compute in Hpb. injection Hpb as <-.
  vm_compute in Hdf. injection Hdf as <-.
  vm_compute in Hr. injection Hr as <-. reflexivity.
Defined.

(** C5.  When the pointer names a report whose key does not carry the PASS
    marker, the loader raises the not-PASS error and the relational store is
    as it was: the same table and no statement executed. *)
Theorem loader_stops_on_report_not_marked_pass :
  forall to_datetime to_datetime_num str_other sql_env st db report_blob m,
    st !! load_hicp_to_sql.QUALITY_LATEST_PTR
    = Some (blob.mkBlob (blob.LatestJson report_blob) m) ->
    str_contains "_PASS.json" report_blob = false ->
    load_hicp_to_sql.get_latest_pass_processed_blob st
    = Raise (RuntimeError (LatestReportNotPass report_blob))
    /\ load_hicp_to_sql.main to_datetime to_datetime_num str_other sql_env st db
       = (Raise (RuntimeError (LatestReportNotPass report_blob)), db).
Proof.
  intros td tn so sql_env st db report_blob m Hptr Hmark.
  assert (H : load_hicp_to_sql.get_latest_pass_processed_blob st
              = Raise (RuntimeError (LatestReportNotPass report_blob))).
  { unfold load_hicp_to_sql.get_latest_pass_processed_blob, blob.download_bytes.
    rewrite Hptr. simpl. rewrite Hmark. reflexivity. }
  split; [exact H|].
  unfold load_hicp_to_sql.main, load_hicp_to_sql.read_processed. rewrite H. reflexivity.
Qed.

Lemma after_failing_run_pointer :
  after_failing_run !! load_hicp_to_sql.QUALITY_LATEST_PTR
  = Some (blob.mkBlob (blob.LatestJson fail_key) "2024-03-01T12:00:02+00:00").
Proof. vm_compute. reflexivity. Qed.

Lemma loader_stops_on_report_not_marked_pass_witness :
  load_hicp_to_sql.main (fun _ => None) (fun _ => None) (fun _ => "") true
    after_failing_run loaded_before
  = (Raise (RuntimeError (LatestReportNotPass fail_key)), loaded_before).
Proof.
  apply (proj2 (loader_stops_on_report_not_marked_pass
                  (fun _ => None) (fun _ => None) (fun _ => "") true
                  after_failing_run loaded_before fail_key
                  "2024-03-01T12:00:02+00:00"
                  after_failing_run_pointer eq_refl)).
Defined.

(* ===================================================================== *)
(** * Further properties of the code *)
(* ===================================================================== *)

(** ** The codes of a dimension *)

Lemma sort_by_StronglySorted {A} (leb : A -> A -> bool) l :
  (forall a b, leb a b = true \/ leb b a = true) ->
  (forall a b c, leb a b = true -> leb b c = true -> leb a c = true) ->
  StronglySorted (fun a b => leb a b = true) (sort_by leb l).
Proof.
  intros Htot Htrans. apply Sorted_StronglySorted.
  - intros a b c. apply Htrans.
  - now apply sort_by_Sorted.
Qed.

Lemma StronglySorted_weaken {A} (R R' : A -> A -> Prop) l :
  (forall a b, R a b -> R' a b) -> StronglySorted R l -> StronglySorted R' l.
Proof.
  intros HR. induction 1 as [|a l Hs IH Hall]; constructor; [exact IH|].
  eapply List.Forall_impl; [|exact Hall]. intros b. apply HR.
Qed.

Lemma sorted_positions idx :
  StronglySorted (fun kv kv' : string * Z => snd kv <= snd kv')
    (sort_by (fun kv kv' => snd kv <=? snd kv') idx).
Proof.
  eapply StronglySorted_weaken;
    [|apply (sort_by_StronglySorted (fun kv kv' : string * Z => snd kv <=? snd kv'))].
  - intros a b H. now apply Z.leb_le in H.
  - intros a b. destruct (Z.leb_spec (snd a) (snd b)); [now left|right].
    apply Z.leb_le. lia.
  - intros a b c H1%Z.leb_le H2%Z.leb_le. apply Z.leb_le. lia.
Qed.

Lemma StronglySorted_map {A B} (f : A -> B) (R : B -> B -> Prop) l :
  StronglySorted (fun a b => R (f a) (f b)) l -> StronglySorted R (map f l).
Proof.
  induction 1 as [|a l Hs IH Hall]; simpl; constructor; [exact IH|].
  apply List.Forall_map. exact Hall.
Qed.

Lemma StronglySorted_seq_Z n m :
  StronglySorted Z.le (map Z.of_nat (seq m n)).
Proof.
  revert m. induction n as [|n IH]; intro m; simpl; constructor; [apply IH|].
  apply List.Forall_map. apply List.Forall_forall. intros x Hx.
  apply in_seq in Hx. lia.
Qed.

Lemma positions_of_sorted idx :
  Permutation (map snd idx) (map Z.of_nat (seq 0 (length idx))) ->
  map snd (sort_by (fun kv kv' : string * Z => snd kv <=? snd kv') idx)
  = map Z.of_nat (seq 0 (length idx)).
Proof.
  intro Hperm.
  apply (StronglySorted_unique Z.le).
  - apply StronglySorted_map, sorted_positions.
  - apply StronglySorted_seq_Z.
  - etransitivity; [|exact Hperm]. apply Permutation_map, sort_by_Permutation.
Qed.

Section parse_facts.
Variable to_datetime : string -> option Timestamp.
Variable str_other : cell -> string.
Local Abbreviation transform := (jsonstat_to_dataframe to_datetime str_other).
Local Abbreviation parse := (_parse_time_code to_datetime str_other).

Lemma pd_Timestamp_Ok y m d ts :
  pd_Timestamp y m d = Ok ts ->
  ts = mkTimestamp y m d /\ 1 <= y <= 9999 /\ 1 <= m <= 12 /\ 1 <= d <= days_in_month y m.
Proof.
  unfold pd_Timestamp.
  destruct ((1 <=? y) && (y <=? 9999)) eqn:Hy; simpl; [|discriminate].
  destruct ((1 <=? m) && (m <=? 12)) eqn:Hm; simpl; [|discriminate].
  destruct ((1 <=? d) && (d <=? days_in_month y m)) eqn:Hd; simpl; [|discriminate].
  intro H. injection H as <-.
  apply andb_true_iff in Hy as [?%Z.leb_le ?%Z.leb_le].
  apply andb_true_iff in Hm as [?%Z.leb_le ?%Z.leb_le].
  apply andb_true_iff in Hd as [?%Z.leb_le ?%Z.leb_le].
  repeat split; assumption.
Qed.

Lemma parse_time_code_Some t ts :
  parse t = Ok (Some ts) ->
  day ts = 1
  /\ ((exists g1 g2, re_match_monthly (py_str str_other t) = Some (g1, g2)
         /\ ts = mkTimestamp (int_of_digits g1) (int_of_digits g2) 1
         /\ 1 <= int_of_digits g2 <= 12)
      \/ (exists ts0, re_match_monthly (py_str str_other t) = None
            /\ to_datetime (py_str str_other t) = Some ts0
            /\ year ts = year ts0 /\ month ts = month ts0)).
Proof.
  unfold _parse_time_code. intro H.
  assert (H' : match re_match_monthly (py_str str_other t) with
               | Some (g1, g2) =>
                   ts ← pd_Timestamp (int_of_digits g1) (int_of_digits g2) 1; Ok (Some ts)
               | None =>
                   match to_datetime (py_str str_other t) with
                   | None => Ok None
                   | Some ts =>
                       if day ts =? 1 then Ok (Some ts)
                       else ts' ← pd_Timestamp (year ts) (month ts) 1; Ok (Some ts')
                   end
               end = Ok (Some ts)).
  { destruct t; [discriminate| | |]; exact H. }
  clear H.
  destruct (re_match_monthly (py_str str_other t)) as [[g1 g2]|].
  - apply bind_Ok in H' as (ts' & Hts & Heq). injection Heq as ->.
    apply pd_Timestamp_Ok in Hts as (-> & _ & Hm & _).
    split; [reflexivity|]. left. exists g1, g2. auto.
  - destruct (to_datetime (py_str str_other t)) as [ts0|]; [|discriminate].
    destruct (Z.eqb_spec (day ts0) 1) as [Hd|Hd].
    + injection H' as ->. split; [exact Hd|]. right. exists ts. auto.
    + apply bind_Ok in H' as (ts' & Hts & Heq). injection Heq as ->.
      apply pd_Timestamp_Ok in Hts as (-> & _ & Hm & _).
      split; [reflexivity|]. right. exists ts0. auto.
Qed.

End parse_facts.

(** ** Columns of a frame through the frame operations *)

Lemma omap_index_of_lookup (all_cols cols : list string) : forall i c,
  (forall c', c' ∈ cols -> c' ∈ all_cols) ->
  cols !! i = Some c ->
  omap (fun c => index_of c all_cols) cols !! i = index_of c all_cols.
Proof.
  induction cols as [|c0 cols IH]; intros i c Hall Hi; [discriminate|].
  destruct (index_of_elem c0 all_cols) as [j0 Hj0]; [apply Hall; left|].
  simpl. rewrite Hj0.
  destruct i as [|i]; simpl in *.
  - injection Hi as <-. now rewrite Hj0.
  - apply IH; [|exact Hi]. intros c' Hc'. apply Hall. now right.
Qed.








Lemma has_column_map_column f c df df' c' :
  map_column f c df = Ok df' -> has_column df' c' = has_column df c'.
Proof.
  intros (j & Hj & Hcols & Hrows)%map_column_Ok. unfold has_column. now rewrite Hcols.
Qed.

(** ** The frame of a list of dicts *)

Lemma dict_get_In {V} k (d : list (string * V)) : is_Some (dict_get k d) <-> In k (map fst d).
Proof.
  induction d as [|[k' v] d IH]; simpl.
  - split; [intros [? ?]; discriminate | tauto].
  - destruct (String.eqb_spec k k') as [->|Hne].
    + split; [now left | intros _; eauto].
    + rewrite IH. split; [now right | intros [Heq|H]; [congruence | exact H]].
Qed.

Lemma add_keys_elem row : forall cols c,
  c ∈ add_keys cols row <-> c ∈ cols \/ In c (map fst row).
Proof.
  unfold add_keys. induction row as [|[k v] row IH]; intros cols c; simpl.
  - tauto.
  - rewrite IH. simpl. destruct (bool_decide_reflect (k ∈ cols)) as [Hin|Hnin].
    + split; [tauto|]. intros [H|[<-|H]]; auto.
    + rewrite elem_of_app, list_elem_of_singleton.
      split; [intros [[H| ->]|H]; auto | intros [H|[<-|H]]; auto].
Qed.

Lemma fold_add_keys_elem rows : forall cols c,
  c ∈ fold_left add_keys rows cols
  <-> c ∈ cols \/ exists row, In row rows /\ In c (map fst row).
Proof.
  induction rows as [|row rows IH]; intros cols c; simpl.
  - split; [now left | intros [H|(row & [] & _)]; exact H].
  - rewrite IH, add_keys_elem. split.
    + intros [[H|H]|(row' & Hin & H)]; eauto 6.
    + intros [H|(row' & [<-|Hin] & H)]; eauto 6.
Qed.

Lemma has_column_DataFrame_of_rows rows c :
  has_column (DataFrame_of_rows rows) c = true
  <-> exists row, In row rows /\ is_Some (dict_get c row).
Proof.
  unfold has_column, DataFrame_of_rows. simpl.
  rewrite bool_decide_eq_true, fold_add_keys_elem, elem_of_nil.
  split.
  - intros [[]|(row & Hin & H)]. exists row. now rewrite dict_get_In.
  - intros (row & Hin & H). right. exists row. now rewrite <- dict_get_In.
Qed.


(** The keys of a row of the loop. *)
Lemma make_row_keys_from (ids combo : list string) : forall acc k,
  length ids = length combo ->
  is_Some (dict_get k (fold_left (fun row kv => dict_set (fst kv) (CStr (snd kv)) row)
                         (combine ids combo) acc))
  <-> is_Some (dict_get k acc) \/ In k ids.
Proof.
  revert combo. induction ids as [|d ids IH]; intros [|x combo] acc k Hlen;
    try discriminate; simpl.
  - tauto.
  - rewrite IH by (simpl in Hlen; lia). rewrite dict_get_set.
    destruct (String.eqb_spec k d) as [->|Hne].
    + split; [auto | intros _; left; eauto].
    + split; [tauto | intros [H|[Heq|H]]; [auto | congruence | auto]].
Qed.

Lemma make_row_keys ids combo k :
  length ids = length combo ->
  is_Some (dict_get k (make_row ids combo)) <-> In k ids.
Proof.
  intro Hlen. unfold make_row. rewrite make_row_keys_from by exact Hlen.
  simpl. split; [intros [[? ?]|H]; [discriminate | exact H] | auto].
Qed.

(** ** The shape and the cell types of the transformer's output *)

Section transform_output.

Variable to_datetime : string -> option Timestamp.
Variable str_other : cell -> string.

Local Abbreviation transform := (jsonstat_to_dataframe to_datetime str_other).


Lemma decodes_length p ids sizes codes values :
  decodes p ids sizes codes values -> length codes = length ids.
Proof.
  intros (dim & _ & _ & _ & _ & Hc).
  apply map_result_Forall2 in Hc. symmetry. eapply Forall2_length, Hc.
Qed.

(** The keys of the rows the loop builds. *)
Lemma build_rows_keys ids values codes rows row c :
  length codes = length ids ->
  build_rows ids values 0 (product codes) = Ok rows -> In row rows ->
  is_Some (dict_get c row) <-> c ∈ ids \/ c = "value".
Proof.
  intros Hlen Hrows Hrow.
  destruct (build_rows_In _ _ _ _ _ _ Hrows Hrow) as (combo & v & Hcombo & ->).
  apply product_In in Hcombo. apply Forall2_length in Hcombo.
  rewrite dict_get_set.
  destruct (String.eqb_spec c "value") as [->|Hne].
  - split; [auto | eauto].
  - rewrite make_row_keys by congruence. rewrite list_elem_of_In. tauto.
Qed.

Lemma parsed_time_has_column df1 df2 c :
  parsed_time to_datetime str_other df1 df2 -> has_column df2 c = has_column df1 c.
Proof.
  unfold parsed_time. destruct (has_column df1 "time"); [|congruence].
  apply has_column_map_column.
Qed.

Lemma finish_columns df2 :
  columns (finish df2)
  = filter (fun c => has_column df2 c = true) ["time"; "geo"; "coicop"; "unit"; "value"].
Proof. reflexivity. Qed.

Lemma omap_index_of_length (all_cols cols : list string) :
  (forall c, c ∈ cols -> c ∈ all_cols) ->
  length (omap (fun c => index_of c all_cols) cols) = length cols.
Proof.
  induction cols as [|c cols IH]; intro Hall; [reflexivity|].
  destruct (index_of_elem c all_cols) as [j Hj]; [apply Hall; left|].
  simpl. rewrite Hj. simpl. f_equal. apply IH. intros c' Hc'. apply Hall. now right.
Qed.

Lemma finish_row_lengths df2 :
  Forall (fun r => length r = length (columns (finish df2))) (data (finish df2)).
Proof.
  rewrite finish_columns.
  unfold finish, sort_values. simpl data.
  eapply Permutation_Forall; [symmetry; apply sort_by_Permutation|].
  unfold select_columns. simpl data. apply List.Forall_map, List.Forall_forall.
  intros r _. rewrite List.length_map. apply omap_index_of_length.
  intros c [Hc _]%list_elem_of_filter. unfold has_column in Hc. now apply bool_decide_eq_true in Hc.
Qed.

Lemma filter_none {X} (P : X -> Prop) `{forall x, Decision (P x)} (l : list X) :
  (forall x, x ∈ l -> ~ P x) -> filter P l = [].
Proof.
  induction l as [|x l IH]; intro Hl; [reflexivity|].
  rewrite filter_cons. destruct (decide (P x)) as [Hx|_].
  - exfalso. apply (Hl x); [left | exact Hx].
  - apply IH. intros y Hy. apply Hl. now right.
Qed.

Lemma transform_columns_cases ids codes values rows df2 :
  length codes = length ids ->
  build_rows ids values 0 (product codes) = Ok rows ->
  parsed_time to_datetime str_other (DataFrame_of_rows rows) df2 ->
  forall c, has_column df2 c = true <-> rows <> [] /\ (c ∈ ids \/ c = "value").
Proof.
  intros Hlen Hrows Hp c.
  rewrite (parsed_time_has_column _ _ _ Hp), has_column_DataFrame_of_rows.
  split.
  - intros (row & Hrow & Hc). split; [now destruct rows|].
    now apply (build_rows_keys _ _ _ _ _ _ Hlen Hrows Hrow).
  - intros [Hne Hc]. destruct rows as [|row rows']; [contradiction|].
    exists row. split; [now left|].
    apply (build_rows_keys _ _ _ _ row c Hlen Hrows); [now left | exact Hc].
Qed.







End transform_output.

(** * The transformer: further theorems *)

(** X1.  [_ordered_category_codes] on a dict index returns the keys of the
    dict, each once, in non-decreasing order of their positions; when the
    positions are 0 .. n-1, the code at place [i] is the key whose position
    is [i], so the list inverts the index. *)
Theorem ordered_category_codes_follow_positions :
  forall idx,
    exists sorted,
      _ordered_category_codes (dim_of_index idx) = Ok (map fst sorted)
      /\ Permutation sorted idx
      /\ StronglySorted (fun kv kv' : string * Z => snd kv <= snd kv') sorted
      /\ (Permutation (map snd idx) (map Z.of_nat (seq 0 (length idx))) ->
          forall k i, In (k, Z.of_nat i) idx <-> map fst sorted !! i = Some k).
Proof.
  intro idx. exists (sort_by (fun kv kv' => snd kv <=? snd kv') idx).
  split; [reflexivity|]. split; [apply sort_by_Permutation|].
  split; [apply sorted_positions|].
  intros Hperm k i.
  pose proof (positions_of_sorted idx Hperm) as Hpos.
  assert (Hp : Permutation (sort_by (fun kv kv' : string * Z => snd kv <=? snd kv') idx) idx)
    by apply sort_by_Permutation.
  set (sorted := sort_by _ idx) in *.
  assert (Hsnd : forall j kv, sorted !! j = Some kv -> snd kv = Z.of_nat j).
  { intros j kv Hj.
    assert (Hm : map snd sorted !! j = Some (snd kv))
      by (rewrite list_lookup_fmap, Hj; reflexivity).
    rewrite Hpos in Hm. rewrite list_lookup_fmap in Hm.
    destruct (seq 0 (length idx) !! j) as [x|] eqn:Hx; [|discriminate].
    apply lookup_seq in Hx as [-> _]. simpl in Hm. now injection Hm as <-. }
  split.
  - intro Hin.
    apply (Permutation_in _ (Permutation_sym Hp)) in Hin.
    apply list_elem_of_In, list_elem_of_lookup in Hin as [j Hj].
    pose proof (Hsnd _ _ Hj) as Heq. simpl in Heq.
    apply Nat2Z.inj in Heq. subst j.
    rewrite list_lookup_fmap, Hj. reflexivity.
  - intro Hi. rewrite list_lookup_fmap in Hi.
    destruct (sorted !! i) as [[k' p]|] eqn:Hj; [|discriminate].
    simpl in Hi. injection Hi as ->.
    pose proof (Hsnd _ _ Hj) as Hq. simpl in Hq. subst p.
    apply (Permutation_in _ Hp).
    apply list_elem_of_In. eapply list_elem_of_lookup_2. exact Hj.
Qed.

Lemma ordered_category_codes_follow_positions_witness :
  exists codes,
    _ordered_category_codes (dim_of_index [("2024M02", 1); ("2024M01", 0)]) = Ok codes
    /\ codes !! 0%nat = Some "2024M01".
Proof.
  destruct (ordered_category_codes_follow_positions [("2024M02", 1); ("2024M01", 0)])
    as (sorted & Hcodes & _ & _ & Hinv).
  exists (map fst sorted). split; [exact Hcodes|].
  apply (Hinv (perm_swap 0 1 []) "2024M01" 0%nat). right. left. reflexivity.
Defined.

(** X2.  Whatever [_parse_time_code] returns that is not null is the first
    day of a month: of the month the pattern names, or of the month of the
    date the general parser found. *)
Theorem parse_time_code_returns_month_starts :
  forall to_datetime str_other t ts,
    _parse_time_code to_datetime str_other t = Ok (Some ts) ->
    day ts = 1
    /\ ((exists g1 g2, re_match_monthly (py_str str_other t) = Some (g1, g2)
           /\ ts = mkTimestamp (int_of_digits g1) (int_of_digits g2) 1
           /\ 1 <= int_of_digits g2 <= 12)
        \/ (exists ts0, re_match_monthly (py_str str_other t) = None
              /\ to_datetime (py_str str_other t) = Some ts0
              /\ year ts = year ts0 /\ month ts = month ts0)).
Proof. intros td so t ts. apply parse_time_code_Some. Qed.

Lemma parse_time_code_returns_month_starts_witness :
  _parse_time_code (fun _ => Some (mkTimestamp 2024 3 15)) (fun _ => "") (CStr "2024-03-15")
  = Ok (Some (mkTimestamp 2024 3 1))
  /\ day (mkTimestamp 2024 3 1) = 1.
Proof.
  split; [reflexivity|].
  exact (proj1 (parse_time_code_returns_month_starts
                  (fun _ => Some (mkTimestamp 2024 3 15)) (fun _ => "")
                  (CStr "2024-03-15") (mkTimestamp 2024 3 1) eq_refl)).
Defined.

(** X3.  The frame the transformer returns has one row for every tuple of
    the product of the code lists (whatever "size" says); it has no column
    when there is no row, and otherwise the columns among time, geo,
    coicop, unit and value that are dimensions of the cube, in this order,
    and value; every row has one cell for each column. *)
Theorem transformer_output_shape :
  forall to_datetime str_other p dim_order sizes codes_by_dim values df,
    decodes p dim_order sizes codes_by_dim values ->
    jsonstat_to_dataframe to_datetime str_other p = Ok df ->
    len_df df = prod_lengths codes_by_dim
    /\ columns df
       = (if (prod_lengths codes_by_dim =? 0)%nat then []
          else filter (fun c => c ∈ dim_order \/ c = "value")
                 ["time"; "geo"; "coicop"; "unit"; "value"])
    /\ Forall (fun r => length r = length (columns df)) (data df).
Proof.
  intros td so p ids sizes codes values df Hdec H.
  pose proof (decodes_length _ _ _ _ _ Hdec) as Hlen.
  destruct (transform_Ok_inv td so _ _ _ _ _ _ Hdec H) as (rows & df2 & _ & Hrows & Hp & ->).
  assert (Hn : length rows = prod_lengths codes).
  { rewrite <- product_length. now apply build_rows_lookup in Hrows as [-> _]. }
  split; [|split].
  - rewrite finish_length, (parsed_time_length td so _ _ Hp). unfold len_df. simpl.
    now rewrite List.length_map.
  - rewrite finish_columns.
    pose proof (transform_columns_cases td so _ _ _ _ _ Hlen Hrows Hp) as Hc.
    destruct (Nat.eqb_spec (prod_lengths codes) 0) as [H0|H0].
    + apply filter_none. intros c _ Hcol.
      apply Hc in Hcol as [Hne _]. apply Hne. destruct rows; [reflexivity|simpl in Hn; lia].
    + apply filter_ext_elem. intros c _. rewrite Hc.
      split; [tauto|]. intro Hin. split; [|exact Hin]. intros ->. simpl in Hn. lia.
  - apply finish_row_lengths.
Qed.

Lemma transformer_output_shape_witness :
  exists df,
    jsonstat_to_dataframe (fun _ => None) (fun _ => "") month_cube = Ok df
    /\ len_df df = 2%nat
    /\ columns df = ["time"; "geo"; "coicop"; "unit"; "value"].
Proof.
  eexists. split; [vm_compute; reflexivity|].
  destruct (transformer_output_shape (fun _ => None) (fun _ => "") month_cube
              _ _ _ _ _ month_cube_decodes eq_refl) as (Hrows & Hcols & _).
  split; [exact Hrows | exact Hcols].
Defined.





Lemma product_nil (ls : list (list string)) : prod_lengths ls = 0%nat -> product ls = [].
Proof.
  intro H. rewrite <- product_length in H. now destruct (product ls).
Qed.

(** X6.  A dimension without categories makes the product empty: when the
    length check passes, the transformer then returns the frame with no row
    and no column, whatever the encoding of "value" (the loop that inspects
    it never runs). *)
Theorem empty_dimension_gives_empty_frame :
  forall to_datetime str_other p dim_order sizes codes_by_dim values,
    decodes p dim_order sizes codes_by_dim values ->
    len_values values = Ok (fold_left Z.mul sizes 1) ->
    In [] codes_by_dim ->
    jsonstat_to_dataframe to_datetime str_other p = Ok (mkDataFrame [] []).
Proof.
  intros td so p ids sizes codes values Hdec Hlen Hin.
  rewrite (transform_after_check td so _ _ _ _ _ _ Hdec Hlen).
  rewrite Z.eqb_refl. simpl negb. cbv iota.
  assert (H0 : prod_lengths codes = 0%nat).
  { clear -Hin. induction codes as [|l codes IH]; [destruct Hin|].
    simpl. destruct Hin as [->|Hin]; [reflexivity|]. rewrite IH by exact Hin. lia. }
  rewrite (product_nil _ H0). reflexivity.
Qed.

Lemma empty_dimension_gives_empty_frame_witness :
  jsonstat_to_dataframe (fun _ => None) (fun _ => "") empty_cube = Ok (mkDataFrame [] []).
Proof.
  apply (empty_dimension_gives_empty_frame (fun _ => None) (fun _ => "") empty_cube
           ["time"; "geo"] [1; 0] [["2024M01"]; []] (ValueList [])).
  - eexists. repeat split; reflexivity.
  - reflexivity.
  - right. left. reflexivity.
Defined.

Lemma build_rows_short ids l combos : forall i,
  (i <= length l < i + length combos)%nat ->
  build_rows ids (ValueList l) i combos = Raise (IndexError "list index out of range").
Proof.
  induction combos as [|combo combos IH]; intros i Hlt; simpl in *.
  - lia.
  - destruct (l !! i) as [v|] eqn:Hv; simpl; [|reflexivity].
    apply lookup_lt_Some in Hv.
    rewrite IH by lia. reflexivity.
Qed.

(** X7.  When the length check passes but the index holds more codes than
    "size" says, a dense "value" list runs out: the transformer raises
    [IndexError] and returns no frame.  A "value" that is a string of the
    expected length raises [TypeError] as soon as the product has a tuple. *)
Theorem values_shorter_than_the_product_raise :
  forall to_datetime str_other p dim_order sizes codes_by_dim values,
    decodes p dim_order sizes codes_by_dim values ->
    len_values values = Ok (fold_left Z.mul sizes 1) ->
    (forall l,
       values = ValueList l -> (length l < prod_lengths codes_by_dim)%nat ->
       jsonstat_to_dataframe to_datetime str_other p
       = Raise (IndexError "list index out of range"))
    /\ (forall s,
          values = ValueStr s -> (0 < prod_lengths codes_by_dim)%nat ->
          jsonstat_to_dataframe to_datetime str_other p
          = Raise (TypeError "Unsupported 'value' type")).
Proof.
  intros td so p ids sizes codes values Hdec Hlen.
  rewrite (transform_after_check td so _ _ _ _ _ _ Hdec Hlen).
  rewrite Z.eqb_refl. simpl negb. cbv iota. split.
  - intros l -> Hlt. rewrite build_rows_short; [reflexivity|].
    rewrite product_length. simpl. lia.
  - intros s -> Hpos. rewrite <- product_length in Hpos.
    destruct (product codes) as [|combo combos]; [simpl in Hpos; lia|]. reflexivity.
Qed.

Lemma values_shorter_than_the_product_raise_witness :
  jsonstat_to_dataframe (fun _ => None) (fun _ => "") short_cube
  = Raise (IndexError "list index out of range").
Proof.
  refine (proj1 (values_shorter_than_the_product_raise (fun _ => None) (fun _ => "")
                   short_cube ["time"] [1] [["2024M01"; "2024M02"]]
                   (ValueList [Some 100.0%Q]) _ eq_refl) _ eq_refl _).
  - eexists. repeat split; reflexivity.
  - apply Nat.lt_succ_diag_r.
Defined.

(** * The object store *)

Lemma String_leb_total s1 s2 : String.leb s1 s2 = true \/ String.leb s2 s1 = true.
Proof.
  unfold String.leb. rewrite (String.compare_antisym s1 s2).
  destruct (String.compare s2 s1); simpl; auto.
Qed.

Lemma String_leb_refl s : String.leb s s = true.
Proof. destruct (String_leb_total s s); assumption. Qed.

Lemma String_ltb_not_leb s1 s2 : String.ltb s1 s2 = true -> String.leb s2 s1 = false.
Proof.
  unfold String.ltb, String.leb. rewrite (String.compare_antisym s1 s2).
  destruct (String.compare s2 s1); simpl; congruence.
Qed.

(** The last element of a sorted list is a greatest one. *)
Lemma StronglySorted_last {A} (R : A -> A -> Prop) l x :
  StronglySorted R l -> last l = Some x ->
  In x l /\ forall y, In y l -> y = x \/ R y x.
Proof.
  induction 1 as [|a l Hs IH Hall]; [discriminate|].
  destruct l as [|b l'].
  - simpl. intro H. injection H as ->. split; [now left|].
    intros y [<-|[]]. now left.
  - change (last (a :: b :: l')) with (last (b :: l')). intro Hlast.
    destruct (IH Hlast) as [Hin Hmax]. split; [now right|].
    intros y [<-|Hy]; [|now apply Hmax].
    right. rewrite List.Forall_forall in Hall. now apply Hall.
Qed.

Lemma list_blobs_elem prefix st name stamp :
  In (name, stamp) (blob.list_blobs prefix st)
  <-> exists b, st !! name = Some b /\ blob.last_modified b = stamp
        /\ String.prefix prefix name = true.
Proof.
  unfold blob.list_blobs. rewrite in_map_iff. split.
  - intros ([k b] & Heq & Hin). simpl in Heq. injection Heq as <- <-.
    apply list_elem_of_In, list_elem_of_filter in Hin as [Hp Hin]. simpl in Hp.
    apply elem_of_map_to_list in Hin. eauto.
  - intros (b & Hb & <- & Hp). exists (name, b). split; [reflexivity|].
    apply list_elem_of_In, list_elem_of_filter. split; [exact Hp|].
    now apply elem_of_map_to_list.
Qed.

Lemma latest_blob_spec prefix st :
  match blob.latest_blob prefix st with
  | None => forall name b, st !! name = Some b -> String.prefix prefix name = false
  | Some name =>
      String.prefix prefix name = true
      /\ exists b, st !! name = Some b
         /\ forall name' b',
              st !! name' = Some b' -> String.prefix prefix name' = true ->
              String.leb (blob.last_modified b') (blob.last_modified b) = true
  end.
Proof.
  unfold blob.latest_blob.
  set (leb := fun x y : string * string => String.leb (snd x) (snd y)).
  pose proof (sort_by_Permutation leb (blob.list_blobs prefix st)) as Hperm.
  assert (Hsorted : StronglySorted (fun a b => leb a b = true)
                      (sort_by leb (blob.list_blobs prefix st))).
  { apply sort_by_StronglySorted.
    - intros a b. apply String_leb_total.
    - intros a b c. apply String_leb_trans. }
  destruct (last (sort_by leb (blob.list_blobs prefix st))) as [[name stamp]|] eqn:Hlast;
    simpl.
  - destruct (StronglySorted_last _ _ _ Hsorted Hlast) as [Hin Hmax].
    apply (Permutation_in _ Hperm), list_blobs_elem in Hin as (b & Hb & <- & Hp).
    split; [exact Hp|]. exists b. split; [exact Hb|].
    intros name' b' Hb' Hp'.
    destruct (Hmax (name', blob.last_modified b')) as [Heq|Hle].
    + apply (Permutation_in _ (Permutation_sym Hperm)), list_blobs_elem. eauto.
    + injection Heq as _ ->. apply String_leb_refl.
    + exact Hle.
  - intros name b Hb. destruct (String.prefix prefix name) eqn:Hp; [|reflexivity].
    assert (Hin : In (name, blob.last_modified b) (sort_by leb (blob.list_blobs prefix st))).
    { apply (Permutation_in _ (Permutation_sym Hperm)), list_blobs_elem. eauto. }
    destruct (sort_by leb (blob.list_blobs prefix st)) as [|x l] using rev_ind;
      [destruct Hin|].
    rewrite last_snoc in Hlast. discriminate.
Qed.

(** X8.  [latest_blob] returns no name exactly when no blob of the
    container has the prefix; a name it returns is the name of a blob of the
    container that has the prefix and whose modification stamp is not
    smaller than that of any other blob with the prefix. *)
Theorem latest_blob_is_a_newest_blob_with_the_prefix :
  forall prefix st,
    (blob.latest_blob prefix st = None
     <-> forall name b, st !! name = Some b -> String.prefix prefix name = false)
    /\ (forall name,
          blob.latest_blob prefix st = Some name ->
          String.prefix prefix name = true
          /\ exists b, st !! name = Some b
             /\ forall name' b',
                  st !! name' = Some b' -> String.prefix prefix name' = true ->
                  String.leb (blob.last_modified b') (blob.last_modified b) = true).
Proof.
  intros prefix st. pose proof (latest_blob_spec prefix st) as H.
  destruct (blob.latest_blob prefix st) as [name|].
  - split.
    + split; [discriminate|]. intro Hnone. destruct H as (Hp & b & Hb & _).
      rewrite (Hnone _ _ Hb) in Hp. discriminate.
    + intros name' Heq. injection Heq as <-. exact H.
  - split; [tauto | discriminate].
Qed.

Lemma latest_blob_is_a_newest_blob_with_the_prefix_witness :
  blob.latest_blob PROCESSED_PREFIX_DEFAULT (one_processed zero_value) = Some processed_key
  /\ String.prefix PROCESSED_PREFIX_DEFAULT processed_key = true.
Proof.
  split; [vm_compute; reflexivity|].
  apply (proj2 (latest_blob_is_a_newest_blob_with_the_prefix PROCESSED_PREFIX_DEFAULT
                  (one_processed zero_value)) processed_key).
  vm_compute. reflexivity.
Defined.

(** X9.  After an upload under a prefix with a modification stamp later
    than that of every other blob with the prefix, [latest_blob] of the
    prefix is the uploaded blob; a download of its path returns the bytes
    uploaded, and every other path reads as before. *)
Theorem uploaded_blob_is_the_latest :
  forall prefix data blob_path now st,
    String.prefix prefix blob_path = true ->
    (forall name b,
       st !! name = Some b -> name <> blob_path -> String.prefix prefix name = true ->
       String.ltb (blob.last_modified b) now = true) ->
    let st' := blob.upload_bytes data blob_path now st in
    blob.latest_blob prefix st' = Some blob_path
    /\ blob.download_bytes blob_path st' = Ok data
    /\ forall p, p <> blob_path -> blob.download_bytes p st' = blob.download_bytes p st.
Proof.
  intros prefix data blob_path now st Hp Hnew st'.
  assert (Hnew' : st' !! blob_path = Some (blob.mkBlob data now))
    by apply lookup_insert_eq.
  split; [|split].
  - pose proof (latest_blob_spec prefix st') as H.
    destruct (blob.latest_blob prefix st') as [name|].
    + destruct H as (Hpn & b & Hb & Hmax).
      destruct (decide (name = blob_path)) as [->|Hne]; [reflexivity|].
      exfalso. unfold st', blob.upload_bytes in Hb.
      rewrite lookup_insert_ne in Hb by congruence.
      pose proof (Hmax _ _ Hnew' Hp) as Hle. simpl in Hle.
      rewrite (String_ltb_not_leb _ _ (Hnew _ _ Hb Hne Hpn)) in Hle. discriminate.
    + rewrite (H _ _ Hnew') in Hp. discriminate.
  - unfold blob.download_bytes. now rewrite Hnew'.
  - intros p Hne. unfold blob.download_bytes, st', blob.upload_bytes.
    now rewrite lookup_insert_ne by congruence.
Qed.

Lemma uploaded_blob_is_the_latest_witness :
  blob.latest_blob PROCESSED_PREFIX_DEFAULT
    (blob.upload_bytes (blob.Parquet two_months)
       "processed/hicp/prc_hicp_midx/geo=LU/coicop=CP00/ts=20240401_115900.parquet"
       "2024-04-01T11:59:00+00:00" (one_processed zero_value))
  = Some "processed/hicp/prc_hicp_midx/geo=LU/coicop=CP00/ts=20240401_115900.parquet".
Proof.
  refine (proj1 (uploaded_blob_is_the_latest PROCESSED_PREFIX_DEFAULT
                   (blob.Parquet two_months)
                   "processed/hicp/prc_hicp_midx/geo=LU/coicop=CP00/ts=20240401_115900.parquet"
                   "2024-04-01T11:59:00+00:00" (one_processed zero_value) eq_refl _)).
  intros name b Hb Hne Hp. unfold one_processed in Hb.
  apply lookup_singleton_Some in Hb as [_ <-]. reflexivity.
Defined.

(** * The validator: further facts *)

(** ** Rule 3: duplicate keys *)

Lemma existsb_cells_eqb_trans k k' seen :
  cells_eqb k k' = true -> existsb (cells_eqb k) seen = existsb (cells_eqb k') seen.
Proof.
  intro Heq. induction seen as [|s seen IH]; [reflexivity|]. simpl. rewrite IH. f_equal.
  destruct (cells_eqb k s) eqn:E1, (cells_eqb k' s) eqn:E2; try reflexivity.
  - rewrite (cells_eqb_trans _ _ _ (cells_eqb_sym _ _ Heq) E1) in E2. discriminate.
  - rewrite (cells_eqb_trans _ _ _ Heq E2) in E1. discriminate.
Qed.

Lemma cells_eqb_comm k k' : cells_eqb k k' = cells_eqb k' k.
Proof.
  destruct (cells_eqb k k') eqn:E1, (cells_eqb k' k) eqn:E2; try reflexivity.
  - rewrite (cells_eqb_sym _ _ E1) in E2. discriminate.
  - rewrite (cells_eqb_sym _ _ E2) in E1. discriminate.
Qed.

(** The rows counted as duplicates and the distinct keys not seen before
    make up the rows. *)
Lemma duplicated_count_dedup keys : forall seen,
  (duplicated_count seen keys
   + length (filter (fun k => existsb (cells_eqb k) seen = false) (dedup_keys keys))
   = length keys)%nat.
Proof.
  induction keys as [|k keys IH]; intro seen; [reflexivity|].
  simpl duplicated_count. simpl dedup_keys. rewrite filter_cons.
  destruct (existsb (cells_eqb k) seen) eqn:Hseen.
  - destruct (decide (true = false)) as [?|_]; [discriminate|].
    simpl. f_equal. rewrite <- (IH seen). f_equal. f_equal.
    rewrite list_filter_filter. apply filter_ext_elem. intros k' _.
    split; [tauto|]. intro Hk'. split; [exact Hk'|].
    destruct (cells_eqb k k') eqn:E; [|reflexivity].
    rewrite <- (existsb_cells_eqb_trans _ _ seen E), Hseen in Hk'. discriminate.
  - destruct (decide (false = false)) as [_|?]; [|contradiction].
    simpl. rewrite Nat.add_succ_r. f_equal. rewrite <- (IH (k :: seen)). f_equal. f_equal.
    rewrite list_filter_filter. apply filter_ext_elem. intros k' _.
    simpl. rewrite orb_false_iff, (cells_eqb_comm k' k). tauto.
Qed.

Lemma duplicated_count_zero keys : forall seen,
  duplicated_count seen keys = 0%nat
  <-> Forall (fun k => existsb (cells_eqb k) seen = false) keys
      /\ ForallOrdPairs (fun k k' => cells_eqb k k' = false) keys.
Proof.
  induction keys as [|k keys IH]; intro seen; simpl.
  - split; [intros _; split; constructor | reflexivity].
  - destruct (existsb (cells_eqb k) seen) eqn:Hseen.
    + split; [discriminate|]. intros [Hall _]. apply Forall_cons in Hall as [Hk _]. congruence.
    + rewrite IH. split.
      * intros [Hall Hpairs]. split.
        -- constructor; [exact Hseen|]. eapply List.Forall_impl; [|exact Hall].
           intros k' Hk'. simpl in Hk'. now apply orb_false_iff in Hk' as [_ ?].
        -- constructor; [|exact Hpairs]. eapply List.Forall_impl; [|exact Hall].
           intros k' Hk'. simpl in Hk'. apply orb_false_iff in Hk' as [Hk' _].
           now rewrite cells_eqb_comm.
      * intros [Hall Hpairs]. apply Forall_cons in Hall as [_ Hall].
        inversion Hpairs as [|? ? Hk Hrest]; subst. split; [|exact Hrest].
        apply List.Forall_forall. intros k' Hk'. simpl. apply orb_false_iff. split.
        -- rewrite cells_eqb_comm. rewrite List.Forall_forall in Hk. now apply Hk.
        -- rewrite Forall_forall in Hall. apply Hall. now apply list_elem_of_In.
Qed.

Section validator_rules.
Variable to_datetime : string -> option Timestamp.
Variable to_datetime_num : Q -> option Timestamp.

Local Abbreviation run := (run_checks to_datetime to_datetime_num).

Lemma run_checks_duplicates df r :
  run df = Ok r -> key_cols_of df <> [] ->
  find_check "no_duplicate_keys" r
  = Some (mkCheck "no_duplicate_keys" (duplicated_count [] (keys_of df) =? 0)%nat
            (DuplicateRows (duplicated_count [] (keys_of df)) (key_cols_of df))).
Proof.
  intros H Hne. unfold keys_of, key_cols_of in *.
  run_checks_cases df H; try contradiction; unfold find_check; simpl;
    rewrite ?Hkeys; reflexivity.
Qed.

Lemma run_checks_time df r times :
  run df = Ok r -> column df "time" = Some times ->
  find_check "time_parseable" r
  = Some (mkCheck "time_parseable" (time_na_count to_datetime to_datetime_num times =? 0)%nat
            (UnparseableTimeRows (time_na_count to_datetime to_datetime_num times))).
Proof.
  intros H Ht. run_checks_cases df H; try discriminate; injection Ht as <-; reflexivity.
Qed.

Lemma passed_check df r name c :
  run df = Ok r -> report_passed r = true -> find_check name r = Some c ->
  check_passed c = true.
Proof.
  intros H Hp Hc. rewrite (run_checks_passed _ _ _ _ H) in Hp.
  rewrite forallb_forall in Hp. apply Hp.
  unfold find_check in Hc. now apply find_some in Hc as [Hin _].
Qed.

End validator_rules.

(** ** What a report that passed says about the frame *)

Lemma count_true_zero l : count_true l = 0%nat <-> Forall (fun b => b = false) l.
Proof.
  induction l as [|b l IH]; [split; [constructor|reflexivity]|].
  rewrite count_true_cons, Forall_cons. destruct b.
  - split; [discriminate | intros [? _]; discriminate].
  - rewrite IH. tauto.
Qed.

Lemma missing_cols_nil df c :
  missing_cols df = [] -> c ∈ required_cols -> has_column df c = true.
Proof.
  intros Hm Hc. destruct (has_column df c) eqn:E; [reflexivity|].
  assert (Hin : c ∈ missing_cols df) by (apply list_elem_of_filter; auto).
  rewrite Hm in Hin. now apply elem_of_nil in Hin.
Qed.

Lemma has_column_column df c :
  has_column df c = true -> exists cells, column df c = Some cells.
Proof.
  intros Hc%bool_decide_eq_true. destruct (index_of_elem _ _ Hc) as [j Hj].
  unfold column. rewrite Hj. simpl. eauto.
Qed.

Lemma all_zero_null_counts df c cells :
  all_zero (null_counts_of df) = true -> c ∈ required_cols -> column df c = Some cells ->
  Forall (fun x => isna x = false) cells.
Proof.
  unfold all_zero, null_counts_of. rewrite forallb_forall. intros Hz Hc Hcol.
  assert (H0 : count_true (map isna cells) = 0%nat).
  { apply Nat.eqb_eq.
    apply (Hz (c, count_true (map isna cells))).
    apply in_map_iff. exists c. rewrite Hcol. split; [reflexivity|].
    now apply list_elem_of_In. }
  apply count_true_zero in H0. rewrite List.Forall_map in H0. exact H0.
Qed.

Lemma non_positive_count_typed values n :
  non_positive_count values = Ok n -> Forall num_or_null values.
Proof.
  revert n. induction values as [|c values IH]; intros n H; [constructor|].
  rewrite non_positive_count_cons in H.
  apply bind_Ok in H as (b & Hb & H). apply bind_Ok in H as (n' & Hn' & _).
  constructor; [|eapply IH, Hn'].
  destruct c; try discriminate; [now left | right; eauto].
Qed.

Lemma non_positive_count_zero values :
  non_positive_count values = Ok 0%nat ->
  Forall (fun x => isna x = false) values ->
  Forall positive_value values.
Proof.
  intros H Hnn. pose proof (non_positive_count_typed _ _ H) as Htyped.
  apply non_positive_count_spec in H. symmetry in H. apply length_zero_iff_nil in H.
  apply List.Forall_forall. intros c Hc.
  rewrite List.Forall_forall in Hnn, Htyped.
  destruct (Htyped c Hc) as [->|[q ->]]; [specialize (Hnn _ Hc); discriminate|].
  exists q. split; [reflexivity|]. apply Qnot_le_lt. intro Hle.
  assert (Hin : CNum q ∈ filter non_positive values).
  { apply list_elem_of_filter. split; [exists q; auto | now apply list_elem_of_In]. }
  rewrite H in Hin. now apply elem_of_nil in Hin.
Qed.

Lemma time_na_count_zero to_datetime to_datetime_num times :
  time_na_count to_datetime to_datetime_num times = 0%nat ->
  Forall (fun x => is_Some (to_datetime_coerce to_datetime to_datetime_num x)) times.
Proof.
  unfold time_na_count. rewrite count_true_zero, List.Forall_map.
  apply List.Forall_impl. intros c Hc. apply bool_decide_eq_false in Hc.
  destruct (to_datetime_coerce to_datetime to_datetime_num c); [eauto | contradiction].
Qed.

Section passed_facts.
Variable to_datetime : string -> option Timestamp.
Variable to_datetime_num : Q -> option Timestamp.

Local Abbreviation run := (run_checks to_datetime to_datetime_num).

Lemma passed_schema df r :
  run df = Ok r -> report_passed r = true -> missing_cols df = [].
Proof.
  intros H Hp.
  pose proof (passed_check _ _ _ _ _ _ H Hp (run_checks_schema _ _ _ _ H)) as Hs.
  simpl in Hs. apply Nat.eqb_eq in Hs. now apply length_zero_iff_nil.
Qed.

Lemma passed_four_columns df r :
  run df = Ok r -> report_passed r = true ->
  forallb (has_column df) ["time"; "geo"; "coicop"; "unit"] = true
  /\ key_cols_of df = ["time"; "geo"; "coicop"; "unit"].
Proof.
  intros H Hp. pose proof (passed_schema _ _ H Hp) as Hm.
  assert (Hc : forall c, c ∈ required_cols -> has_column df c = true)
    by (intros c; apply missing_cols_nil, Hm).
  assert (Ht : has_column df "time" = true) by (apply Hc; set_solver).
  assert (Hg : has_column df "geo" = true) by (apply Hc; set_solver).
  assert (Hco : has_column df "coicop" = true) by (apply Hc; set_solver).
  assert (Hu : has_column df "unit" = true) by (apply Hc; set_solver).
  split.
  - simpl. now rewrite Ht, Hg, Hco, Hu.
  - unfold key_cols_of. rewrite !filter_cons, Ht, Hg, Hco, Hu. reflexivity.
Qed.

Lemma passed_rules df r :
  run df = Ok r -> report_passed r = true ->
  missing_cols df = []
  /\ (forall c cells, c ∈ required_cols -> column df c = Some cells ->
        Forall (fun x => isna x = false) cells)
  /\ ForallOrdPairs (fun k k' => cells_eqb k k' = false) (keys_of df)
  /\ (exists values, column df "value" = Some values /\ Forall positive_value values)
  /\ (exists times, column df "time" = Some times
        /\ Forall (fun x => is_Some (to_datetime_coerce to_datetime to_datetime_num x)) times)
  /\ Forall (fun g => _monthly_frequency_ok to_datetime to_datetime_num
                        (map (row_get (time_position df)) (snd g)) = Ok true)
       (series_of df).
Proof.
  intros H Hp. pose proof (passed_schema _ _ H Hp) as Hm.
  destruct (passed_four_columns _ _ H Hp) as [Hfour Hkeys].
  assert (Hnn : forall c cells, c ∈ required_cols -> column df c = Some cells ->
                  Forall (fun x => isna x = false) cells).
  { intros c cells. apply all_zero_null_counts.
    pose proof (run_checks_non_null _ _ _ _ H) as Hc.
    rewrite Hm in Hc. simpl in Hc.
    exact (passed_check _ _ _ _ _ _ H Hp Hc). }
  split; [exact Hm|]. split; [exact Hnn|]. split; [|split; [|split]].
  - assert (Hne : key_cols_of df <> []) by (rewrite Hkeys; discriminate).
    pose proof (passed_check _ _ _ _ _ _ H Hp (run_checks_duplicates _ _ _ _ H Hne)) as Hd.
    simpl in Hd. apply Nat.eqb_eq in Hd. now apply duplicated_count_zero in Hd as [_ ?].
  - destruct (has_column_column df "value") as [values Hv];
      [apply missing_cols_nil; [exact Hm | set_solver]|].
    exists values. split; [exact Hv|].
    destruct (run_checks_value _ _ _ _ _ H Hv) as (n & Hn & Hc).
    pose proof (passed_check _ _ _ _ _ _ H Hp Hc) as Hz. simpl in Hz.
    apply Nat.eqb_eq in Hz. subst n.
    apply non_positive_count_zero; [exact Hn|]. apply (Hnn "value"); [set_solver | exact Hv].
  - destruct (has_column_column df "time") as [times Ht];
      [apply missing_cols_nil; [exact Hm | set_solver]|].
    exists times. split; [exact Ht|].
    pose proof (passed_check _ _ _ _ _ _ H Hp (run_checks_time _ _ _ _ _ H Ht)) as Hz.
    simpl in Hz. apply Nat.eqb_eq in Hz. now apply time_na_count_zero.
  - destruct (run_checks_frequency _ _ _ _ H Hfour) as (b & details & Hloop & Hc).
    pose proof (passed_check _ _ _ _ _ _ H Hp Hc) as Hb. simpl in Hb. subst b.
    apply frequency_loop_spec in Hloop as [Hall _]. now apply Hall.
Qed.

End passed_facts.

(** * The validator: further theorems *)

Lemma filter_all {X} (P : X -> Prop) `{forall x, Decision (P x)} (l : list X) :
  (forall x, x ∈ l -> P x) -> filter P l = l.
Proof.
  induction l as [|x l IH]; intro Hl; [reflexivity|].
  rewrite filter_cons. destruct (decide (P x)) as [_|Hx].
  - f_equal. apply IH. intros y Hy. apply Hl. now right.
  - exfalso. apply Hx, Hl. left.
Qed.

(** X10.  The count of rule [no_duplicate_keys] is the number of rows minus
    the number of distinct keys, a null being a key value like any other;
    it is zero exactly when no two rows have the same key. *)
Theorem duplicate_rows_complement_the_distinct_keys :
  forall to_datetime to_datetime_num df r,
    run_checks to_datetime to_datetime_num df = Ok r ->
    key_cols_of df <> [] ->
    exists n,
      find_check "no_duplicate_keys" r
      = Some (mkCheck "no_duplicate_keys" (n =? 0)%nat (DuplicateRows n (key_cols_of df)))
      /\ (n + length (dedup_keys (keys_of df)) = len_df df)%nat
      /\ (n = 0%nat
          <-> ForallOrdPairs (fun k k' => cells_eqb k k' = false) (keys_of df)).
Proof.
  intros td tdn df r H Hne. exists (duplicated_count [] (keys_of df)).
  split; [now apply (run_checks_duplicates td tdn)|]. split.
  - pose proof (duplicated_count_dedup (keys_of df) []) as Hd.
    rewrite filter_all in Hd by (intros; reflexivity).
    rewrite Hd. unfold keys_of, len_df. now rewrite List.length_map.
  - rewrite duplicated_count_zero. split; [tauto|]. intro Hp. split; [|exact Hp].
    apply List.Forall_forall. reflexivity.
Qed.

Lemma duplicate_rows_complement_the_distinct_keys_witness :
  exists r n,
    run_checks (fun _ => None) (fun _ => None) two_months = Ok r
    /\ find_check "no_duplicate_keys" r
       = Some (mkCheck "no_duplicate_keys" (n =? 0)%nat
                 (DuplicateRows n ["time"; "geo"; "coicop"; "unit"]))
    /\ (n + 2 = 2)%nat.
Proof.
  destruct (duplicate_rows_complement_the_distinct_keys (fun _ => None) (fun _ => None)
              two_months _ eq_refl) as (n & Hc & Hn & _); [discriminate|].
  eexists _, n. split; [reflexivity|]. split; [exact Hc | exact Hn].
Defined.

Section passed_theorem.
Variable to_datetime : string -> option Timestamp.
Variable to_datetime_num : Q -> option Timestamp.

Lemma monthly_frequency_ok_true times :
  _monthly_frequency_ok to_datetime to_datetime_num times = Ok true ->
  exists ts,
    to_datetime_dropna to_datetime to_datetime_num times = Ok ts
    /\ (Forall valid_timestamp ts ->
        (length (distinct_sorted ts) < 3)%nat
        \/ consecutive_month_starts (distinct_sorted ts)).
Proof.
  intro H. pose proof H as H'. unfold _monthly_frequency_ok in H'.
  apply bind_Ok in H' as (ts & Hts & _). exists ts. split; [exact Hts|].
  intro Hvalid.
  destruct (monthly_frequency_ok_spec _ _ _ _ Hts Hvalid) as (b & Hb & Hiff).
  rewrite H in Hb. injection Hb as <-. now apply Hiff.
Qed.

End passed_theorem.

(** X11.  A report that passed vouches for the frame: the five required
    columns are there and hold no null, no two rows have the same (time,
    geo, coicop, unit), every value is a number above zero, every time
    converts to a date, and the months of every series of three or more
    distinct months are consecutive month starts. *)
Theorem passed_report_vouches_for_the_frame :
  forall to_datetime to_datetime_num df r,
    run_checks to_datetime to_datetime_num df = Ok r ->
    report_passed r = true ->
    (forall c, c ∈ required_cols ->
       exists cells, column df c = Some cells /\ Forall (fun x => isna x = false) cells)
    /\ ForallOrdPairs (fun k k' => cells_eqb k k' = false) (keys_of df)
    /\ key_cols_of df = ["time"; "geo"; "coicop"; "unit"]
    /\ (forall values, column df "value" = Some values -> Forall positive_value values)
    /\ (forall times, column df "time" = Some times ->
          Forall (fun x => is_Some (to_datetime_coerce to_datetime to_datetime_num x)) times)
    /\ (forall k sub,
          In (k, sub) (series_of df) ->
          exists ts,
            to_datetime_dropna to_datetime to_datetime_num
              (map (row_get (time_position df)) sub) = Ok ts
            /\ (Forall valid_timestamp ts ->
                (length (distinct_sorted ts) < 3)%nat
                \/ consecutive_month_starts (distinct_sorted ts))).
Proof.
  intros td tdn df r H Hp.
  destruct (passed_rules td tdn df r H Hp)
    as (Hm & Hnn & Hkeys & (values & Hv & Hpos) & (times & Ht & Hconv) & Hfreq).
  split; [|split; [exact Hkeys|split; [|split; [|split]]]].
  - intros c Hc. destruct (has_column_column df c) as [cells Hcells];
      [now apply missing_cols_nil|].
    exists cells. split; [exact Hcells|]. now apply (Hnn c).
  - now destruct (passed_four_columns td tdn df r H Hp).
  - intros values' Hv'. rewrite Hv in Hv'. now injection Hv' as <-.
  - intros times' Ht'. rewrite Ht in Ht'. now injection Ht' as <-.
  - intros k sub Hin. rewrite List.Forall_forall in Hfreq.
    apply (monthly_frequency_ok_true td tdn). exact (Hfreq _ Hin).
Qed.

Lemma passed_report_vouches_for_the_frame_witness :
  exists r,
    run_checks (fun _ => None) (fun _ => None) two_months = Ok r
    /\ report_passed r = true
    /\ Forall positive_value [CNum 100.0; CNum 101.5].
Proof.
  eexists. split; [reflexivity|]. split; [reflexivity|].
  exact (proj1 (proj2 (proj2 (proj2
           (passed_report_vouches_for_the_frame (fun _ => None) (fun _ => None)
              two_months _ eq_refl eq_refl)))) _ eq_refl).
Defined.

Section unconvertible_time.
Variable to_datetime : string -> option Timestamp.
Variable to_datetime_num : Q -> option Timestamp.

Local Abbreviation coerce := (to_datetime_coerce to_datetime to_datetime_num).
Local Abbreviation dropna := (to_datetime_dropna to_datetime to_datetime_num).
Local Abbreviation frequency_ok := (_monthly_frequency_ok to_datetime to_datetime_num).
Local Abbreviation loop := (frequency_loop to_datetime to_datetime_num).

Lemma to_datetime_dropna_cases times :
  (exists ts, dropna times = Ok ts)
  \/ dropna times = Raise (ValueError "to_datetime: cannot convert").
Proof.
  induction times as [|c times IH]; [left; eexists; reflexivity|].
  destruct c as [|s|q|t]; simpl; [exact IH| | |].
  - destruct (to_datetime s); [|now right].
    destruct IH as [[ts ->]| ->]; simpl; [left; eauto | now right].
  - destruct (to_datetime_num q); [|now right].
    destruct IH as [[ts ->]| ->]; simpl; [left; eauto | now right].
  - destruct IH as [[ts ->]| ->]; simpl; [left; eauto | now right].
Qed.


Lemma monthly_frequency_ok_cases times :
  (exists b, frequency_ok times = Ok b)
  \/ frequency_ok times = Raise (ValueError "to_datetime: cannot convert").
Proof.
  unfold _monthly_frequency_ok.
  destruct (to_datetime_dropna_cases times) as [[ts ->]| ->]; [left|now right].
  simpl. destruct (length (distinct_sorted ts) <? 3)%nat; [eauto|].
  destruct (head (distinct_sorted ts)), (last (distinct_sorted ts)); eauto.
Qed.



End unconvertible_time.



(** * The loader *)

Import load_hicp_to_sql.

Lemma map_result_Raise {A B} (f : A -> result B) l e :
  map_result f l = Raise e -> exists x, In x l /\ f x = Raise e.
Proof.
  induction l as [|x l IH]; simpl; [discriminate|].
  destruct (f x) as [y|e'] eqn:Hx; simpl.
  - destruct (map_result f l) as [ys|e'']; simpl; [discriminate|].
    intro H. injection H as ->. destruct (IH eq_refl) as (x' & Hin & Hx'). eauto.
  - intro H. injection H as ->. eauto.
Qed.


Section loader_facts.
Variable to_datetime : string -> option Timestamp.
Variable to_datetime_num : Q -> option Timestamp.
Variable str_other : cell -> string.

Local Abbreviation read := (read_processed to_datetime to_datetime_num str_other).
Local Abbreviation load := (load_hicp_to_sql.main to_datetime to_datetime_num str_other).



Lemma main_after_read st db df geo coicop unit :
  read st = Ok (df, (geo, coicop, unit)) ->
  load true st db
  = to_sql (data df) (delete_existing_series (ensure_table db) geo coicop unit).
Proof. intro H. unfold load_hicp_to_sql.main. rewrite H. reflexivity. Qed.

(** The table after the delete and the insert of a run that got to them. *)
Lemma to_sql_after_delete db geo coicop unit rows :
  let kept := other_series geo coicop unit (default [] (fact_hicp db)) in
  let ok := forallb not_null_ok rows
            && keys_unique (map (key_of [0; 1; 2; 3]%nat) (kept ++ rows)) in
  to_sql rows (delete_existing_series (ensure_table db) geo coicop unit)
  = (if ok then Ok () else Raise (IntegrityError "constraint violated"),
     mkDatabase (Some (if ok then kept ++ rows else kept))
       (executed db ++ [CreateTableIfMissing; DeleteSeries geo coicop unit; InsertRows rows])).
Proof.
  unfold to_sql, delete_existing_series, ensure_table, other_series. simpl.
  rewrite <- !app_assoc. simpl.
  destruct (forallb not_null_ok rows && _); reflexivity.
Qed.

End loader_facts.





(** ** Loading the same batch again *)

Lemma other_series_app geo coicop unit l1 l2 :
  other_series geo coicop unit (l1 ++ l2)
  = other_series geo coicop unit l1 ++ other_series geo coicop unit l2.
Proof. unfold other_series. apply filter_app. Qed.

Lemma other_series_idem geo coicop unit l :
  other_series geo coicop unit (other_series geo coicop unit l)
  = other_series geo coicop unit l.
Proof.
  unfold other_series. apply filter_all.
  now intros r [Hr _]%list_elem_of_filter.
Qed.

Lemma other_series_none geo coicop unit rows :
  Forall (fun r => in_series geo coicop unit r = true) rows ->
  other_series geo coicop unit rows = [].
Proof.
  intro Hall. unfold other_series. apply filter_none.
  intros r Hr%list_elem_of_In Hf. rewrite List.Forall_forall in Hall.
  rewrite (Hall r Hr) in Hf. discriminate.
Qed.

Lemma keys_unique_repeated k l1 l2 :
  In k l1 -> In k l2 -> keys_unique (l1 ++ l2) = false.
Proof.
  intros H1 H2. induction l1 as [|k' l1 IH]; [destruct H1|].
  simpl. destruct H1 as [->|H1].
  - replace (existsb (cells_eqb k) (l1 ++ l2)) with true; [reflexivity|].
    symmetry. apply existsb_exists. exists k. split; [|apply cells_eqb_refl].
    apply in_or_app. now right.
  - rewrite (IH H1). apply andb_false_r.
Qed.

(** X15.  After a run that loaded a batch, a second run on the same
    container leaves the table exactly as the first did when every row of
    the batch is of the series of its first row.  When the batch holds a row
    of another series, the second run raises [IntegrityError]: that row is
    still in the table, and the run ends with the series of the first row
    deleted. *)
Theorem reloading_is_idempotent_for_one_series_only :
  forall to_datetime to_datetime_num str_other st db db1 df geo coicop unit,
    read_processed to_datetime to_datetime_num str_other st
    = Ok (df, (geo, coicop, unit)) ->
    load_hicp_to_sql.main to_datetime to_datetime_num str_other true st db = (Ok (), db1) ->
    (Forall (fun r => in_series geo coicop unit r = true) (data df) ->
     exists db2,
       load_hicp_to_sql.main to_datetime to_datetime_num str_other true st db1
       = (Ok (), db2)
       /\ fact_hicp db2 = fact_hicp db1)
    /\ (Exists (fun r => in_series geo coicop unit r = false) (data df) ->
        exists db2,
          load_hicp_to_sql.main to_datetime to_datetime_num str_other true st db1
          = (Raise (IntegrityError "constraint violated"), db2)
          /\ fact_hicp db2
             = Some (other_series geo coicop unit (default [] (fact_hicp db1)))
          /\ Forall (fun r => in_series geo coicop unit r = false)
               (default [] (fact_hicp db2))).
Proof.
  intros td tdn so st db db1 df geo coicop unit Hread Hfirst.
  rewrite (main_after_read td tdn so _ _ _ _ _ _ Hread), to_sql_after_delete in Hfirst.
  rewrite !(main_after_read td tdn so _ _ _ _ _ _ Hread), !to_sql_after_delete.
  remember (other_series geo coicop unit (default [] (fact_hicp db))) as kept eqn:Hkept.
  assert (Hidem : other_series geo coicop unit kept = kept)
    by (subst kept; apply other_series_idem).
  destruct (forallb not_null_ok (data df)
            && keys_unique (map (key_of [0; 1; 2; 3]%nat) (kept ++ data df))) eqn:Hok;
    [|discriminate].
  injection Hfirst as <-. simpl fact_hicp. simpl default.
  rewrite other_series_app, Hidem.
  split.
  - intro Hall. rewrite (other_series_none _ _ _ _ Hall), app_nil_r, Hok.
    eexists. split; reflexivity.
  - intro Hex. apply List.Exists_exists in Hex as (r & Hr & Hout).
    assert (Hdup : keys_unique
              (map (key_of [0; 1; 2; 3]%nat)
                 ((kept ++ other_series geo coicop unit (data df)) ++ data df)) = false).
    { rewrite map_app.
      apply (keys_unique_repeated (key_of [0; 1; 2; 3]%nat r)); apply in_map; [|exact Hr].
      apply in_or_app. right. apply list_elem_of_In. apply list_elem_of_filter.
      split; [exact Hout | now apply list_elem_of_In]. }
    rewrite Hdup, andb_false_r. eexists. split; [reflexivity|]. split; [reflexivity|].
    simpl. rewrite <- Hidem, <- other_series_app. apply List.Forall_forall.
    intros r' Hr'%list_elem_of_In. now apply list_elem_of_filter in Hr' as [? _].
Qed.

Lemma reloading_is_idempotent_for_one_series_only_witness :
  load_hicp_to_sql.main (fun _ => None) (fun _ => None) (fun _ => "") true
    (validated two_units_processed) fresh_database
  = (Ok (), two_units_loaded)
  /\ exists db2,
       load_hicp_to_sql.main (fun _ => None) (fun _ => None) (fun _ => "") true
         (validated two_units_processed) two_units_loaded
       = (Raise (IntegrityError "constraint violated"), db2)
       /\ fact_hicp db2
          = Some [[CTime jan; CStr "LU"; CStr "CP00"; CStr "I05"; CNum 90.0;
                   CStr "2024-03-01T11:59:00+00:00"; CStr "raw/x.json"]].
Proof.
  split; [vm_compute; reflexivity|].
  destruct (proj2 (reloading_is_idempotent_for_one_series_only
                     (fun _ => None) (fun _ => None) (fun _ => "")
                     (validated two_units_processed) fresh_database two_units_loaded
                     two_units_processed "LU" "CP00" "I15" eq_refl eq_refl))
    as (db2 & Hrun & Htable & _).
  - right. left. reflexivity.
  - exists db2. split; [exact Hrun | exact Htable].
Defined.

(** ** The validator's verdict and the loader *)

Lemma str_contains_prefix sub s : String.prefix sub s = true -> str_contains sub s = true.
Proof.
  intro H.
  assert (Hunfold : str_contains sub s
                    = String.prefix sub s
                      || match s with
                         | EmptyString => false
                         | String _ s' => str_contains sub s'
                         end) by (destruct s; reflexivity).
  rewrite Hunfold, H. reflexivity.
Qed.

Lemma str_contains_app sub a s :
  str_contains sub s = true -> str_contains sub (a +:+ s) = true.
Proof.
  intro H. induction a as [|c a IH]; [exact H|].
  change (String c a +:+ s) with (String c (a +:+ s)).
  simpl. rewrite IH. apply orb_true_r.
Qed.

Lemma pass_key_is_marked qp ts :
  str_contains "_PASS.json" (qp +:+ "ts=" +:+ ts +:+ "_" +:+ "PASS" +:+ ".json") = true.
Proof. do 3 apply str_contains_app. reflexivity. Qed.

Lemma str_contains_cons sub c s :
  str_contains sub (String c s) = String.prefix sub (String c s) || str_contains sub s.
Proof. reflexivity. Qed.

Lemma prefix_cons a s1 b s2 :
  String.prefix (String a s1) (String b s2)
  = if ascii_dec a b then String.prefix s1 s2 else false.
Proof. reflexivity. Qed.

Lemma no_marker_after_strftime_text ts :
  strftime_text ts = true -> str_contains "_PASS.json" (ts +:+ "_FAIL.json") = false.
Proof.
  unfold strftime_text. induction ts as [|c ts IH]; [reflexivity|].
  change (list_ascii_of_string (String c ts)) with (c :: list_ascii_of_string ts).
  change (String c ts +:+ "_FAIL.json") with (String c (ts +:+ "_FAIL.json")).
  intros [Hc Hts]%andb_true_iff.
  rewrite str_contains_cons, (IH Hts), orb_false_r.
  change "_PASS.json" with (String "_" "PASS.json"). rewrite prefix_cons.
  destruct (ascii_dec "_" c) as [_|_]; [|reflexivity].
  destruct ts as [|c' ts]; [reflexivity|].
  change (String c' ts +:+ "_FAIL.json") with (String c' (ts +:+ "_FAIL.json")).
  change "PASS.json" with (String "P" "ASS.json"). rewrite prefix_cons.
  destruct (ascii_dec "P" c') as [<-|_]; [|reflexivity].
  change (list_ascii_of_string (String "P" ts)) with ("P"%char :: list_ascii_of_string ts)
    in Hts.
  apply andb_true_iff in Hts as [Hp _]. vm_compute in Hp. discriminate.
Qed.

Lemma fail_key_is_not_marked ts :
  strftime_text ts = true ->
  str_contains "_PASS.json"
    (QUALITY_PREFIX_DEFAULT +:+ "ts=" +:+ ts +:+ "_" +:+ "FAIL" +:+ ".json") = false.
Proof.
  intro Hts. etransitivity; [|exact (no_marker_after_strftime_text ts Hts)].
  reflexivity.
Qed.

Lemma prefix_app_self p s : String.prefix p (p +:+ s) = true.
Proof.
  induction p as [|c p IH]; [now destruct s|].
  change (String c p +:+ s) with (String c (p +:+ s)). rewrite prefix_cons.
  destruct (ascii_dec c c); [exact IH | contradiction].
Qed.

Lemma validator_main_Ok to_datetime to_datetime_num pp qp checked ts m1 m2 st st' :
  check_hicp_quality.main to_datetime to_datetime_num pp qp checked ts m1 m2 st = Ok st' ->
  exists processed_blob df r,
    blob.latest_blob pp st = Some processed_blob
    /\ blob.download_parquet processed_blob st = Ok df
    /\ run_checks to_datetime to_datetime_num df = Ok r
    /\ st' = blob.upload_bytes
               (blob.LatestJson
                  (qp +:+ "ts=" +:+ ts +:+ "_"
                   +:+ (if report_passed r then "PASS" else "FAIL") +:+ ".json"))
               (qp +:+ "LATEST.json") m2
               (blob.upload_bytes (blob.ReportJson processed_blob checked r)
                  (qp +:+ "ts=" +:+ ts +:+ "_"
                   +:+ (if report_passed r then "PASS" else "FAIL") +:+ ".json")
                  m1 st).
Proof.
  intro H. unfold check_hicp_quality.main in H.
  destruct (blob.latest_blob pp st) as [processed_blob|]; [|discriminate].
  destruct (String.eqb processed_blob ""); [discriminate|].
  apply bind_Ok in H as (df & Hdf & H). apply bind_Ok in H as (r & Hr & H).
  injection H as <-. exists processed_blob, df, r. auto.
Qed.

(** X16.  The loader follows the verdict of the last run of the validator
    (run with the default quality prefix): after a run whose report passed,
    the loader's pointer lookup returns the processed blob that run checked,
    and that blob still reads as the frame that was checked; after a run
    whose report failed, the loader raises [RuntimeError] and leaves the
    database as it was. *)
Theorem loader_follows_the_validator_verdict :
  forall to_datetime to_datetime_num str_other pp checked ts m1 m2 st st' sql_env db,
    strftime_text ts = true ->
    check_hicp_quality.main to_datetime to_datetime_num pp QUALITY_PREFIX_DEFAULT
      checked ts m1 m2 st = Ok st' ->
    exists processed_blob df r,
      blob.latest_blob pp st = Some processed_blob
      /\ blob.download_parquet processed_blob st = Ok df
      /\ run_checks to_datetime to_datetime_num df = Ok r
      /\ if report_passed r
         then get_latest_pass_processed_blob st' = Ok processed_blob
              /\ (String.prefix QUALITY_PREFIX_DEFAULT processed_blob = false ->
                  blob.download_parquet processed_blob st' = Ok df)
         else exists report_blob,
                load_hicp_to_sql.main to_datetime to_datetime_num str_other sql_env st' db
                = (Raise (RuntimeError (LatestReportNotPass report_blob)), db).
Proof.
  intros td tdn so pp checked ts m1 m2 st st' sql_env db Hts H.
  apply validator_main_Ok in H as (processed_blob & df & r & Hlatest & Hdf & Hr & ->).
  exists processed_blob, df, r. repeat (split; [assumption|]).
  change (QUALITY_PREFIX_DEFAULT +:+ "LATEST.json") with QUALITY_LATEST_PTR.
  destruct (report_passed r).
  - pose proof (pass_key_is_marked QUALITY_PREFIX_DEFAULT ts) as Hmark.
    pose proof (report_blob_is_not_latest QUALITY_PREFIX_DEFAULT ts "PASS") as Hne.
    change (QUALITY_PREFIX_DEFAULT +:+ "LATEST.json") with QUALITY_LATEST_PTR in Hne.
    remember (QUALITY_PREFIX_DEFAULT +:+ "ts=" +:+ ts +:+ "_" +:+ "PASS" +:+ ".json")
      as report_blob eqn:Hrb.
    split.
    + unfold get_latest_pass_processed_blob, blob.download_bytes, blob.upload_bytes.
      rewrite lookup_insert_eq. simpl. rewrite Hmark. simpl.
      rewrite lookup_insert_ne by congruence.
      rewrite lookup_insert_eq. reflexivity.
    + intro Hp. unfold blob.download_parquet, blob.download_bytes, blob.upload_bytes in *.
      rewrite !lookup_insert_ne; [exact Hdf| |].
      * intros <-. subst report_blob. revert Hp. clear.
        intro Hp. rewrite prefix_app_self in Hp. discriminate.
      * intros <-. vm_compute in Hp. discriminate.
  - pose proof (fail_key_is_not_marked ts Hts) as Hmark.
    remember (QUALITY_PREFIX_DEFAULT +:+ "ts=" +:+ ts +:+ "_" +:+ "FAIL" +:+ ".json")
      as report_blob eqn:Hrb.
    exists report_blob. unfold load_hicp_to_sql.main, read_processed.
    unfold get_latest_pass_processed_blob, blob.download_bytes, blob.upload_bytes.
    rewrite lookup_insert_eq. simpl. rewrite Hmark. reflexivity.
Qed.

Lemma loader_follows_the_validator_verdict_witness :
  exists report_blob,
    load_hicp_to_sql.main (fun _ => None) (fun _ => None) (fun _ => "") true
      (validated zero_value) loaded_before
    = (Raise (RuntimeError (LatestReportNotPass report_blob)), loaded_before).
Proof.
  destruct (loader_follows_the_validator_verdict (fun _ => None) (fun _ => None)
              (fun _ => "") PROCESSED_PREFIX_DEFAULT "2024-03-01T12:00:00+00:00"
              "20240301_120000" "2024-03-01T12:00:01+00:00" "2024-03-01T12:00:02+00:00"
              (one_processed zero_value) (validated zero_value) true loaded_before
              eq_refl eq_refl)
    as (processed_blob & df & r & Hlatest & Hdf & Hr & Hverdict).
  vm_compute in Hlatest. injection Hlatest as <-.
  vm_compute in Hdf. injection Hdf as <-.
  vm_compute in Hr. injection Hr as <-.
  exact Hverdict.
Defined.

(** ** A validated table loads *)




(** A selected row holds, at the place of a label, the cell the row had
    under the label. *)
Lemma select_columns_row df cols i c j r :
  (forall c', c' ∈ cols -> c' ∈ columns df) ->
  cols !! i = Some c -> index_of c (columns df) = Some j ->
  row_get i (map (fun j => row_get j r) (omap (fun c => index_of c (columns df)) cols))
  = row_get j r.
Proof.
  intros Hall Hi Hj. apply (row_get_map (fun j => row_get j r)).
  rewrite (omap_index_of_lookup (columns df) cols i c Hall Hi). exact Hj.
Qed.


Lemma bind_Ok_eq {A B} (a : A) (f : A -> result B) : (Ok a ≫= f) = f a.
Proof. reflexivity. Qed.

Section validated_load.
Variable to_datetime : string -> option Timestamp.
Variable to_datetime_num : Q -> option Timestamp.
Variable str_other : cell -> string.

Local Abbreviation read := (read_processed to_datetime to_datetime_num str_other).



End validated_load.



(** ** A table without rows *)

Section no_rows.
Variable to_datetime : string -> option Timestamp.
Variable to_datetime_num : Q -> option Timestamp.

Lemma column_no_rows df c :
  data df = [] -> has_column df c = true -> column df c = Some [].
Proof.
  intros Hdata Hc. destruct (has_column_column df c Hc) as [cells Hcells].
  rewrite Hcells. apply column_Some in Hcells as (j & _ & ->). now rewrite Hdata.
Qed.

Lemma run_checks_no_rows df :
  data df = [] -> missing_cols df = [] ->
  exists r, run_checks to_datetime to_datetime_num df = Ok r /\ report_passed r = true.
Proof.
  intros Hdata Hm.
  assert (Hc : forall c, c ∈ required_cols -> has_column df c = true)
    by (intros c; apply missing_cols_nil, Hm).
  assert (Ht : has_column df "time" = true) by (apply Hc, list_elem_of_In; simpl; tauto).
  assert (Hg : has_column df "geo" = true) by (apply Hc, list_elem_of_In; simpl; tauto).
  assert (Hco : has_column df "coicop" = true) by (apply Hc, list_elem_of_In; simpl; tauto).
  assert (Hu : has_column df "unit" = true) by (apply Hc, list_elem_of_In; simpl; tauto).
  assert (Hv : has_column df "value" = true) by (apply Hc, list_elem_of_In; simpl; tauto).
  assert (Hnull : all_zero (null_counts_of df) = true).
  { unfold all_zero, null_counts_of. apply forallb_forall.
    intros [c n] (c' & Heq & Hin)%in_map_iff. injection Heq as <- <-.
    rewrite (column_no_rows df c' Hdata (Hc c' (proj2 (list_elem_of_In _ _) Hin))).
    reflexivity. }
  unfold run_checks. rewrite Hm, Hnull.
  rewrite (column_no_rows df "value" Hdata Hv), (column_no_rows df "time" Hdata Ht).
  rewrite !filter_cons, Ht, Hg, Hco, Hu. simpl forallb. rewrite Ht, Hg, Hco, Hu.
  rewrite Hdata. eexists. split; reflexivity.
Qed.

End no_rows.

(** X18.  A table that has the required columns and no row passes every
    rule of the validator, yet the loader cannot load it: its read of the
    first row raises [IndexError], before any statement, and the database
    stays as it was. *)
Theorem table_without_rows_passes_but_does_not_load :
  forall to_datetime to_datetime_num str_other sql_env st db pb df,
    data df = [] ->
    (forall c, c ∈ table_cols -> has_column df c = true) ->
    get_latest_pass_processed_blob st = Ok pb ->
    blob.download_parquet pb st = Ok df ->
    (exists r, run_checks to_datetime to_datetime_num df = Ok r /\ report_passed r = true)
    /\ load_hicp_to_sql.main to_datetime to_datetime_num str_other sql_env st db
       = (Raise (IndexError "single positional indexer is out-of-bounds"), db).
Proof.
  intros td tdn so sql_env st db pb df Hdata Hcols Hpb Hdf. split.
  - apply run_checks_no_rows; [exact Hdata|].
    apply filter_none. intros c Hc Hf.
    rewrite Hcols in Hf; [discriminate|].
    unfold required_cols in Hc. unfold table_cols.
    rewrite !elem_of_cons, elem_of_nil in *. tauto.
  - unfold load_hicp_to_sql.main, read_processed.
    rewrite Hpb, bind_Ok_eq, Hdf, bind_Ok_eq.
    rewrite (filter_none (fun c => has_column df c = false) table_cols)
      by (intros c Hc Hf; rewrite (Hcols c Hc) in Hf; discriminate).
    rewrite bind_Ok_eq. unfold map_column.
    destruct (index_of_elem "time" (columns (select_columns df table_cols))) as [j ->];
      [simpl; left|].
    unfold select_columns. simpl data. rewrite Hdata. reflexivity.
Qed.

Lemma table_without_rows_passes_but_does_not_load_witness :
  (exists r, run_checks (fun _ => None) (fun _ => None) no_rows_processed = Ok r
             /\ report_passed r = true)
  /\ load_hicp_to_sql.main (fun _ => None) (fun _ => None) (fun _ => "") true
       (validated no_rows_processed) fresh_database
     = (Raise (IndexError "single positional indexer is out-of-bounds"), fresh_database).
Proof.
  apply (table_without_rows_passes_but_does_not_load (fun _ => None) (fun _ => None)
           (fun _ => "") true (validated no_rows_processed) fresh_database processed_key
           no_rows_processed eq_refl); [|reflexivity|reflexivity].
  intros c Hc. unfold table_cols in Hc. rewrite !elem_of_cons, elem_of_nil in Hc.
  destruct Hc as [->|[->|[->|[->|[->|[->|[->|[]]]]]]]]; reflexivity.
Defined.

(** ** The exceptions of [run_checks] *)

Section run_checks_exceptions.
Variable to_datetime : string -> option Timestamp.
Variable to_datetime_num : Q -> option Timestamp.

Local Abbreviation coerce := (to_datetime_coerce to_datetime to_datetime_num).
Local Abbreviation dropna := (to_datetime_dropna to_datetime to_datetime_num).
Local Abbreviation frequency_ok := (_monthly_frequency_ok to_datetime to_datetime_num).
Local Abbreviation loop := (frequency_loop to_datetime to_datetime_num).

Lemma non_positive_count_Raise values e :
  non_positive_count values = Raise e ->
  e = TypeError "'<=' not supported"
  /\ exists c, In c values /\ ~ num_or_null c.
Proof.
  unfold non_positive_count.
  destruct (map_result le_zero values) as [bs|e'] eqn:Hmap; [discriminate|].
  intro H. injection H as ->.
  apply map_result_Raise in Hmap as (c & Hin & Hc).
  destruct c as [|s|q|t]; try discriminate; injection Hc as <-;
    (split; [reflexivity|]); eexists; (split; [exact Hin|]);
    intros [?|[? ?]]; discriminate.
Qed.

Lemma to_datetime_dropna_Raise times e :
  dropna times = Raise e ->
  exists c, In c times /\ isna c = false /\ coerce c = None.
Proof.
  induction times as [|c times IH]; [discriminate|].
  assert (Hrest : dropna times = Raise e ->
                  exists c', In c' (c :: times) /\ isna c' = false /\ coerce c' = None).
  { intro H. destruct (IH H) as (c' & Hin & Hc'). exists c'. split; [now right | exact Hc']. }
  destruct c as [|s|q|t]; simpl; [exact Hrest| | |].
  - destruct (to_datetime s) eqn:Hs.
    + destruct (dropna times); [discriminate|]. intro H. injection H as ->. now apply Hrest.
    + intros _. exists (CStr s). repeat split; [now left | exact Hs].
  - destruct (to_datetime_num q) eqn:Hq.
    + destruct (dropna times); [discriminate|]. intro H. injection H as ->. now apply Hrest.
    + intros _. exists (CNum q). repeat split; [now left | exact Hq].
  - destruct (dropna times); [discriminate|]. intro H. injection H as ->. now apply Hrest.
Qed.

Lemma monthly_frequency_ok_Raise times e :
  frequency_ok times = Raise e ->
  e = ValueError "to_datetime: cannot convert"
  /\ exists c, In c times /\ isna c = false /\ coerce c = None.
Proof.
  intro H. split.
  - destruct (monthly_frequency_ok_cases to_datetime to_datetime_num times) as [[b Hb]|Hr];
      congruence.
  - unfold _monthly_frequency_ok in H.
    destruct (dropna times) as [ts|e'] eqn:Hd; [|eapply to_datetime_dropna_Raise, Hd].
    simpl in H. destruct (length (distinct_sorted ts) <? 3)%nat; [discriminate|].
    destruct (head (distinct_sorted ts)), (last (distinct_sorted ts)); discriminate.
Qed.

Lemma frequency_loop_Raise jt groups e :
  loop jt groups = Raise e ->
  e = ValueError "to_datetime: cannot convert"
  /\ exists k sub c,
       In (k, sub) groups /\ In c (map (row_get jt) sub)
       /\ isna c = false /\ coerce c = None.
Proof.
  induction groups as [|[k sub] groups IH]; [discriminate|].
  simpl. destruct (frequency_ok (map (row_get jt) sub)) as [b|e'] eqn:Hok; simpl.
  - destruct (loop jt groups) as [r|e''] eqn:Hloop; [discriminate|].
    simpl. intro H. injection H as ->.
    destruct (IH eq_refl) as (He & k' & sub' & c & Hin & Hc). split; [exact He|].
    exists k', sub', c. split; [now right | exact Hc].
  - intro H. injection H as ->.
    apply monthly_frequency_ok_Raise in Hok as (He & c & Hc). split; [exact He|].
    exists k, sub, c. split; [now left | exact Hc].
Qed.

Lemma run_checks_Raise df e :
  run_checks to_datetime to_datetime_num df = Raise e ->
  (e = TypeError "'<=' not supported"
   /\ exists values c, column df "value" = Some values /\ In c values /\ ~ num_or_null c)
  \/ (e = ValueError "to_datetime: cannot convert"
      /\ forallb (has_column df) ["time"; "geo"; "coicop"; "unit"] = true
      /\ exists row,
           In row (data df)
           /\ forallb (fun c => negb (isna c))
                (key_of (omap (fun c => index_of c (columns df)) ["geo"; "coicop"; "unit"])
                   row) = true
           /\ isna (row_get (time_position df) row) = false
           /\ coerce (row_get (time_position df) row) = None).
Proof.
  unfold run_checks.
  destruct (column df "value") as [values|] eqn:Hv.
  - destruct (non_positive_count values) as [n|e'] eqn:Hn.
    + rewrite bind_Ok_eq, bind_Ok_eq.
      destruct (forallb (has_column df) ["time"; "geo"; "coicop"; "unit"]) eqn:Hfour;
        [|discriminate].
      destruct (frequency_loop _ _ _ _) as [r|e'] eqn:Hloop; [discriminate|].
      intro H. injection H as ->. right.
      apply frequency_loop_Raise in Hloop as (He & k & sub & c & Hin & Hc & Hnn & Hnone).
      split; [exact He|]. split; [reflexivity|].
      apply in_map_iff in Hc as (row & <- & Hrow).
      rewrite (groupby_group _ _ _ _ Hin) in Hrow.
      apply list_elem_of_In, list_elem_of_filter in Hrow as [_ Hrow].
      apply list_elem_of_filter in Hrow as [Hkey Hrow].
      exists row. repeat split; [now apply list_elem_of_In | exact Hkey | exact Hnn | exact Hnone].
    + intro H. injection H as ->. left.
      apply non_positive_count_Raise in Hn as (He & c & Hin & Hc).
      split; [exact He|]. exists values, c. auto.
  - rewrite bind_Ok_eq.
    destruct (forallb (has_column df) ["time"; "geo"; "coicop"; "unit"]) eqn:Hfour;
      [|discriminate].
    destruct (frequency_loop _ _ _ _) as [r|e'] eqn:Hloop; [discriminate|].
    intro H. injection H as ->. right.
    apply frequency_loop_Raise in Hloop as (He & k & sub & c & Hin & Hc & Hnn & Hnone).
    split; [exact He|]. split; [reflexivity|].
    apply in_map_iff in Hc as (row & <- & Hrow).
    rewrite (groupby_group _ _ _ _ Hin) in Hrow.
    apply list_elem_of_In, list_elem_of_filter in Hrow as [_ Hrow].
    apply list_elem_of_filter in Hrow as [Hkey Hrow].
    exists row. repeat split; [now apply list_elem_of_In | exact Hkey | exact Hnn | exact Hnone].
Qed.

End run_checks_exceptions.

(** X19.  [run_checks] raises in two cases only.  It raises [TypeError]
    when the value column holds a cell that is neither a number nor a null,
    and [ValueError] when the four key columns are there and a row with its
    three series keys has a time that is present and does not convert.  A
    missing column, a null, a duplicate, a value at or below zero or a gap
    never makes it raise. *)
Theorem run_checks_raises_only_on_unusable_cells :
  forall to_datetime to_datetime_num df e,
    run_checks to_datetime to_datetime_num df = Raise e ->
    (e = TypeError "'<=' not supported"
     /\ exists values c,
          column df "value" = Some values /\ In c values /\ ~ num_or_null c)
    \/ (e = ValueError "to_datetime: cannot convert"
        /\ forallb (has_column df) ["time"; "geo"; "coicop"; "unit"] = true
        /\ exists row,
             In row (data df)
             /\ forallb (fun c => negb (isna c))
                  (key_of (omap (fun c => index_of c (columns df))
                             ["geo"; "coicop"; "unit"]) row) = true
             /\ isna (row_get (time_position df) row) = false
             /\ to_datetime_coerce to_datetime to_datetime_num
                  (row_get (time_position df) row) = None).
Proof. intros td tdn df e. apply run_checks_Raise. Qed.

Lemma run_checks_raises_only_on_unusable_cells_witness :
  run_checks (fun _ => None) (fun _ => None) bad_time
  = Raise (ValueError "to_datetime: cannot convert")
  /\ forallb (has_column bad_time) ["time"; "geo"; "coicop"; "unit"] = true.
Proof.
  split; [reflexivity|].
  destruct (run_checks_raises_only_on_unusable_cells (fun _ => None) (fun _ => None)
              bad_time _ eq_refl) as [[He _]|(_ & Hfour & _)];
    [discriminate He | exact Hfour].
Defined.

(** X20.  The validator's [main] raises "No processed parquet found" when,
    and only when, no blob of the container has a name that starts with the
    processed prefix. *)
Theorem validator_needs_a_processed_table :
  forall to_datetime to_datetime_num pp qp checked ts m1 m2 st,
    st !! "" = None ->
    (check_hicp_quality.main to_datetime to_datetime_num pp qp checked ts m1 m2 st
     = Raise (RuntimeError (NoProcessedParquet pp))
     <-> forall name b, st !! name = Some b -> String.prefix pp name = false).
Proof.
  intros td tdn pp qp checked ts m1 m2 st Hempty.
  pose proof (latest_blob_spec pp st) as Hspec.
  unfold check_hicp_quality.main.
  destruct (blob.latest_blob pp st) as [name|].
  - destruct Hspec as (Hp & b & Hb & _).
    split; [|intro Hno; rewrite (Hno _ _ Hb) in Hp; discriminate].
    destruct (String.eqb_spec name "") as [->|_]; [congruence|].
    unfold blob.download_parquet, blob.download_bytes. rewrite Hb. simpl.
    destruct (blob.blob_content b) as [?|? ? ?|df|]; simpl; try discriminate.
    destruct (run_checks td tdn df) as [r|e] eqn:Hr; simpl; [discriminate|].
    intro H. injection H as ->.
    apply run_checks_Raise in Hr as [[He _]|[He _]]; discriminate.
  - split; [intros _; exact Hspec | reflexivity].
Qed.

Lemma validator_needs_a_processed_table_witness :
  check_hicp_quality.main (fun _ => None) (fun _ => None)
    PROCESSED_PREFIX_DEFAULT QUALITY_PREFIX_DEFAULT
    "2024-03-01T12:00:00+00:00" "20240301_120000"
    "2024-03-01T12:00:01+00:00" "2024-03-01T12:00:02+00:00" ∅
  = Raise (RuntimeError (NoProcessedParquet PROCESSED_PREFIX_DEFAULT)).
Proof.
  apply (validator_needs_a_processed_table (fun _ => None) (fun _ => None)
           PROCESSED_PREFIX_DEFAULT QUALITY_PREFIX_DEFAULT
           "2024-03-01T12:00:00+00:00" "20240301_120000"
           "2024-03-01T12:00:01+00:00" "2024-03-01T12:00:02+00:00" ∅).
  - apply lookup_empty.
  - intros name b Hb. rewrite lookup_empty in Hb. discriminate.
Defined.

(** ** The summary block *)

Lemma Qmin_list_spec l m :
  Qmin_list l = Some m -> In m l /\ forall x, In x l -> (m <= x)%Q.
Proof.
  destruct l as [|q l]; [discriminate|]. simpl. intro H. injection H as <-.
  revert q. induction l as [|b l IH]; intro q; simpl.
  - split; [now left|]. intros x [<-|[]]. apply Qle_refl.
  - destruct (IH (if Qle_bool b q then b else q)) as [Hin Hle].
    assert (Hacc : ((if Qle_bool b q then b else q) <= q)%Q
                   /\ ((if Qle_bool b q then b else q) <= b)%Q).
    { destruct (Qle_bool b q) eqn:E.
      - apply Qle_bool_iff in E. split; [exact E | apply Qle_refl].
      - split; [apply Qle_refl|]. apply Qlt_le_weak, Qnot_le_lt. intro Hc.
        apply Qle_bool_iff in Hc. congruence. }
    split.
    + destruct Hin as [Heq|Hin]; [|now right; right].
      rewrite <- Heq. destruct (Qle_bool b q); [right; now left | now left].
    + assert (Hm : (fold_left (fun a b0 => if Qle_bool b0 a then b0 else a) l
                      (if Qle_bool b q then b else q)
                    <= (if Qle_bool b q then b else q))%Q) by (apply Hle; now left).
      intros x [<-|[<-|Hx]].
      * eapply Qle_trans; [exact Hm | apply Hacc].
      * eapply Qle_trans; [exact Hm | apply Hacc].
      * apply Hle. now right.
Qed.

Lemma Qmax_list_spec l m :
  Qmax_list l = Some m -> In m l /\ forall x, In x l -> (x <= m)%Q.
Proof.
  destruct l as [|q l]; [discriminate|]. simpl. intro H. injection H as <-.
  revert q. induction l as [|b l IH]; intro q; simpl.
  - split; [now left|]. intros x [<-|[]]. apply Qle_refl.
  - destruct (IH (if Qle_bool q b then b else q)) as [Hin Hle].
    assert (Hacc : (q <= (if Qle_bool q b then b else q))%Q
                   /\ (b <= (if Qle_bool q b then b else q))%Q).
    { destruct (Qle_bool q b) eqn:E.
      - apply Qle_bool_iff in E. split; [exact E | apply Qle_refl].
      - split; [apply Qle_refl|]. apply Qlt_le_weak, Qnot_le_lt. intro Hc.
        apply Qle_bool_iff in Hc. congruence. }
    split.
    + destruct Hin as [Heq|Hin]; [|now right; right].
      rewrite <- Heq. destruct (Qle_bool q b); [right; now left | now left].
    + assert (Hm : ((if Qle_bool q b then b else q)
                    <= fold_left (fun a b0 => if Qle_bool a b0 then b0 else a) l
                         (if Qle_bool q b then b else q))%Q) by (apply Hle; now left).
      intros x [<-|[<-|Hx]].
      * eapply Qle_trans; [apply Hacc | exact Hm].
      * eapply Qle_trans; [apply Hacc | exact Hm].
      * apply Hle. now right.
Qed.

Lemma Timestamp_leb_refl t : Timestamp_leb t t = true.
Proof. destruct (Timestamp_leb_total t t); assumption. Qed.

Lemma sorted_times_bounds ts lo hi :
  head (sort_by Timestamp_leb ts) = Some lo ->
  last (sort_by Timestamp_leb ts) = Some hi ->
  In lo ts /\ In hi ts
  /\ forall t, In t ts -> Timestamp_leb lo t = true /\ Timestamp_leb t hi = true.
Proof.
  intros Hhead Hlast.
  pose proof (sort_by_Permutation Timestamp_leb ts) as Hperm.
  assert (Hsorted : StronglySorted (fun a b => Timestamp_leb a b = true)
                      (sort_by Timestamp_leb ts))
    by (apply sort_by_StronglySorted; [apply Timestamp_leb_total | apply Timestamp_leb_trans]).
  destruct (StronglySorted_last _ _ _ Hsorted Hlast) as [Hin Hmax].
  destruct (sort_by Timestamp_leb ts) as [|t0 rest] eqn:Hs; [discriminate|].
  injection Hhead as ->.
  split; [apply (Permutation_in _ Hperm); now left|].
  split; [now apply (Permutation_in _ Hperm)|].
  intros t Ht. apply (Permutation_in _ (Permutation_sym Hperm)) in Ht. split.
  - destruct Ht as [<-|Ht]; [apply Timestamp_leb_refl|].
    apply StronglySorted_inv in Hsorted as [_ Hall].
    rewrite List.Forall_forall in Hall. now apply Hall.
  - destruct (Hmax t Ht) as [->|Hle]; [apply Timestamp_leb_refl | exact Hle].
Qed.

Lemma run_checks_summary to_datetime to_datetime_num df r :
  run_checks to_datetime to_datetime_num df = Ok r ->
  report_summary r = summary_of to_datetime to_datetime_num df.
Proof. intro H. run_checks_cases df H; reflexivity. Qed.

(** X21.  The summary of a report gives the number of rows and the column
    labels of the frame; its min_time and max_time are the earliest and the
    latest of the times that convert, and are absent exactly when no time
    converts; its value_min and value_max are the least and the greatest of
    the values that are present, and are absent exactly when there is
    none. *)
Theorem summary_gives_the_extremes :
  forall to_datetime to_datetime_num df r,
    run_checks to_datetime to_datetime_num df = Ok r ->
    let s := report_summary r in
    summary_rows s = len_df df
    /\ summary_columns s = columns df
    /\ (forall times,
          column df "time" = Some times ->
          let ts := omap (to_datetime_coerce to_datetime to_datetime_num) times in
          match min_time s, max_time s with
          | Some lo, Some hi =>
              In lo ts /\ In hi ts
              /\ forall t, In t ts -> Timestamp_leb lo t = true /\ Timestamp_leb t hi = true
          | None, None => ts = []
          | _, _ => False
          end)
    /\ (forall values,
          column df "value" = Some values ->
          match value_min s, value_max s with
          | Some lo, Some hi =>
              In lo (nums_of values) /\ In hi (nums_of values)
              /\ forall q, In q (nums_of values) -> (lo <= q)%Q /\ (q <= hi)%Q
          | None, None => nums_of values = []
          | _, _ => False
          end).
Proof.
  intros td tdn df r H s. unfold s. rewrite (run_checks_summary _ _ _ _ H).
  unfold summary_of. simpl. split; [reflexivity|]. split; [reflexivity|]. split.
  - intros times Ht. rewrite Ht.
    set (ts := omap (to_datetime_coerce td tdn) times).
    destruct (head (sort_by Timestamp_leb ts)) as [lo|] eqn:Hhead,
             (last (sort_by Timestamp_leb ts)) as [hi|] eqn:Hlast.
    + now apply sorted_times_bounds.
    + apply last_None in Hlast. rewrite Hlast in Hhead. discriminate.
    + destruct (sort_by Timestamp_leb ts) eqn:Hs; [discriminate Hlast | discriminate Hhead].
    + pose proof (sort_by_length Timestamp_leb ts) as Hlen.
      destruct (sort_by Timestamp_leb ts); [|discriminate].
      now destruct ts.
  - intros values Hv. rewrite Hv.
    destruct (Qmin_list (nums_of values)) as [lo|] eqn:Hmin,
             (Qmax_list (nums_of values)) as [hi|] eqn:Hmax.
    + destruct (Qmin_list_spec _ _ Hmin) as [Hlo Hle].
      destruct (Qmax_list_spec _ _ Hmax) as [Hhi Hge]. auto.
    + destruct (nums_of values); discriminate.
    + destruct (nums_of values); discriminate.
    + now destruct (nums_of values).
Qed.

Lemma summary_gives_the_extremes_witness :
  exists r,
    run_checks (fun _ => None) (fun _ => None) two_months = Ok r
    /\ summary_rows (report_summary r) = 2%nat
    /\ min_time (report_summary r) = Some jan
    /\ max_time (report_summary r) = Some feb.
Proof.
  eexists. split; [reflexivity|].
  split; [|split; reflexivity].
  exact (proj1 (summary_gives_the_extremes (fun _ => None) (fun _ => None) two_months
                  _ eq_refl)).
Defined.
